(** * bookvenue: session restore and booking normalisation

    A shallow embedding of the reconciliation layer of the bookvenue client:
    - [src/api/bookingApi.ts]        (module [BookingApi]),
    - the older booking client       (module [BookingApiV1], [src/unnamed/part_001]),
    - [src/app/(tabs)/bookings.tsx]  (module [BookingsScreen]),
    - [src/contexts/AuthContext.tsx] (modules [AuthContext], [SessionStore]),
    - the older auth context         (module [AuthContextV1], [src/unnamed/part_000]),
    - the client over [fetch]        (module [BookingApiV2], [src/unnamed/part_002]).

    The JavaScript values the code receives are untyped ([booking: any]), so
    the embedding works over a type of JSON values with the coercions of the
    language written out (module [JS]). *)

From Stdlib Require Import String Ascii ZArith NArith List Lia Bool DecimalString.
From Stdlib Require Import DecimalFacts DecimalPos DecimalN.
From stdpp Require Import gmap strings.

Local Open Scope string_scope.
Local Open Scope list_scope.
Local Set Warnings "-register-all".

(** ** The JavaScript runtime, as far as the code uses it *)

Module JS.

(** A Number is a double; a finite one is named by a decimal, [Dec neg m k]
    for [(-1)^neg * m / 10^k]: the decimal that [Number::toString] prints for
    it.  The functions that read a number from a string round to the nearest
    double ([JS.NumberValue]); the code does no arithmetic on Numbers. *)
Inductive number : Type :=
| NaN
| Infinity (neg : bool)
| Dec (neg : bool) (m : N) (k : nat).

(** Strings are sequences of code units of the Latin-1 range. *)
Inductive jsval : Type :=
| VUndefined
| VNull
| VBool (b : bool)
| VNum (n : number)
| VStr (s : string)
| VArr (l : list jsval)
| VObj (fields : list (string * jsval)).

(** What a [throw] carries.  [AxiosError] is the rejection of an axios
    request: [response] is [None] when no reply arrived. *)
Inductive exn : Type :=
| TypeError
| SyntaxError
| AxiosError (response : option (Z * jsval))
| Error (message : string).

Inductive result (A : Type) : Type :=
| Ok (a : A)
| Throw (e : exn).
Arguments Ok {A} a.
Arguments Throw {A} e.

Definition bind {A B} (m : result A) (k : A -> result B) : result B :=
  match m with
  | Ok a => k a
  | Throw e => Throw e
  end.

Notation "'let!' x ':=' m 'in' k" := (bind m (fun x => k))
  (at level 10, x name, m at level 100, k at level 200).

(** *** Characters *)

Definition code (c : ascii) : nat := nat_of_ascii c.

Definition isDigit (c : ascii) : bool := (48 <=? code c)%nat && (code c <=? 57)%nat.

(** Digit of a radix up to 16: [0-9], [a-f], [A-F]. *)
Definition radixDigit (radix : N) (c : ascii) : option N :=
  let n := code c in
  let d := if isDigit c then Some (N.of_nat (n - 48))
           else if (97 <=? n)%nat && (n <=? 102)%nat then Some (N.of_nat (n - 87))
           else if (65 <=? n)%nat && (n <=? 70)%nat then Some (N.of_nat (n - 55))
           else None in
  match d with
  | Some v => if (v <? radix)%N then Some v else None
  | None => None
  end.

(** WhiteSpace and LineTerminator code units below U+0100. *)
Definition isWhiteSpace (c : ascii) : bool :=
  let n := code c in
  ((9 <=? n)%nat && (n <=? 13)%nat) || (n =? 32)%nat || (n =? 160)%nat.

Definition lowerChar (c : ascii) : ascii :=
  let n := code c in
  if ((65 <=? n)%nat && (n <=? 90)%nat)
     || ((192 <=? n)%nat && (n <=? 222)%nat && negb (n =? 215)%nat)
  then ascii_of_nat (n + 32) else c.

(** *** String methods *)

Fixpoint mapString (f : ascii -> ascii) (s : string) : string :=
  match s with
  | EmptyString => EmptyString
  | String c r => String (f c) (mapString f r)
  end.

(** [s.toLowerCase()] *)
Definition toLowerCase (s : string) : string := mapString lowerChar s.

(** [s.replace(/\\/g, '/')] *)
Definition replaceBackslashes (s : string) : string :=
  mapString (fun c => if (code c =? 92)%nat then "/"%char else c) s.

(** [s.startsWith(p)] *)
Definition startsWith (p s : string) : bool := String.prefix p s.

Fixpoint repeatChar (c : ascii) (n : nat) : string :=
  match n with
  | O => EmptyString
  | S n' => String c (repeatChar c n')
  end.

(** [s.padStart(n, c)] for a one-character filler. *)
Definition padStart (n : nat) (c : ascii) (s : string) : string :=
  repeatChar c (n - String.length s) +:+ s.

Fixpoint trimStart (s : string) : string :=
  match s with
  | String c r => if isWhiteSpace c then trimStart r else s
  | EmptyString => EmptyString
  end.

Definition trimEnd (s : string) : string :=
  String.rev (trimStart (String.rev s)).

(** Longest prefix of decimal digits, and what follows it. *)
Fixpoint spanDigits (s : string) : string * string :=
  match s with
  | String c r =>
      if isDigit c then let '(d, t) := spanDigits r in (String c d, t)
      else (EmptyString, s)
  | EmptyString => (EmptyString, EmptyString)
  end.

(** Value of the longest prefix of digits of the radix, read after [acc];
    [None] when there is no digit at all. *)
Fixpoint readRadix (radix : N) (acc : option N) (s : string) : option N * string :=
  match s with
  | String c r =>
      match radixDigit radix c with
      | Some d =>
          readRadix radix (Some (match acc with Some a => a * radix + d | None => d end)%N) r
      | None => (acc, s)
      end
  | EmptyString => (acc, EmptyString)
  end.

Definition digitsValue (s : string) : N :=
  match fst (readRadix 10 None s) with Some v => v | None => 0%N end.

(** An optional sign: is it a minus, and what follows. *)
Definition readSign (s : string) : bool * string :=
  match s with
  | String "-" r => (true, r)
  | String "+" r => (false, r)
  | _ => (false, s)
  end.

(** *** Numbers *)

(** Strip the trailing zeros of a fraction. *)
Fixpoint stripZeros (m : N) (k : nat) : N * nat :=
  match k with
  | O => (m, O)
  | S k' => if (m mod 10 =? 0)%N then stripZeros (m / 10)%N k' else (m, k)
  end.

(** [m * 10^e / 10^k] in normal form. *)
Definition mkDec (neg : bool) (m : N) (k : nat) : number :=
  let '(m', k') := stripZeros m k in Dec neg m' k'.

Definition normalize (n : number) : number :=
  match n with
  | Dec neg m k => mkDec neg m k
  | _ => n
  end.

Definition zero : number := Dec false 0 0.

Definition isNaN (n : number) : bool :=
  match n with NaN => true | _ => false end.

(** [n > 0] *)
Definition positive (n : number) : bool :=
  match n with
  | NaN => false
  | Infinity neg => negb neg
  | Dec neg m _ => negb neg && negb (m =? 0)%N
  end.

Definition natDigits (n : N) : string := NilEmpty.string_of_uint (N.to_uint n).

(** Drop the trailing zeros of a digit string. *)
Definition dropTrailingZeros (s : string) : string :=
  let fix go (r : string) : string :=
    match r with
    | String "0" t => go t
    | _ => r
    end in
  String.rev (go (String.rev s)).

Definition signedDigits (z : Z) : string :=
  (if (z <? 0)%Z then "-" else "+") +:+ natDigits (Z.abs_N z).

(** Number::toString (radix 10): with [s] the significant digits and [n]
    the position of the decimal point. *)
Definition Number_toString (x : number) : string :=
  match normalize x with
  | NaN => "NaN"
  | Infinity neg => if neg then "-Infinity" else "Infinity"
  | Dec neg m k =>
      if (m =? 0)%N then "0"
      else
        let ds := natDigits m in
        let s := dropTrailingZeros ds in
        let len := String.length s in
        let n := (Z.of_nat (String.length ds) - Z.of_nat k)%Z in
        let body :=
          if ((Z.of_nat len <=? n) && (n <=? 21))%Z then
            s +:+ repeatChar "0" (Z.to_nat n - len)
          else if ((0 <? n) && (n <=? 21))%Z then
            String.substring 0 (Z.to_nat n) s +:+ "." +:+
            String.substring (Z.to_nat n) (len - Z.to_nat n) s
          else if ((-6 <? n) && (n <=? 0))%Z then
            "0." +:+ repeatChar "0" (Z.to_nat (- n)) +:+ s
          else if (len =? 1)%nat then
            s +:+ "e" +:+ signedDigits (n - 1)
          else
            String.substring 0 1 s +:+ "." +:+ String.substring 1 (len - 1) s
            +:+ "e" +:+ signedDigits (n - 1) in
        (if neg then "-" else "") +:+ body
  end.

(** *** Doubles *)

(** The fraction [x] times [base^p]. *)
Definition scale (base : N) (x : N * N) (p : Z) : N * N :=
  let '(num, den) := x in
  if (0 <=? p)%Z then (num * base ^ Z.to_N p, den)%N
  else (num, den * base ^ Z.to_N (- p))%N.

(** The binary exponent [e] of a positive fraction: the fraction divided
    by [2^e] lies between [2^52] and [2^53], unless [e] would be less than
    -1074, the exponent of the subnormal doubles. *)
Definition binaryExponent (x : N * N) : Z :=
  let '(num, den) := x in
  let e := (Z.of_N (N.log2 num) - Z.of_N (N.log2 den) - 52)%Z in
  let '(a, b) := scale 2 x (- e) in
  let e' := if (a / b <? 2 ^ 52)%N then (e - 1)%Z else e in
  Z.max e' (-1074).

(** [a / b] rounded to an integer, half to even. *)
Definition roundHalfEven (a b : N) : N :=
  let q := (a / b)%N in
  let r := (a mod b)%N in
  match (2 * r ?= b)%N with
  | Lt => q
  | Gt => (q + 1)%N
  | Eq => if N.even q then q else (q + 1)%N
  end.

(** The double nearest to a positive fraction, ties to even: its
    significand and its exponent; [None] beyond the largest double. *)
Definition nearestDouble (x : N * N) : option (N * Z) :=
  let e := binaryExponent x in
  let '(a, b) := scale 2 x (- e) in
  let m := roundHalfEven a b in
  let '(m', e') := if (m =? 2 ^ 53)%N then ((2 ^ 52)%N, (e + 1)%Z) else (m, e) in
  if (971 <? e')%Z then None else Some (m', e').

(** The number of decimal digits of the integer part of a fraction that is
    at least 1; for a smaller one, minus the number of zeros that follow
    the decimal point. *)
Definition decimalExponent (x : N * N) : Z :=
  let '(num, den) := x in
  if (den <=? num)%N then Z.of_nat (String.length (natDigits (num / den)))
  else
    let t := Z.of_nat (String.length (natDigits (den / num))) in
    let '(a, b) := scale 10 x (t - 1) in
    if (b <=? a)%N then (2 - t)%Z else (1 - t)%Z.

(** Of the decimals of [k] digits, the nearest below and the nearest above
    the value [x] of the double [d]: the one that [d] is the Number value
    for, the nearer to [x] when both are, the even one on a tie. *)
Definition nameOfLength (d : N * Z) (x : N * N) (n : Z) (k : nat) : option (N * Z) :=
  let p := (n - Z.of_nat k)%Z in
  let '(a, b) := scale 10 x (- p) in
  let lo := (a / b)%N in
  let hi := (lo + 1)%N in
  let names (s : N) := match nearestDouble (scale 10 (s, 1%N) p) with
                       | Some d' => (fst d' =? fst d)%N && (snd d' =? snd d)%Z
                       | None => false
                       end in
  match names lo, names hi with
  | true, true =>
      match (2 * (a mod b) ?= b)%N with
      | Lt => Some (lo, p)
      | Gt => Some (hi, p)
      | Eq => Some (if N.even lo then lo else hi, p)
      end
  | true, false => Some (lo, p)
  | false, true => Some (hi, p)
  | false, false => None
  end.

(** The shortest such decimal; 17 digits name every double. *)
Fixpoint shortestName (d : N * Z) (x : N * N) (n : Z) (k fuel : nat) : N * Z :=
  match fuel with
  | O => ((fst x / snd x)%N, 0%Z)
  | S fuel' =>
      match nameOfLength d x n k with
      | Some name => name
      | None => shortestName d x n (S k) fuel'
      end
  end.

(** The double nearest to the positive decimal [m * 10^e], under the name
    [Number::toString] prints: the [s], [k] and [n] of its definition. *)
Definition roundedName (neg : bool) (m : N) (e : Z) : number :=
  match nearestDouble (scale 10 (m, 1%N) e) with
  | None => Infinity neg
  | Some (0%N, _) => Dec neg 0 0
  | Some (M, E) =>
      let x := scale 2 (M, 1%N) E in
      let '(s, p) := shortestName (M, E) x (decimalExponent x) 1 17 in
      if (0 <=? p)%Z then Dec neg (s * 10 ^ Z.to_N p) 0 else mkDec neg s (Z.to_nat (- p))
  end.

(** The Number value for [m * 10^e].  An integer below [2^53] is a double,
    and its own name: the doubles around it are the integers around it, so
    it is the one decimal without a fraction that it is the Number value
    for. *)
Definition NumberValue (neg : bool) (m : N) (e : Z) : number :=
  if (m =? 0)%N then Dec neg 0 0
  else if (0 <=? e)%Z && (e <=? 15)%Z && (m * 10 ^ Z.to_N e <? 2 ^ 53)%N then
    Dec neg (m * 10 ^ Z.to_N e) 0
  else roundedName neg m e.

(** *** Reading numbers *)

(** The longest prefix that is a StrDecimalLiteral, with its value and the
    rest of the string; [None] when no prefix is one. *)
Definition readDecimalLiteral (s : string) : option (number * string) :=
  let '(neg, t) := readSign s in
  if startsWith "Infinity" t then
    Some (Infinity neg, String.substring 8 (String.length t - 8) t)
  else
    let '(ip, t1) := spanDigits t in
    let '(fp, t2) :=
      match t1 with
      | String "." r => spanDigits r
      | _ => (EmptyString, t1)
      end in
    match ip, fp with
    | EmptyString, EmptyString => None
    | _, _ =>
        let '(ex, t3) :=
          match t2 with
          | String c r =>
              if (code c =? 101)%nat || (code c =? 69)%nat then
                let '(eneg, r1) := readSign r in
                let '(ed, r2) := spanDigits r1 in
                match ed with
                | EmptyString => (0%Z, t2)
                | _ => (if eneg then (- Z.of_N (digitsValue ed))%Z
                        else Z.of_N (digitsValue ed), r2)
                end
              else (0%Z, t2)
          | EmptyString => (0%Z, t2)
          end in
        let m := digitsValue (ip +:+ fp) in
        let sh := (ex - Z.of_nat (String.length fp))%Z in
        Some (NumberValue neg m sh, t3)
    end.

(** [parseFloat] on a string. *)
Definition parseFloatString (s : string) : number :=
  match readDecimalLiteral (trimStart s) with
  | Some (n, _) => n
  | None => NaN
  end.

(** What follows a leading [0x] or [0X]. *)
Definition stripHexPrefix (s : string) : option string :=
  match s with
  | String "0" (String "x" r) => Some r
  | String "0" (String "X" r) => Some r
  | _ => None
  end.

(** [parseInt] on a string, no radix given: radix 16 after [0x]/[0X],
    radix 10 otherwise. *)
Definition parseIntString (s : string) : number :=
  let '(neg, t) := readSign (trimStart s) in
  let '(radix, t1) :=
    match stripHexPrefix t with
    | Some r => (16%N, r)
    | None => (10%N, t)
    end in
  match fst (readRadix radix None t1) with
  | Some v => NumberValue neg v 0
  | None => NaN
  end.

(** StringToNumber, the coercion of [>] and of arithmetic: the whole
    trimmed string has to be a numeric literal; the empty string is 0. *)
Definition StringToNumber (s : string) : number :=
  let t := trimEnd (trimStart s) in
  let whole (radix : N) (r : string) : number :=
    match readRadix radix None r with
    | (Some v, EmptyString) => NumberValue false v 0
    | _ => NaN
    end in
  match t with
  | EmptyString => zero
  | String "0" (String "x" r) | String "0" (String "X" r) => whole 16%N r
  | String "0" (String "o" r) | String "0" (String "O" r) => whole 8%N r
  | String "0" (String "b" r) | String "0" (String "B" r) => whole 2%N r
  | _ =>
      match readDecimalLiteral t with
      | Some (n, EmptyString) => n
      | _ => NaN
      end
  end.

(** *** Values *)

(** ToBoolean *)
Definition truthy (v : jsval) : bool :=
  match v with
  | VUndefined | VNull => false
  | VBool b => b
  | VNum NaN => false
  | VNum (Dec _ m _) => negb (m =? 0)%N
  | VNum (Infinity _) => true
  | VStr s => negb (s =? "")
  | VArr _ | VObj _ => true
  end.

(** [a || b] *)
Definition or (a b : jsval) : jsval := if truthy a then a else b.

Fixpoint lookup (k : string) (fields : list (string * jsval)) : option jsval :=
  match fields with
  | [] => None
  | (k', v) :: r => if k' =? k then Some v else lookup k r
  end.

(** [v.k] for the property names the code reads: a field of an object, the
    length of an array or a string, [undefined] on the other values, and a
    TypeError on [null] and [undefined]. *)
Definition get (v : jsval) (k : string) : result jsval :=
  match v with
  | VUndefined | VNull => Throw TypeError
  | VObj fields => Ok (match lookup k fields with Some x => x | None => VUndefined end)
  | VArr l => Ok (if k =? "length" then VNum (Dec false (N.of_nat (List.length l)) 0)
                  else VUndefined)
  | VStr s => Ok (if k =? "length" then VNum (Dec false (N.of_nat (String.length s)) 0)
                  else VUndefined)
  | _ => Ok VUndefined
  end.

(** [v?.k] *)
Definition getOpt (v : jsval) (k : string) : jsval :=
  match get v k with
  | Ok x => x
  | Throw _ => VUndefined
  end.

(** ToString, which is also what [v.toString()] returns on the values of
    JSON.  An array is joined with commas, [null] and [undefined] elements
    giving the empty string; an object is ["[object Object]"], unless a
    field of its own named [toString] hides the method: a TypeError. *)
Fixpoint toString (v : jsval) : result string :=
  match v with
  | VUndefined => Ok "undefined"
  | VNull => Ok "null"
  | VBool b => Ok (if b then "true" else "false")
  | VNum n => Ok (Number_toString n)
  | VStr s => Ok s
  | VArr l =>
      (fix joinAll (l : list jsval) : result string :=
         match l with
         | [] => Ok ""
         | x :: r =>
             let! sx := match x with
                        | VUndefined | VNull => Ok ""
                        | _ => toString x
                        end in
             match r with
             | [] => Ok sx
             | _ => let! sr := joinAll r in Ok (sx +:+ "," +:+ sr)
             end
         end) l
  | VObj fields =>
      match lookup "toString" fields with
      | Some _ => Throw TypeError
      | None => Ok "[object Object]"
      end
  end.

(** [l.join(sep)] *)
Fixpoint join (sep : string) (l : list jsval) : result string :=
  match l with
  | [] => Ok ""
  | x :: r =>
      let! sx := match x with
                 | VUndefined | VNull => Ok ""
                 | _ => toString x
                 end in
      match r with
      | [] => Ok sx
      | _ => let! sr := join sep r in Ok (sx +:+ sep +:+ sr)
      end
  end.

(** ToNumber *)
Definition toNumber (v : jsval) : result number :=
  match v with
  | VUndefined => Ok NaN
  | VNull => Ok zero
  | VBool b => Ok (Dec false (if b then 1 else 0) 0)
  | VNum n => Ok n
  | VStr s => Ok (StringToNumber s)
  | VArr _ | VObj _ => let! s := toString v in Ok (StringToNumber s)
  end.

(** [v > 0] *)
Definition gtZero (v : jsval) : result bool :=
  let! n := toNumber v in Ok (positive n).

(** [parseFloat(v)] and [parseInt(v)]: the argument is converted to a
    string first. *)
Definition parseFloat (v : jsval) : result number :=
  let! s := toString v in Ok (parseFloatString s).

Definition parseInt (v : jsval) : result number :=
  let! s := toString v in Ok (parseIntString s).

(** *** The two regular expressions of [formatTime] *)

(** [/^\d{2}:\d{2}$/.test(s)] *)
Definition isColon (c : ascii) : bool := (code c =? 58)%nat.

Definition isHHMM (s : string) : bool :=
  match s with
  | String a (String b (String p (String c (String d EmptyString)))) =>
      isDigit a && isDigit b && isColon p && isDigit c && isDigit d
  | _ => false
  end.

(** [/^\d{2}:\d{2}:\d{2}$/.test(s)] *)
Definition isHHMMSS (s : string) : bool :=
  match s with
  | String a (String b (String p (String c (String d
      (String q (String e (String f EmptyString))))))) =>
      isDigit a && isDigit b && isColon p && isDigit c && isDigit d
      && isColon q && isDigit e && isDigit f
  | _ => false
  end.

End JS.

(** ** The environment: persisted storage, the backend, the random source *)

Module Env.
Import JS.

(** What the JavaScript engine supplies and the repository does not
    define: [JSON.parse] ([None] is a SyntaxError), and for the bookings
    screen [new Date(s)] ([None] is an invalid date) with the text
    [toLocaleTimeString('en-US', {hour: '2-digit', minute: '2-digit',
    hour12: false})] gives for a valid date. *)
Class Engine : Type := {
  JSON_parse : string -> option jsval;
  Date_parse : string -> option Z;
  Date_toLocaleTimeString : Z -> string
}.

Record request : Type := {
  method : string;
  url : string;
  authorization : option string;
  params : list (string * string);
  body : jsval
}.

(** What the backend answers: a status and a decoded body, or nothing
    (the request never got a reply). *)
Inductive reply : Type :=
| Reply (status : Z) (data : jsval)
| NoReply.

(** AsyncStorage, the backend, and the draws [Math.random()] will return,
    [drawn] of which are used up. *)
Record world : Type := {
  storage : gmap string string;
  server : request -> reply;
  random : nat -> number;
  drawn : nat
}.

Definition setStorage (s : gmap string string) (w : world) : world :=
  {| storage := s; server := server w; random := random w; drawn := drawn w |}.

(** An asynchronous function: it reads and writes the world and resolves
    or rejects. *)
Definition comp (A : Type) : Type := world -> result A * world.

Definition ret {A} (a : A) : comp A := fun w => (Ok a, w).
Definition throw {A} (e : exn) : comp A := fun w => (Throw e, w).
Definition lift {A} (r : result A) : comp A := fun w => (r, w).

Definition cbind {A B} (m : comp A) (k : A -> comp B) : comp B :=
  fun w =>
    match m w with
    | (Ok a, w') => k a w'
    | (Throw e, w') => (Throw e, w')
    end.

Notation "'let*' x ':=' m 'in' k" := (cbind m (fun x => k))
  (at level 10, x name, m at level 100, k at level 200).

(** [try { m } catch (error) { h error }] *)
Definition tryCatch {A} (m : comp A) (h : exn -> comp A) : comp A :=
  fun w =>
    match m w with
    | (Ok a, w') => (Ok a, w')
    | (Throw e, w') => h e w'
    end.

Fixpoint mapM {A B} (f : A -> comp B) (l : list A) : comp (list B) :=
  match l with
  | [] => ret []
  | x :: r => let* y := f x in let* ys := mapM f r in ret (y :: ys)
  end.

(** [AsyncStorage.getItem], [setItem] and [removeItem] *)
Definition getItem (k : string) : comp jsval :=
  fun w => (Ok (match storage w !! k with Some s => VStr s | None => VNull end), w).

Definition setItem (k v : string) : comp unit :=
  fun w => (Ok tt, setStorage (<[k := v]> (storage w)) w).

Definition removeItem (k : string) : comp unit :=
  fun w => (Ok tt, setStorage (delete k (storage w)) w).

(** [Math.random()] *)
Definition Math_random : comp number :=
  fun w => (Ok (random w (drawn w)),
            {| storage := storage w; server := server w;
               random := random w; drawn := S (drawn w) |}).

Definition API_URL : string := "https://admin.bookvenue.app/api".

(** The request interceptor both clients install: the persisted token, when
    there is one, goes out as a bearer credential. *)
Definition withToken (m path : string) (query : list (string * string))
    (payload : jsval) : comp request :=
  let* token := getItem "token" in
  ret {| method := m; url := API_URL +:+ path; params := query;
         authorization := match token with
                          | VStr t => if truthy token then Some ("Bearer " +:+ t) else None
                          | _ => None
                          end;
         body := payload |}.

(** The transport: a status of the 2xx range resolves with the body, any
    other status and a missing reply reject with an [AxiosError]. *)
Definition dispatch (r : request) : comp jsval :=
  fun w =>
    match server w r with
    | Reply status data =>
        if ((200 <=? status) && (status <? 300))%Z then (Ok data, w)
        else (Throw (AxiosError (Some (status, data))), w)
    | NoReply => (Throw (AxiosError None), w)
    end.

(** [error.response?.data?.message || fallback], made the message of a
    [new Error(..)]. *)
Definition backendMessage (error : exn) (fallback : string) : result string :=
  let m := match error with
           | AxiosError (Some (_, data)) => getOpt data "message"
           | _ => VUndefined
           end in
  toString (or m (VStr fallback)).

Definition rethrow {A} (fallback : string) (error : exn) : comp A :=
  let* msg := lift (backendMessage error fallback) in throw (Error msg).

(** [JSON.parse(v)]: the argument is converted to a string first. *)
Definition parseJSON `{Engine} (v : jsval) : result jsval :=
  let! text := toString v in
  match JSON_parse text with
  | Some parsed => Ok parsed
  | None => Throw SyntaxError
  end.

End Env.

(** ** [src/api/bookingApi.ts] *)

Module BookingApi.
Import JS Env.

Section WithEngine.
Context `{Engine}.

(** [formatTime].  Its parameter is declared a string and the call sites
    pass whatever the slot holds, so it is defined on every value: the
    regular expressions and [parseInt] convert it to a string, [substring]
    exists on strings only. *)
Definition formatTime (timeString : jsval) : result jsval :=
  if negb (truthy timeString) then Ok (VStr "")
  else
    let! s := toString timeString in
    if isHHMM s then Ok timeString
    else if isHHMMSS s then
      match timeString with
      | VStr t => Ok (VStr (String.substring 0 5 t))
      | _ => Throw TypeError
      end
    else
      let hour := parseIntString s in
      if negb (isNaN hour) then
        Ok (VStr (padStart 2 "0" (Number_toString hour) +:+ ":00"))
      else Ok timeString.

Definition ASSET_HOST : string := "https://admin.bookvenue.app/".

Definition FALLBACK_IMAGE : string :=
  "https://images.pexels.com/photos/1263426/pexels-photo-1263426.jpeg?auto=compress&cs=tinysrgb&w=1260&h=750&dpr=2".

(** The canonical booking, as the object literals of [getBookings] and
    [getBookingById] build it. *)
Record Venue : Type := {
  venue_id : jsval;
  name : jsval;
  location : jsval;
  type : jsval;
  slug : jsval;
  images : list jsval;
  latitude : number;
  longitude : number
}.

Record Booking : Type := {
  id : string;
  venue : Venue;
  date : jsval;
  startTime : jsval;
  endTime : jsval;
  totalAmount : number;
  status : string;
  slots : jsval
}.

(** [parsedImages.map(img => `https://admin.bookvenue.app/${img.replace(/\\/g, '/')}`)]:
    [replace] exists on strings only. *)
Fixpoint hostImages (l : list jsval) : result (list string) :=
  match l with
  | [] => Ok []
  | VStr img :: r =>
      let! rest := hostImages r in
      Ok ((ASSET_HOST +:+ replaceBackslashes img) :: rest)
  | _ :: _ => Throw TypeError
  end.

(** The [try] block of the image parsing; its [catch] only logs. *)
Definition parsedFacilityImages (booking : jsval) : list string :=
  match (let! images := get booking "images" in
         if truthy images then
           let! parsedImages := parseJSON images in
           match parsedImages with
           | VArr l => hostImages l
           | _ => Throw TypeError
           end
         else Ok []) with
  | Ok l => l
  | Throw _ => []
  end.

(** [facilityImages], lines 65 to 85: parsed images, the featured image
    put in front, the stock image when there is none. *)
Definition facilityImages (booking : jsval) : result (list string) :=
  let parsed := parsedFacilityImages booking in
  let! facility_image := get booking "facility_image" in
  let! withFeatured :=
    (if truthy facility_image then
       let! text := toString facility_image in Ok ((ASSET_HOST +:+ text) :: parsed)
     else Ok parsed) in
  Ok (match withFeatured with
      | [] => [FALLBACK_IMAGE]
      | _ => withFeatured
      end).

(** [booking.k || fallback] *)
Definition field (booking : jsval) (k fallback : string) : result jsval :=
  let! v := get booking k in Ok (or v (VStr fallback)).

(** [parseFloat(booking.price || '0')] *)
Definition totalPrice (booking : jsval) : result number :=
  let! price := field booking "price" "0" in parseFloat price.

(** [(booking.status || 'pending').toLowerCase()] *)
Definition bookingStatus (booking : jsval) : result string :=
  let! st := field booking "status" "pending" in
  match st with
  | VStr s => Ok (toLowerCase s)
  | _ => Throw TypeError
  end.

(** [booking.slots && booking.slots.length > 0]; the second component is
    [booking.slots.length]. *)
Definition hasSlots (booking : jsval) : result (bool * jsval) :=
  let! slots := get booking "slots" in
  if truthy slots then
    let! len := get slots "length" in
    let! pos := gtZero len in
    Ok (pos, len)
  else Ok (false, VUndefined).

Definition slotsCount (booking : jsval) : result jsval :=
  let! some := hasSlots booking in
  Ok (if fst some then snd some else VNum zero).

(** [booking.slots.map(slot => { const time = slot.k1 || slot.k2;
    return time ? formatTime(time) : null; }).filter(Boolean)] *)
Fixpoint slotTimeList (k1 k2 : string) (l : list jsval) : result (list jsval) :=
  match l with
  | [] => Ok []
  | slot :: r =>
      let! t1 := get slot k1 in
      let! t2 := get slot k2 in
      let time := or t1 t2 in
      let! formatted := (if truthy time then formatTime time else Ok VNull) in
      let! rest := slotTimeList k1 k2 r in
      Ok (if truthy formatted then formatted :: rest else rest)
  end.

Definition joinTimes (times : list jsval) : result string :=
  match times with
  | [] => Ok ""
  | _ => join ", " times
  end.

(** [startTime] and [endTime], lines 94 to 110.  [map] exists on arrays
    only. *)
Definition slotTimes (booking : jsval) : result (string * string) :=
  let! some := hasSlots booking in
  if fst some then
    let! slots := get booking "slots" in
    match slots with
    | VArr l =>
        let! startTimes := slotTimeList "start_time" "startTime" l in
        let! endTimes := slotTimeList "end_time" "endTime" l in
        let! startTime := joinTimes startTimes in
        let! endTime := joinTimes endTimes in
        Ok (startTime, endTime)
    | _ => Throw TypeError
    end
  else Ok ("", "").

(** [v?.toString()]: [None] stands for [undefined]. *)
Definition toStringOpt (v : jsval) : result (option string) :=
  match v with
  | VUndefined | VNull => Ok None
  | _ => let! s := toString v in Ok (Some s)
  end.

(** [booking.bookingId?.toString() || Math.random().toString()] *)
Definition bookingIdentifier (booking : jsval) : comp string :=
  let* bookingId := lift (get booking "bookingId") in
  let* text := lift (toStringOpt bookingId) in
  match text with
  | Some s => if negb (s =? "") then ret s
              else let* r := Math_random in ret (Number_toString r)
  | None => let* r := Math_random in ret (Number_toString r)
  end.

(** The callback of [bookingsData.map] in [getBookings]. *)
Definition processBooking (booking : jsval) : comp Booking :=
  let* facilityImages := lift (facilityImages booking) in
  let* facilityName := lift (field booking "facility" "Unknown Venue") in
  let* courtName := lift (field booking "court" "Court") in
  let* bookingDate := lift (get booking "date") in
  let* totalPrice := lift (totalPrice booking) in
  let* bookingStatus := lift (bookingStatus booking) in
  let* slotsCount := lift (slotsCount booking) in
  let* times := lift (slotTimes booking) in
  let* ident := bookingIdentifier booking in
  let* venueId := lift (field booking "facility_slug" "venue-1") in
  let* address := lift (field booking "address" "Location not available") in
  let* venueSlug := lift (field booking "facility_slug" "venue-1") in
  let* lat := lift (let! v := field booking "lat" "28.6139" in parseFloat v) in
  let* lng := lift (let! v := field booking "lng" "77.2090" in parseFloat v) in
  ret {| id := ident;
         venue := {| venue_id := venueId; name := facilityName;
                     location := address; type := courtName; slug := venueSlug;
                     images := map VStr facilityImages;
                     latitude := lat; longitude := lng |};
         date := bookingDate;
         startTime := VStr (fst times);
         endTime := VStr (snd times);
         totalAmount := totalPrice;
         status := bookingStatus;
         slots := slotsCount |}.

(** The axios instance of this file: the request interceptor, and no
    response interceptor. *)
Definition api_get (path : string) : comp jsval :=
  let* r := withToken "GET" path [] VUndefined in dispatch r.

Definition api_post (path : string) (payload : jsval) : comp jsval :=
  let* r := withToken "POST" path [] payload in dispatch r.

Definition getBookings : comp (list Booking) :=
  tryCatch
    (let* data := api_get "/my-bookings" in
     if negb (truthy data) then ret []
     else
       let* bookings := lift (get data "bookings") in
       match or bookings (VArr []) with
       | VArr bookingsData => mapM processBooking bookingsData
       | _ => throw TypeError
       end)
    (rethrow "Failed to fetch bookings").

(** [a || b?.k || fallback] *)
Definition fieldOrNested (booking : jsval) (k parent nested fallback : string)
  : result jsval :=
  let! direct := get booking k in
  let! p := get booking parent in
  Ok (or (or direct (getOpt p nested)) (VStr fallback)).

(** The object literal of [getBookingById], for a booking that is not
    falsy. *)
Definition bookingDetails (id : string) (booking : jsval) : result Booking :=
  let! venue_image := get booking "venue_image" in
  let! facility := get booking "facility" in
  let featured := getOpt facility "featured_image" in
  let! venueImage :=
    (if truthy venue_image then Ok venue_image
     else if truthy featured then
       match featured with
       | VStr f => Ok (VStr (ASSET_HOST +:+ replaceBackslashes f))
       | _ => Throw TypeError
       end
     else Ok (VStr FALLBACK_IMAGE)) in
  let! rawId := get booking "id" in
  let! idText := toStringOpt rawId in
  let! facilityId := get booking "facility_id" in
  let! facilityIdText := toStringOpt facilityId in
  let! venueName := fieldOrNested booking "facility_name" "facility" "official_name" "Unknown Venue" in
  let! court := fieldOrNested booking "court_name" "court" "court_name" "Court" in
  let! address := fieldOrNested booking "venue_location" "facility" "address" "Location not available" in
  let! venueSlug := fieldOrNested booking "facility_slug" "facility" "slug" "venue-1" in
  let! lat := (let! v := fieldOrNested booking "venue_lat" "facility" "lat" "28.6139" in parseFloat v) in
  let! lng := (let! v := fieldOrNested booking "venue_lng" "facility" "lng" "77.2090" in parseFloat v) in
  let! bookingDate := get booking "date" in
  let! start_time := get booking "start_time" in
  let! end_time := get booking "end_time" in
  let! total_price := get booking "total_price" in
  let! price := get booking "price" in
  let! amount := parseFloat (or (or total_price price) (VStr "0")) in
  let! st := bookingStatus booking in
  Ok {| id := match idText with
              | Some s => if negb (s =? "") then s else id
              | None => id
              end;
        venue := {| venue_id := match facilityIdText with
                                | Some s => or (VStr s) (VStr "venue-1")
                                | None => VStr "venue-1"
                                end;
                    name := venueName; location := address; type := court;
                    slug := venueSlug; images := [venueImage];
                    latitude := lat; longitude := lng |};
        date := bookingDate;
        startTime := start_time;
        endTime := end_time;
        totalAmount := amount;
        status := st;
        slots := VUndefined |}.

Definition getBookingById (id : string) : comp Booking :=
  tryCatch
    (let* data := api_get ("/booking/" +:+ id) in
     let* nested := lift (get data "booking") in
     let booking := or nested data in
     if negb (truthy booking) then throw (Error "Booking not found")
     else lift (bookingDetails id booking))
    (rethrow "Failed to fetch booking").

Definition getCourtAvailability (facilityId courtId date : string) : comp jsval :=
  tryCatch
    (api_get ("/court-availability/" +:+ facilityId +:+ "/" +:+ courtId +:+ "/" +:+ date))
    (rethrow "Failed to fetch availability").

Definition createBooking (bookingData : jsval) : comp jsval :=
  tryCatch
    (let* data := api_post "/booking" bookingData in
     let* order := lift (get data "order") in
     let* message := lift (get data "message") in
     ret (VObj [("success", VBool true); ("order", order); ("message", message)]))
    (rethrow "Failed to create booking").

Definition cancelBooking (bookingId : string) : comp jsval :=
  tryCatch (api_get ("/cancel-booking/" +:+ bookingId))
           (rethrow "Failed to cancel booking").

Definition paymentSuccess (paymentData : jsval) : comp jsval :=
  tryCatch (api_post "/payment-success" paymentData)
           (rethrow "Failed to update payment status").

Definition paymentFailure (paymentData : jsval) : comp jsval :=
  tryCatch (api_post "/payment-failure" paymentData)
           (rethrow "Failed to update payment status").

End WithEngine.
End BookingApi.

(** ** The older booking client, [src/unnamed/part_001] *)

Module BookingApiV1.
Import JS Env.

Section WithEngine.
Context `{Engine}.

(** [error.response?.status === 401] *)
Definition isUnauthorized (error : exn) : bool :=
  match error with
  | AxiosError (Some (status, _)) => (status =? 401)%Z
  | _ => false
  end.

(** The response interceptor: on a 401 the token and the user are removed,
    and the error is rejected again. *)
Definition onRejected {A} (error : exn) : comp A :=
  let* _ := (if isUnauthorized error then
               let* _ := removeItem "token" in removeItem "user"
             else ret tt) in
  throw error.

Definition api_request (m path : string) (query : list (string * string))
    (payload : jsval) : comp jsval :=
  let* r := withToken m path query payload in
  tryCatch (dispatch r) onRejected.

Definition api_get (path : string) : comp jsval := api_request "GET" path [] VUndefined.

Definition api_post (path : string) (payload : jsval) : comp jsval :=
  api_request "POST" path [] payload.

Definition createBooking (bookingData : jsval) : comp jsval :=
  tryCatch (api_post "/create-booking" bookingData)
           (rethrow "Failed to create booking").

Fixpoint indexed {A} (i : N) (l : list A) : list (string * A) :=
  match l with
  | [] => []
  | x :: r => (natDigits i, x) :: indexed (N.succ i) r
  end.

Fixpoint characters (s : string) : list jsval :=
  match s with
  | EmptyString => []
  | String c r => VStr (String c EmptyString) :: characters r
  end.

(** The own enumerable properties [{...v}] copies. *)
Definition spread (v : jsval) : list (string * jsval) :=
  match v with
  | VObj fields => fields
  | VArr l => indexed 0 l
  | VStr s => indexed 0 (characters s)
  | _ => []
  end.

(** A property written by an object literal after a spread: it keeps the
    place of the property it replaces, or comes last. *)
Fixpoint setField (k : string) (v : jsval) (fields : list (string * jsval))
  : list (string * jsval) :=
  match fields with
  | [] => [(k, v)]
  | (k', v') :: r => if k' =? k then (k, v) :: r else (k', v') :: setField k v r
  end.

(** The [try] block of the image parsing, and its [catch]. *)
Definition parsedImages (booking : jsval) : jsval :=
  match (let! images := get booking "images" in
         match images with
         | VStr _ => if truthy images then parseJSON images else Ok (VArr [])
         | VArr _ => Ok images
         | _ => Ok (VArr [])
         end) with
  | Ok parsed => parsed
  | Throw _ => VArr []
  end.

(** [img.startsWith('http') ? img : `https://admin.bookvenue.app/${img}`];
    [startsWith] exists on strings only. *)
Fixpoint resolveImages (l : list jsval) : result (list jsval) :=
  match l with
  | [] => Ok []
  | VStr img :: r =>
      let! rest := resolveImages r in
      Ok (VStr (if startsWith "http" img then img
                else "https://admin.bookvenue.app/" +:+ img) :: rest)
  | _ :: _ => Throw TypeError
  end.

(** The callback of [response.data.bookings.map] in [getMyBookings]. *)
Definition processBooking (booking : jsval) : result jsval :=
  match parsedImages booking with
  | VArr l =>
      let! resolved := resolveImages l in
      Ok (VObj (setField "images" (VArr resolved) (spread booking)))
  | _ => Throw TypeError
  end.

Fixpoint mapResult {A B} (f : A -> result B) (l : list A) : result (list B) :=
  match l with
  | [] => Ok []
  | x :: r => let! y := f x in let! ys := mapResult f r in Ok (y :: ys)
  end.

Definition getMyBookings : comp (list jsval) :=
  tryCatch
    (let* data := api_get "/my-bookings" in
     let* bookings := lift (get data "bookings") in
     if negb (truthy bookings) then ret []
     else
       match bookings with
       | VArr l => lift (mapResult processBooking l)
       | _ => throw TypeError
       end)
    (rethrow "Failed to fetch bookings").

Definition getBookingById (bookingId : string) : comp jsval :=
  tryCatch (api_get ("/booking/" +:+ bookingId))
           (rethrow "Failed to fetch booking").

Definition getCourtAvailability (facilityId courtId date : string) : comp jsval :=
  tryCatch
    (api_request "GET" "/court-availability"
       [("facility_id", facilityId); ("court_id", courtId); ("date", date)] VUndefined)
    (rethrow "Failed to fetch availability").

Definition cancelBooking (bookingId : string) : comp jsval :=
  tryCatch (api_post ("/cancel-booking/" +:+ bookingId) VUndefined)
           (rethrow "Failed to cancel booking").

Definition paymentSuccess (paymentData : jsval) : comp jsval :=
  tryCatch (api_post "/payment-success" paymentData)
           (rethrow "Failed to confirm payment").

End WithEngine.
End BookingApiV1.

(** ** [src/app/(tabs)/bookings.tsx] *)

Module BookingsScreen.
Import JS Env.

Section WithEngine.
Context `{Engine}.

(** [new Date(timeString).toLocaleTimeString('en-US', ..)]: neither call
    throws; an invalid date prints as ["Invalid Date"]. *)
Definition localeTime (timeString : string) : result string :=
  match Date_parse timeString with
  | Some t => Ok (Date_toLocaleTimeString t)
  | None => Ok "Invalid Date"
  end.

(** [formatTime], on the strings its signature declares. *)
Definition formatTime (timeString : string) : string :=
  if timeString =? "" then ""
  else if isHHMM timeString then timeString
  else if isHHMMSS timeString then String.substring 0 5 timeString
  else
    match localeTime timeString with
    | Ok text => text
    | Throw _ => timeString
    end.

End WithEngine.
End BookingsScreen.

(** ** [src/contexts/AuthContext.tsx] *)

Module AuthContext.
Import JS Env.

(** The state of the provider: [user] is [null] when nobody is signed in. *)
Record session : Type := {
  user : jsval;
  loading : bool
}.

Definition setUser (u : jsval) (s : session) : session :=
  {| user := u; loading := loading s |}.

Definition setLoading (b : bool) (s : session) : session :=
  {| user := user s; loading := b |}.

(** [useState(null)], [useState(true)] *)
Definition initial : session := {| user := VNull; loading := true |}.

Section WithEngine.
Context `{Engine}.

Definition loadStoredUser (s : session) : comp session :=
  let s0 := setLoading true s in
  let* s1 :=
    tryCatch
      (let* storedUser := getItem "user" in
       let* storedToken := getItem "token" in
       if truthy storedUser && truthy storedToken then
         let* userData := lift (parseJSON storedUser) in
         ret (setUser userData s0)
       else ret s0)
      (fun _ =>
         let* _ := removeItem "user" in
         let* _ := removeItem "token" in
         ret s0) in
  ret (setLoading false s1).

End WithEngine.
End AuthContext.

(** ** The older auth context, [src/unnamed/part_000] *)

Module AuthContextV1.
Import JS Env.
Import AuthContext.

Section WithEngine.
Context `{Engine}.

Definition loadStoredUser (s : session) : comp session :=
  let s0 := setLoading true s in
  let* s1 :=
    tryCatch
      (let* storedUser := getItem "user" in
       if truthy storedUser then
         let* userData := lift (parseJSON storedUser) in
         ret (setUser userData s0)
       else ret s0)
      (fun _ => ret s0) in
  ret (setLoading false s1).

End WithEngine.
End AuthContextV1.

(** ** Sample data for the examples *)

Module Samples.
Import JS Env.

Definition quote : string := String (ascii_of_nat 34) EmptyString.

(** The text [["a.jpg"]]. *)
Definition imagesText : string := "[" +:+ quote +:+ "a.jpg" +:+ quote +:+ "]".

(** The text [["https://cdn.example.com/a.jpg"]]. *)
Definition absoluteImagesText : string :=
  "[" +:+ quote +:+ "https://cdn.example.com/a.jpg" +:+ quote +:+ "]".

(** The text [{"id":"7"}]. *)
Definition userText : string :=
  "{" +:+ quote +:+ "id" +:+ quote +:+ ":" +:+ quote +:+ "7" +:+ quote +:+ "}".

Definition sampleUser : jsval := VObj [("id", VStr "7")].

(** An engine that decodes the three texts above and rejects every other
    text, and for which no string is a date. *)
Definition sampleEngine : Engine := {|
  JSON_parse := fun s =>
    if s =? imagesText then Some (VArr [VStr "a.jpg"])
    else if s =? absoluteImagesText then Some (VArr [VStr "https://cdn.example.com/a.jpg"])
    else if s =? userText then Some sampleUser
    else None;
  Date_parse := fun _ => None;
  Date_toLocaleTimeString := fun _ => "00:00"
|}.

Definition signedIn : gmap string string :=
  <["user" := userText]> (<["token" := "secret"]> ∅).

(** A world whose backend answers every request with [r]. *)
Definition answering (r : reply) (disk : gmap string string) : world :=
  {| storage := disk; server := fun _ => r;
     random := fun i => Dec false (N.of_nat i + 1) 3; drawn := 0 |}.

Definition emptyList : jsval := VObj [("bookings", VArr [])].

(** The same world with other numbers to draw. *)
Definition redrawn (w : world) : world :=
  {| storage := storage w; server := server w;
     random := fun _ => Dec false 5 1; drawn := drawn w |}.

(** A raw booking as the backend sends it. *)
Definition sampleBooking : jsval :=
  VObj [("bookingId", VNum (Dec false 7 0));
        ("facility", VStr "Arena");
        ("images", VStr imagesText);
        ("price", VStr "450.50");
        ("status", VStr "CONFIRMED");
        ("slots", VArr [VObj [("start_time", VStr "14:05:30"); ("end_time", VStr "15")];
                        VObj [("startTime", VStr "16:00")]])].

End Samples.

(** ** Vocabulary of the statements *)

Module Shape.
Import JS Env.

(** The three statuses of a canonical booking. *)
Definition recognized (s : string) : bool :=
  (s =? "pending") || (s =? "confirmed") || (s =? "cancelled").

Definition isString (v : jsval) : bool :=
  match v with VStr _ => true | _ => false end.

(** [undefined], [null], a boolean, a number or a string. *)
Definition scalar (v : jsval) : bool :=
  match v with
  | VArr _ | VObj _ => false
  | _ => true
  end.

(** A string, or a falsy value (the field is missing, [null], empty). *)
Definition textOrMissing (v : jsval) : bool := isString v || negb (truthy v).

(** The field [k] of [v] can be read and satisfies [p]. *)
Definition fieldIs (p : jsval -> bool) (v : jsval) (k : string) : bool :=
  match get v k with
  | Ok x => p x
  | Throw _ => false
  end.

(** A slot record: its four time fields are strings or missing. *)
Definition slotRecord (slot : jsval) : bool :=
  fieldIs textOrMissing slot "start_time" && fieldIs textOrMissing slot "startTime"
  && fieldIs textOrMissing slot "end_time" && fieldIs textOrMissing slot "endTime".

(** A sequence of slot records, or no slots at all. *)
Definition slotSequence (v : jsval) : bool :=
  match v with
  | VArr l => forallb slotRecord l
  | _ => negb (truthy v)
  end.

(** The wire shape of a raw booking, as far as normalisation depends on
    it: scalar identifier, featured image, price and coordinates, a status
    that is a string or missing, and slots that are a sequence of slot
    records or missing.  The other fields are unconstrained. *)
Definition wireShaped (booking : jsval) : bool :=
  fieldIs scalar booking "facility_image"
  && fieldIs scalar booking "price"
  && fieldIs textOrMissing booking "status"
  && fieldIs slotSequence booking "slots"
  && fieldIs scalar booking "bookingId"
  && fieldIs scalar booking "lat"
  && fieldIs scalar booking "lng".

(** Decimal digits only. *)
Fixpoint allDigits (s : string) : bool :=
  match s with
  | EmptyString => true
  | String c r => isDigit c && allDigits r
  end.

(** The string does not go on with a decimal digit. *)
Definition noDigitAhead (s : string) : bool :=
  match s with
  | String c _ => negb (isDigit c)
  | EmptyString => true
  end.

(** The string starts with [0x] or [0X], which [parseInt] takes for the
    prefix of a hexadecimal number. *)
Definition hexPrefixed (s : string) : bool :=
  match stripHexPrefix s with
  | Some _ => true
  | None => false
  end.

(** The string starts with a character no number starts with: not a
    digit, a sign, a point, white space, or the [I] of [Infinity]. *)
Definition nonNumericLead (s : string) : bool :=
  match s with
  | String c _ =>
      negb (isDigit c || isWhiteSpace c || (code c =? 43)%nat || (code c =? 45)%nat
            || (code c =? 46)%nat || (code c =? 73)%nat)
  | EmptyString => false
  end.

(** No bookings: the value is falsy (missing, [null]) or an empty
    sequence. *)
Definition emptyOrMissing (b : jsval) : bool :=
  negb (truthy b) || match b with VArr [] => true | _ => false end.

(** The body has a [bookings] property to read, and it holds no
    bookings. *)
Definition listsNone (body : jsval) : bool := fieldIs emptyOrMissing body "bookings".

(** The body reports no bookings: it is falsy, or it lists none. *)
Definition noBookings (body : jsval) : bool := negb (truthy body) || listsNone body.

(** A key of the storage that is missing or holds the empty string. *)
Definition blank (item : option string) : Prop := item = None \/ item = Some "".

(** The status of a success for axios. *)
Definition success (status : Z) : bool := ((200 <=? status) && (status <? 300))%Z.

End Shape.

(** ** More vocabulary *)

Module Shape2.
Import JS Env Shape.

(** A status that is neither a string nor falsy: it has no
    [toLowerCase]. *)
Definition badStatus (booking : jsval) : bool :=
  fieldIs (fun st => truthy st && negb (isString st)) booking "status".

Fixpoint hasBackslash (s : string) : bool :=
  match s with
  | EmptyString => false
  | String c r => (code c =? 92)%nat || hasBackslash r
  end.

(** A message the backend supplies: a non-empty string under
    [message]. *)
Definition suppliesMessage (data : jsval) (msg : string) : Prop :=
  getOpt data "message" = VStr msg /\ msg <> "".

(** No message to show: the [message] of the body is missing or falsy. *)
Definition noMessage (data : jsval) : Prop :=
  truthy (getOpt data "message") = false.

(** The step returns, or what it throws is a TypeError. *)
Definition typed {A} (r : result A) : Prop :=
  forall e, r = Throw e -> e = TypeError.

(** The same for an asynchronous function, from every world. *)
Definition typedRun {A} (m : comp A) : Prop :=
  forall w e w', m w = (Throw e, w') -> e = TypeError.

(** The asynchronous function never writes persisted storage. *)
Definition keepsStorage {A} (m : comp A) : Prop :=
  forall w r w', m w = (r, w') -> storage w' = storage w.

(** The backend answers every request with the same failure. *)
Definition failsWith (w : world) (status : Z) (data : jsval) : Prop :=
  (forall r, server w r = Reply status data) /\ success status = false.

(** The backend answers no request. *)
Definition unreachable (w : world) : Prop := forall r, server w r = NoReply.

(** Every element is an object. *)
Definition allObjects (l : list jsval) : bool :=
  forallb (fun x => match x with VObj _ => true | _ => false end) l.

(** The backend never answers 401. *)
Definition neverUnauthorized (w : world) : Prop :=
  forall r status data, server w r = Reply status data -> status <> 401%Z.

(** Run from [w], the asynchronous function ends in [w]. *)
Definition endsIn {A} (w : world) (m : comp A) : Prop :=
  forall r w', m w = (r, w') -> w' = w.

(** What the older client makes of an image path. *)
Definition resolved (path : string) : string :=
  if startsWith "http" path then path else "https://admin.bookvenue.app/" +:+ path.

(** The path with a slash for every backslash, the other characters as
    they are. *)
Fixpoint slashed (path : string) : string :=
  match path with
  | EmptyString => EmptyString
  | String c r => String (if Ascii.eqb c "\" then "/" else c)%char (slashed r)
  end.

(** [undefined] or [null]: a value no property can be read from. *)
Definition nullish (v : jsval) : bool :=
  match v with
  | VUndefined | VNull => true
  | _ => false
  end.

End Shape2.

(** ** The operations of the session store *)

Module SessionStore.
Import JS Env AuthContext.

(** What the auth contexts import and these sources do not define:
    [JSON.stringify], and the two calls of [authApi] ([@/api/authApi]). *)
Class Services : Type := {
  JSON_stringify : jsval -> string;
  getProfile : comp jsval;
  updateProfile : jsval -> comp jsval
}.

(** AsyncStorage as the contexts use it; each call can reject. *)
Class Disk : Type := {
  readItem : string -> comp jsval;
  writeItem : string -> string -> comp unit;
  eraseItem : string -> comp unit
}.

(** The storage of [Env], which never rejects. *)
Definition asyncStorage : Disk :=
  {| readItem := getItem; writeItem := setItem; eraseItem := removeItem |}.

(** The state of the provider, and the number of [setLoading(false)]
    callbacks that [setTimeout] holds and has not run yet. *)
Record provider : Type := {
  current : session;
  timers : nat
}.

Definition signedOut : provider := {| current := initial; timers := 0 |}.

Definition withUser (u : jsval) (p : provider) : provider :=
  {| current := setUser u (current p); timers := timers p |}.

Definition withLoading (b : bool) (p : provider) : provider :=
  {| current := setLoading b (current p); timers := timers p |}.

(** [setTimeout(() => { setLoading(false); }, 100)] *)
Definition schedule (p : provider) : provider :=
  {| current := current p; timers := S (timers p) |}.

(** One of the callbacks runs. *)
Definition fire (p : provider) : provider :=
  match timers p with
  | O => p
  | S n => {| current := setLoading false (current p); timers := n |}
  end.

(** An operation of the context: how it resolves, the state of the
    provider and the world it leaves. *)
Definition operation : Type := provider -> world -> result unit * provider * world.

Section WithServices.
Context `{Services} `{Disk}.

(** [login] of [AuthContext.tsx] (and of the older context). *)
Definition login (userData : jsval) : operation :=
  fun p w =>
    let p1 := withLoading true p in
    match writeItem "user" (JSON_stringify userData) w with
    | (Ok _, w1) => (Ok tt, schedule (withUser userData p1), w1)
    | (Throw error, w1) => (Throw error, withLoading false p1, w1)
    end.

(** [logout] of [AuthContext.tsx]. *)
Definition logout : operation :=
  fun p w =>
    let p1 := withLoading true p in
    match eraseItem "user" w with
    | (Ok _, w1) =>
        match eraseItem "token" w1 with
        | (Ok _, w2) => (Ok tt, schedule (withUser VNull p1), w2)
        | (Throw error, w2) => (Throw error, withLoading false p1, w2)
        end
    | (Throw error, w1) => (Throw error, withLoading false p1, w1)
    end.

(** [updateUserProfile] *)
Definition updateUserProfile (formData : jsval) : operation :=
  fun p w =>
    match updateProfile formData w with
    | (Ok updatedUser, w1) =>
        match writeItem "user" (JSON_stringify updatedUser) w1 with
        | (Ok _, w2) => (Ok tt, withUser updatedUser p, w2)
        | (Throw error, w2) => (Throw error, p, w2)
        end
    | (Throw error, w1) => (Throw error, p, w1)
    end.

(** [refreshUser]: its [catch] logs the user out. *)
Definition refreshUser : operation :=
  fun p w =>
    match readItem "token" w with
    | (Ok token, w1) =>
        if negb (truthy token) then (Ok tt, p, w1)
        else
          match getProfile w1 with
          | (Ok userData, w2) =>
              match writeItem "user" (JSON_stringify userData) w2 with
              | (Ok _, w3) => (Ok tt, withUser userData p, w3)
              | (Throw _, w3) => logout p w3
              end
          | (Throw _, w2) => logout p w2
          end
    | (Throw _, w1) => logout p w1
    end.

(** [logout] of the older context, [src/unnamed/part_000]: the token is
    left alone. *)
Definition logoutV1 : operation :=
  fun p w =>
    let p1 := withLoading true p in
    match eraseItem "user" w with
    | (Ok _, w1) => (Ok tt, schedule (withUser VNull p1), w1)
    | (Throw error, w1) => (Throw error, withLoading false p1, w1)
    end.

(** [{...a, ...b}] on the properties of two objects. *)
Definition mergeFields (a b : list (string * jsval)) : list (string * jsval) :=
  fold_left (fun acc kv => BookingApiV1.setField (fst kv) (snd kv) acc) b a.

(** [updateUser] of the older context. *)
Definition updateUser (userData : jsval) : operation :=
  fun p w =>
    if negb (truthy (user (current p))) then (Ok tt, p, w)
    else
      let updatedUser :=
        VObj (mergeFields (BookingApiV1.spread (user (current p)))
                          (BookingApiV1.spread userData)) in
      match writeItem "user" (JSON_stringify updatedUser) w with
      | (Ok _, w1) => (Ok tt, withUser updatedUser p, w1)
      | (Throw error, w1) => (Throw error, p, w1)
      end.

End WithServices.

(** The provider after a restart: the state is the initial one, the world
    is what the last run left, and [loadStoredUser] runs. *)
Definition restart `{Engine} (w : world) : result session * world :=
  loadStoredUser initial w.

End SessionStore.

(** ** More sample data *)

Module Samples2.
Import JS Env Samples SessionStore.

(** [JSON.stringify] on values whose strings need no escaping and that
    hold no [undefined]. *)
Fixpoint stringify (v : jsval) : string :=
  match v with
  | VUndefined | VNull => "null"
  | VBool b => if b then "true" else "false"
  | VNum n => Number_toString n
  | VStr s => quote +:+ s +:+ quote
  | VArr l =>
      "[" +:+ (fix items (l : list jsval) : string :=
                 match l with
                 | [] => ""
                 | [x] => stringify x
                 | x :: r => stringify x +:+ "," +:+ items r
                 end) l +:+ "]"
  | VObj fields =>
      "{" +:+ (fix members (l : list (string * jsval)) : string :=
                 match l with
                 | [] => ""
                 | [(k, x)] => quote +:+ k +:+ quote +:+ ":" +:+ stringify x
                 | (k, x) :: r =>
                     quote +:+ k +:+ quote +:+ ":" +:+ stringify x +:+ "," +:+ members r
                 end) fields +:+ "}"
  end.

(** Services whose profile call returns the sample user and whose update
    call finds no backend. *)
Definition sampleServices : Services := {|
  JSON_stringify := stringify;
  getProfile := ret sampleUser;
  updateProfile := fun _ => throw (AxiosError None)
|}.

(** Services whose profile call is rejected with a 401. *)
Definition expiredServices : Services := {|
  JSON_stringify := stringify;
  getProfile := throw (AxiosError (Some (401%Z, VNull)));
  updateProfile := fun _ => throw (AxiosError (Some (401%Z, VNull)))
|}.

(** A storage whose writes are rejected. *)
Definition readOnlyDisk : Disk := {|
  readItem := getItem;
  writeItem := fun _ _ => throw (Error "disk full");
  eraseItem := fun _ => throw (Error "disk full")
|}.

(** The text [["uploads\\a.jpg","b.jpg"]], which encodes a path with one
    backslash and a path with none. *)
Definition galleryText : string :=
  "[" +:+ quote +:+ "uploads\\a.jpg" +:+ quote +:+ "," +:+ quote +:+ "b.jpg" +:+ quote
  +:+ "]".

(** An engine that decodes this text and rejects every other text. *)
Definition galleryEngine : Engine := {|
  JSON_parse := fun s =>
    if s =? galleryText then Some (VArr [VStr "uploads\a.jpg"; VStr "b.jpg"]) else None;
  Date_parse := fun _ => None;
  Date_toLocaleTimeString := fun _ => "00:00"
|}.

Definition signedInProvider : provider :=
  {| current := {| AuthContext.user := sampleUser; AuthContext.loading := false |};
     timers := 0 |}.

End Samples2.

(** ** More of [src/app/(tabs)/bookings.tsx] *)

Module BookingCard.
Import JS Env.

(** [getStatusColor] *)
Definition getStatusColor (status : string) : string :=
  let s := toLowerCase status in
  if s =? "confirmed" then "#10B981"
  else if s =? "pending" then "#F59E0B"
  else if s =? "cancelled" then "#EF4444"
  else "#6B7280".

(** The [uri] of the image of a card:
    [booking.facility_image.startsWith('http') ? booking.facility_image
     : `https://admin.bookvenue.app/${booking.facility_image}`];
    [startsWith] exists on strings only. *)
Definition venueImageUri (booking : jsval) : result string :=
  let! facility_image := get booking "facility_image" in
  match facility_image with
  | VStr f => Ok (if startsWith "http" f then f
                  else "https://admin.bookvenue.app/" +:+ f)
  | _ => Throw TypeError
  end.

End BookingCard.

(** ** The client over [fetch], [src/unnamed/part_002] *)

Module BookingApiV2.
Import JS Env.

Definition API_BASE_URL : string := "https://bookvenue.in/api".

(** [fetch(url, {method, headers: {'Content-Type': 'application/json'},
    body})]: it resolves with the response whatever its status, the body
    read with [response.json()], and rejects with a TypeError when no reply
    arrives.  No credential is attached. *)
Definition fetch (m path : string) (payload : jsval) : comp (Z * jsval) :=
  fun w =>
    match server w {| method := m; url := API_BASE_URL +:+ path;
                      authorization := None; params := []; body := payload |} with
    | Reply status data => (Ok (status, data), w)
    | NoReply => (Throw TypeError, w)
    end.

(** The number the status is. *)
Definition statusNumber (status : Z) : number :=
  Dec (status <? 0)%Z (Z.abs_N status) 0.

(** [response.json()].  A reply carries the body as axios presents it: the
    value the text of the body encodes, or that text itself, as a string,
    when it encodes none, the empty body among them.  On such a text
    [response.json()] rejects with a SyntaxError; a string whose text does
    encode a value can only stand for a body that encodes this string. *)
Definition responseJson `{Engine} (data : jsval) : result jsval :=
  match data with
  | VStr text =>
      match JSON_parse text with
      | None => Throw SyntaxError
      | Some _ => Ok data
      end
  | _ => Ok data
  end.

(** [if (!response.ok) throw new Error(`HTTP error! status: ${response.status}`);
    const data = await response.json();] *)
Definition json `{Engine} (response : Z * jsval) : comp jsval :=
  let '(status, data) := response in
  if ((200 <=? status) && (status <? 300))%Z then lift (responseJson data)
  else throw (Error ("HTTP error! status: " +:+ Number_toString (statusNumber status))).

(** The [catch] of each function logs and throws the error again. *)
Definition createBooking `{Engine} `{SessionStore.Services} (bookingData : jsval)
  : comp jsval :=
  let* response := fetch "POST" "/book-venue"
                     (VStr (SessionStore.JSON_stringify bookingData)) in
  json response.

(** [{...booking, images: typeof booking.images === 'string'
      ? JSON.parse(booking.images) : booking.images || []}] *)
Definition processBooking `{Engine} (booking : jsval) : result jsval :=
  let! images := get booking "images" in
  let! decoded := match images with
                  | VStr _ => parseJSON images
                  | _ => Ok (or images (VArr []))
                  end in
  Ok (VObj (BookingApiV1.setField "images" decoded (BookingApiV1.spread booking))).

Definition getMyBookings `{Engine} : comp (list jsval) :=
  let* response := fetch "GET" "/my-bookings" VUndefined in
  let* data := json response in
  let* bookings := lift (get data "bookings") in
  match bookings with
  | VArr l => lift (BookingApiV1.mapResult processBooking l)
  | _ => throw TypeError
  end.

Definition getBookingById `{Engine} (bookingId : string) : comp jsval :=
  let* response := fetch "GET" ("/booking/" +:+ bookingId) VUndefined in json response.

End BookingApiV2.

(** ** The [try] block of [getBookingById], [src/api/bookingApi.ts] *)

Module BookingLookup.
Import JS Env.

(** Lines 145 to 179: what [getBookingById] runs inside its [try]. *)
Definition lookupBooking (id : string) : comp BookingApi.Booking :=
  let* data := BookingApi.api_get ("/booking/" +:+ id) in
  let* nested := lift (get data "booking") in
  let booking := or nested data in
  if negb (truthy booking) then throw (Error "Booking not found")
  else lift (BookingApi.bookingDetails id booking).

End BookingLookup.

(** ** Properties *)

Module Facts.
Import JS Env Shape Samples.

(** *** Inversion of the two monads *)

Lemma bind_Ok {A B} (m : result A) (k : A -> result B) (b : B) :
  bind m k = Ok b -> exists a, m = Ok a /\ k a = Ok b.
Proof. destruct m as [a|e]; simpl; intros E; [eauto | discriminate]. Qed.

Lemma cbind_Ok {A B} (m : comp A) (k : A -> comp B) (w w' : world) (b : B) :
  cbind m k w = (Ok b, w') ->
  exists a w1, m w = (Ok a, w1) /\ k a w1 = (Ok b, w').
Proof.
  unfold cbind. destruct (m w) as [[a|e] w1]; intros E; [eauto | discriminate].
Qed.

Lemma lift_Ok {A} (r : result A) (w w' : world) (a : A) :
  lift r w = (Ok a, w') -> r = Ok a /\ w' = w.
Proof. unfold lift. intros E. injection E as -> ->. split; reflexivity. Qed.

Lemma ret_Ok {A} (x a : A) (w w' : world) :
  ret x w = (Ok a, w') -> x = a /\ w' = w.
Proof. unfold ret. intros E. injection E as -> ->. split; reflexivity. Qed.

Ltac invert_run :=
  repeat match goal with
    | E : cbind _ _ _ = (Ok _, _) |- _ =>
        apply cbind_Ok in E; destruct E as (? & ? & ? & E)
    | E : lift _ _ = (Ok _, _) |- _ =>
        apply lift_Ok in E; destruct E as [E ?]; subst
    | E : ret _ _ = (Ok _, _) |- _ =>
        apply ret_Ok in E; destruct E as [E ?]; subst
    end.

(** What the value of a property read tells about the object. *)
Lemma get_total (v : jsval) (k k' : string) (x : jsval) :
  get v k = Ok x -> exists y, get v k' = Ok y.
Proof. destruct v; simpl; intros E; try discriminate; eauto. Qed.

(** The identifier draws at most one number and leaves storage and the
    backend alone. *)
Lemma bookingIdentifier_world booking w r w' :
  BookingApi.bookingIdentifier booking w = (r, w') ->
  storage w' = storage w /\ server w' = server w /\ random w' = random w.
Proof.
  unfold BookingApi.bookingIdentifier, cbind, lift, ret, Math_random.
  destruct (get booking "bookingId") as [v|e]; [| intros E; injection E as <- <-; auto].
  destruct (BookingApi.toStringOpt v) as [[s|]|e]; simpl.
  - destruct (negb (s =? "")); intros E; injection E as <- <-; auto.
  - intros E; injection E as <- <-; auto.
  - intros E; injection E as <- <-; auto.
Qed.

Section WithEngine.
Context `{Engine}.

(** A canonical booking is made of the parts the callback computes. *)
Lemma processBooking_parts booking w b w' :
  BookingApi.processBooking booking w = (Ok b, w') ->
  (exists imgs, BookingApi.facilityImages booking = Ok imgs
                /\ BookingApi.images (BookingApi.venue b) = map VStr imgs)
  /\ BookingApi.totalPrice booking = Ok (BookingApi.totalAmount b)
  /\ BookingApi.bookingStatus booking = Ok (BookingApi.status b)
  /\ BookingApi.slotsCount booking = Ok (BookingApi.slots b)
  /\ storage w' = storage w.
Proof.
  unfold BookingApi.processBooking. intros E. invert_run.
  match goal with
  | Hid : BookingApi.bookingIdentifier _ _ = _ |- _ =>
      apply bookingIdentifier_world in Hid; destruct Hid as (Hs & _ & _)
  end.
  simpl. repeat split; eauto.
Qed.

End WithEngine.

(** *** Status *)

Lemma field_get booking k fallback raw :
  get booking k = Ok raw ->
  BookingApi.field booking k fallback = Ok (or raw (VStr fallback)).
Proof. unfold BookingApi.field. intros ->. reflexivity. Qed.

Lemma or_falsy a b : truthy a = false -> or a b = b.
Proof. unfold or. intros ->. reflexivity. Qed.

Lemma or_truthy a b : truthy a = true -> or a b = a.
Proof. unfold or. intros ->. reflexivity. Qed.

Lemma truthy_VStr s : truthy (VStr s) = negb (s =? "").
Proof. reflexivity. Qed.

Lemma bookingStatus_text booking raw :
  get booking "status" = Ok raw ->
  textOrMissing raw = true ->
  BookingApi.bookingStatus booking =
    Ok (match raw with
        | VStr s => if s =? "" then "pending" else toLowerCase s
        | _ => "pending"
        end).
Proof.
  intros Hget Htext.
  unfold BookingApi.bookingStatus. rewrite (field_get _ _ _ _ Hget). simpl.
  unfold textOrMissing in Htext.
  destruct raw as [| |b|n|s|l|fs]; simpl in *; try reflexivity; try discriminate.
  - destruct b; simpl in *; [discriminate | reflexivity].
  - unfold or. destruct n as [|neg|neg m k]; simpl in *;
      try discriminate; try reflexivity.
    destruct (m =? 0)%N; simpl in *; [reflexivity | discriminate].
  - unfold or. simpl. destruct (s =? ""); reflexivity.
Qed.

(** What the code makes of a status: for every raw booking whose status
    is a string or is missing, the normalised status is the lower-cased raw
    status when the raw status is a non-empty string, whatever that string
    is, and ['pending'] when it is missing or empty; the status field of
    the canonical booking is that value. *)
Theorem status_lowercased_or_pending `{Engine} (booking raw : jsval) :
  get booking "status" = Ok raw ->
  textOrMissing raw = true ->
  BookingApi.bookingStatus booking =
    Ok (match raw with
        | VStr s => if s =? "" then "pending" else toLowerCase s
        | _ => "pending"
        end)
  /\ (forall w b w',
        BookingApi.processBooking booking w = (Ok b, w') ->
        BookingApi.status b =
          match raw with
          | VStr s => if s =? "" then "pending" else toLowerCase s
          | _ => "pending"
          end).
Proof.
  intros Hget Htext.
  pose proof (bookingStatus_text _ _ Hget Htext) as Hst.
  split; [exact Hst |].
  intros w b w' Hrun.
  apply processBooking_parts in Hrun. destruct Hrun as (_ & _ & Hb & _).
  rewrite Hst in Hb. injection Hb as <-. reflexivity.
Qed.

(** The theorem at the raw status ["CONFIRMED"]. *)
Lemma status_lowercased_or_pending_witness :
  BookingApi.bookingStatus (VObj [("status", VStr "CONFIRMED")]) = Ok "confirmed".
Proof.
  apply (@status_lowercased_or_pending sampleEngine
           (VObj [("status", VStr "CONFIRMED")]) (VStr "CONFIRMED")); reflexivity.
Defined.

(** C1: the code at the raw status ["weird-status"].  The canonical
    booking gets the status ['weird-status'], which is neither ['pending']
    nor one of the three statuses, although lines 130 and 178 cast the
    lower-cased text to ['pending' | 'confirmed' | 'cancelled']: the cast
    states the invariant of the claim and nothing establishes it. *)
Lemma status_unrecognized_kept :
  exists b,
    fst (@BookingApi.processBooking sampleEngine
           (VObj [("status", VStr "weird-status")]) (answering NoReply ∅)) = Ok b
    /\ BookingApi.status b = "weird-status"
    /\ BookingApi.status b <> "pending"
    /\ recognized (BookingApi.status b) = false.
Proof.
  eexists. split; [vm_compute; reflexivity |].
  simpl. repeat split; discriminate.
Qed.

Example status_confirmed :
  BookingApi.bookingStatus (VObj [("status", VStr "CONFIRMED")]) = Ok "confirmed".
Proof. reflexivity. Qed.

Example status_missing :
  BookingApi.bookingStatus (VObj []) = Ok "pending".
Proof. reflexivity. Qed.

(** A status that is neither a string nor falsy has no [toLowerCase]. *)
Example status_number_throws :
  BookingApi.bookingStatus (VObj [("status", VNum (Dec false 1 0))]) = Throw TypeError.
Proof. reflexivity. Qed.

(** *** Reading numbers *)

Ltac each_char c :=
  destruct c as [[] [] [] [] [] [] [] []]; try discriminate; try reflexivity.

Lemma digit_not_space c : isDigit c = true -> isWhiteSpace c = false.
Proof. each_char c. Qed.

Lemma digit_radix10 c : isDigit c = true -> exists d, radixDigit 10 c = Some d.
Proof. each_char c; intros _; eexists; reflexivity. Qed.

Lemma nondigit_radix10 c : isDigit c = false -> radixDigit 10 c = None.
Proof. each_char c. Qed.

Lemma readSign_digit c r : isDigit c = true -> readSign (String c r) = (false, String c r).
Proof. each_char c. Qed.

Lemma infinity_digit c r : isDigit c = true -> startsWith "Infinity" (String c r) = false.
Proof. each_char c. Qed.

Lemma append_cons c s t : String c s +:+ t = String c (s +:+ t).
Proof. reflexivity. Qed.

Lemma append_nil t : "" +:+ t = t.
Proof. reflexivity. Qed.

Lemma append_empty s : s +:+ "" = s.
Proof.
  induction s as [|c s IH]; [reflexivity |].
  rewrite append_cons, IH. reflexivity.
Qed.

Lemma spanDigits_app ds rest :
  allDigits ds = true -> noDigitAhead rest = true ->
  spanDigits (ds +:+ rest) = (ds, rest).
Proof.
  induction ds as [|c ds IH]; intros Hd Hr.
  - rewrite append_nil. destruct rest as [|c r]; simpl in *; [reflexivity |].
    apply negb_true_iff in Hr. rewrite Hr. reflexivity.
  - rewrite append_cons. simpl in *.
    apply andb_true_iff in Hd. destruct Hd as [Hc Hd].
    rewrite Hc, (IH Hd Hr). reflexivity.
Qed.

Lemma readRadix_rest acc rest :
  noDigitAhead rest = true -> readRadix 10 acc rest = (acc, rest).
Proof.
  destruct rest as [|c r]; simpl; intros Hr; [reflexivity |].
  apply negb_true_iff in Hr. rewrite (nondigit_radix10 _ Hr). reflexivity.
Qed.

Lemma readRadix_app ds rest :
  allDigits ds = true -> noDigitAhead rest = true ->
  forall acc, readRadix 10 acc (ds +:+ rest) = (fst (readRadix 10 acc ds), rest).
Proof.
  intros Hd Hr. induction ds as [|c ds IH]; intros acc.
  - rewrite append_nil. apply readRadix_rest, Hr.
  - rewrite append_cons. simpl in *.
    apply andb_true_iff in Hd. destruct Hd as [Hc Hd].
    destruct (digit_radix10 _ Hc) as [d ->]. apply IH, Hd.
Qed.

Lemma readRadix_some ds :
  allDigits ds = true -> ds <> "" ->
  fst (readRadix 10 None ds) = Some (digitsValue ds).
Proof.
  intros Hd Hne. unfold digitsValue.
  destruct ds as [|c ds]; [congruence |]. simpl in *.
  apply andb_true_iff in Hd. destruct Hd as [Hc Hd].
  destruct (digit_radix10 _ Hc) as [d ->].
  assert (Hs : forall s a, exists v, fst (readRadix 10 (Some a) s) = Some v).
  { induction s as [|c' s IH]; simpl; intros a; [eauto |].
    destruct (radixDigit 10 c'); [apply IH | simpl; eauto]. }
  destruct (Hs ds d) as [v ->]. reflexivity.
Qed.

(** An integer below [2^53] is a double, and names itself. *)
Lemma NumberValue_small neg v : (v < 2 ^ 53)%N -> NumberValue neg v 0 = Dec neg v 0.
Proof.
  intros Hv. unfold NumberValue. destruct (v =? 0)%N eqn:E0.
  - apply N.eqb_eq in E0. subst v. reflexivity.
  - change (0 <=? 0)%Z with true. change (0 <=? 15)%Z with true.
    change (Z.to_N 0) with 0%N. rewrite N.pow_0_r, N.mul_1_r.
    apply N.ltb_lt in Hv. rewrite Hv. reflexivity.
Qed.

(** [parseInt] on a string that starts with decimal digits, and not with
    the prefix of a hexadecimal number: the Number value for the digits. *)
Lemma parseIntString_digits ds rest :
  allDigits ds = true -> ds <> "" -> noDigitAhead rest = true ->
  hexPrefixed (ds +:+ rest) = false ->
  parseIntString (ds +:+ rest) = NumberValue false (digitsValue ds) 0.
Proof.
  intros Hd Hne Hr Hx. unfold parseIntString.
  destruct ds as [|c ds]; [congruence |].
  pose proof Hd as Hd'. simpl in Hd'. apply andb_true_iff in Hd'. destruct Hd' as [Hc _].
  change (String c ds +:+ rest) with (String c (ds +:+ rest)) in *.
  cbn [trimStart]. rewrite (digit_not_space _ Hc), (readSign_digit _ _ Hc).
  unfold hexPrefixed in Hx. destruct (stripHexPrefix (String c (ds +:+ rest))); [discriminate |].
  change (String c (ds +:+ rest)) with (String c ds +:+ rest).
  rewrite (readRadix_app _ _ Hd Hr). cbn [fst].
  rewrite (readRadix_some _ Hd Hne). reflexivity.
Qed.

(** [parseFloat] on a string of decimal digits: the Number value for
    them. *)
Lemma parseFloatString_digits ds :
  allDigits ds = true -> ds <> "" ->
  parseFloatString ds = NumberValue false (digitsValue ds) 0.
Proof.
  intros Hd Hne. unfold parseFloatString, readDecimalLiteral.
  destruct ds as [|c ds]; [congruence |].
  pose proof Hd as Hd'. simpl in Hd'. apply andb_true_iff in Hd'. destruct Hd' as [Hc _].
  cbn [trimStart]. rewrite (digit_not_space _ Hc), (readSign_digit _ _ Hc).
  rewrite (infinity_digit _ _ Hc).
  assert (Hsp : spanDigits (String c ds) = (String c ds, "")).
  { pose proof (spanDigits_app (String c ds) "" Hd eq_refl) as E.
    rewrite append_empty in E. exact E. }
  rewrite Hsp. cbn -[digitsValue NumberValue].
  rewrite append_empty. reflexivity.
Qed.

(** The decimal notation of a natural number, read back. *)
Lemma string_of_uint_allDigits d : allDigits (NilEmpty.string_of_uint d) = true.
Proof. induction d; cbn [NilEmpty.string_of_uint allDigits]; try rewrite IHd; reflexivity. Qed.

Lemma readRadix_uint d :
  forall p, readRadix 10 (Some (Npos p)) (NilEmpty.string_of_uint d)
            = (Some (Npos (Pos.of_uint_acc d p)), "").
Proof.
  induction d; intros p; cbn [NilEmpty.string_of_uint readRadix Pos.of_uint_acc];
    try reflexivity;
    match goal with
    | |- context [radixDigit 10 ?c] =>
        let v := eval vm_compute in (radixDigit 10 c) in
        change (radixDigit 10 c) with v
    end; cbv iota; rewrite <- IHd; f_equal; f_equal; lia.
Qed.

Lemma readRadix_uint_zero d :
  readRadix 10 (Some 0%N) (NilEmpty.string_of_uint d) = (Some (N.of_uint d), "").
Proof.
  induction d; cbn [NilEmpty.string_of_uint readRadix N.of_uint Pos.of_uint];
    try reflexivity;
    match goal with
    | |- context [radixDigit 10 ?c] =>
        let v := eval vm_compute in (radixDigit 10 c) in
        change (radixDigit 10 c) with v
    end; cbv iota;
    first [exact IHd | apply readRadix_uint].
Qed.

Lemma readRadix_uint_start d :
  d <> Decimal.Nil ->
  readRadix 10 None (NilEmpty.string_of_uint d) = (Some (N.of_uint d), "").
Proof.
  destruct d; intros Hd; [congruence | ..];
    cbn [NilEmpty.string_of_uint readRadix N.of_uint Pos.of_uint];
    match goal with
    | |- context [radixDigit 10 ?c] =>
        let v := eval vm_compute in (radixDigit 10 c) in
        change (radixDigit 10 c) with v
    end; cbv iota;
    first [apply readRadix_uint_zero | apply readRadix_uint].
Qed.

Lemma to_uint_nonnil n : N.to_uint n <> Decimal.Nil.
Proof.
  destruct n as [|p]; [discriminate |]. apply DecimalPos.Unsigned.to_uint_nonnil.
Qed.

Lemma natDigits_allDigits n : allDigits (natDigits n) = true.
Proof. apply string_of_uint_allDigits. Qed.

Lemma natDigits_nonempty n : natDigits n <> "".
Proof.
  unfold natDigits. pose proof (to_uint_nonnil n) as Hn.
  destruct (N.to_uint n); [congruence | ..]; discriminate.
Qed.

Lemma digitsValue_natDigits n : digitsValue (natDigits n) = n.
Proof.
  unfold digitsValue, natDigits.
  rewrite (readRadix_uint_start _ (to_uint_nonnil n)). cbn [fst].
  apply DecimalN.Unsigned.of_to.
Qed.

(** Zeros before the notation do not change what is read. *)
Lemma readRadix_zeros z t :
  readRadix 10 (Some 0%N) (repeatChar "0" z +:+ t) = readRadix 10 (Some 0%N) t.
Proof.
  induction z as [|z IH]; [reflexivity |].
  cbn [repeatChar]. rewrite append_cons. cbn [readRadix].
  change (radixDigit 10 "0") with (Some 0%N). cbv iota. exact IH.
Qed.

Lemma padded_allDigits z n : allDigits (repeatChar "0" z +:+ natDigits n) = true.
Proof.
  induction z as [|z IH]; [apply natDigits_allDigits |].
  cbn [repeatChar]. rewrite append_cons. cbn [allDigits]. rewrite IH. reflexivity.
Qed.

Lemma padded_nonempty z n : repeatChar "0" z +:+ natDigits n <> "".
Proof.
  destruct z as [|z]; [apply natDigits_nonempty |].
  cbn [repeatChar]. rewrite append_cons. discriminate.
Qed.

Lemma digitsValue_padded z n : digitsValue (repeatChar "0" z +:+ natDigits n) = n.
Proof.
  destruct z as [|z]; [apply digitsValue_natDigits |].
  unfold digitsValue. cbn [repeatChar]. rewrite append_cons. cbn [readRadix].
  change (radixDigit 10 "0") with (Some 0%N). cbv iota.
  rewrite readRadix_zeros. unfold natDigits. rewrite readRadix_uint_zero. cbn [fst].
  apply DecimalN.Unsigned.of_to.
Qed.

(** The number of digits of the notation. *)
Lemma string_of_uint_length d :
  String.length (NilEmpty.string_of_uint d) = Decimal.nb_digits d.
Proof. induction d; cbn [NilEmpty.string_of_uint String.length Decimal.nb_digits]; auto. Qed.

Lemma of_uint_acc_lower d :
  forall p, (Npos p * 10 ^ N.of_nat (Decimal.nb_digits d) <= Npos (Pos.of_uint_acc d p))%N.
Proof.
  induction d; intros p; cbn [Decimal.nb_digits Pos.of_uint_acc];
    [rewrite N.pow_0_r; lia | ..];
    rewrite Nat2N.inj_succ, N.pow_succ_r';
    (eapply N.le_trans; [| apply IHd]);
    set (t := (10 ^ N.of_nat (Decimal.nb_digits d))%N); nia.
Qed.

Lemma natDigits_one n : (n < 10)%N -> String.length (natDigits n) = 1%nat.
Proof.
  intros Hn. rewrite <- (N2Nat.id n).
  assert (Hn' : (N.to_nat n < 10)%nat) by lia.
  revert Hn'. generalize (N.to_nat n). intros k Hk.
  do 10 (destruct k as [|k]; [reflexivity |]). lia.
Qed.

Lemma of_uint_acc_upper d :
  forall p, (Npos (Pos.of_uint_acc d p) < (Npos p + 1) * 10 ^ N.of_nat (Decimal.nb_digits d))%N.
Proof.
  induction d; intros p; cbn [Decimal.nb_digits Pos.of_uint_acc];
    [rewrite N.pow_0_r; lia | ..];
    rewrite Nat2N.inj_succ, N.pow_succ_r';
    (eapply N.lt_le_trans; [apply IHd |]);
    set (t := (10 ^ N.of_nat (Decimal.nb_digits d))%N); nia.
Qed.

Lemma of_uint_upper d : (N.of_uint d < 10 ^ N.of_nat (Decimal.nb_digits d))%N.
Proof.
  induction d; cbn [Decimal.nb_digits N.of_uint Pos.of_uint];
    [rewrite N.pow_0_r; lia | ..];
    rewrite Nat2N.inj_succ, N.pow_succ_r';
    [ assert (0 < 10 ^ N.of_nat (Decimal.nb_digits d))%N
        by (apply N.neq_0_lt_0, N.pow_nonzero; discriminate);
      change (Pos.of_uint d) with (N.of_uint d); lia
    | match goal with
      | |- (Npos (Pos.of_uint_acc _ ?k) < _)%N =>
          pose proof (of_uint_acc_upper d k) as Hu
      end; set (t := (10 ^ N.of_nat (Decimal.nb_digits d))%N) in *; nia .. ].
Qed.

Lemma natDigits_upper n : (n < 10 ^ N.of_nat (String.length (natDigits n)))%N.
Proof.
  unfold natDigits. rewrite string_of_uint_length.
  rewrite <- (DecimalN.Unsigned.of_to n) at 1. apply of_uint_upper.
Qed.

Lemma natDigits_lower n :
  (0 < n)%N -> (10 ^ N.of_nat (String.length (natDigits n) - 1) <= n)%N.
Proof.
  intros Hn. destruct n as [|p]; [lia |].
  unfold natDigits. rewrite string_of_uint_length.
  pose proof (DecimalPos.Unsigned.of_to p) as Hof.
  pose proof (DecimalPos.Unsigned.to_of (Pos.to_uint p)) as Hto.
  rewrite Hof in Hto. change (N.to_uint (N.pos p)) with (Pos.to_uint p) in *.
  pose proof (DecimalPos.Unsigned.to_uint_nonzero p) as Hnz.
  unfold Decimal.unorm in Hto.
  pose proof (DecimalFacts.nzhead_nonzero (Pos.to_uint p)) as Hh.
  destruct (Decimal.nzhead (Pos.to_uint p)) as [|u|u|u|u|u|u|u|u|u|u] eqn:Eh;
    [ exfalso; apply Hnz; exact Hto
    | exfalso; apply (Hh u); reflexivity
    | .. ];
    rewrite Hto in Hof |- *; cbn [Decimal.nb_digits Nat.sub];
    rewrite Nat.sub_0_r; cbn [Pos.of_uint] in Hof;
    injection Hof as Hof;
    match type of Hof with
    | Pos.of_uint_acc _ ?k = _ => pose proof (of_uint_acc_lower u k) as Hl
    end; rewrite Hof in Hl;
    set (t := (10 ^ N.of_nat (Decimal.nb_digits u))%N) in *; lia.
Qed.

Lemma natDigits_two n : (10 <= n)%N -> (2 <= String.length (natDigits n))%nat.
Proof.
  intros Hn. pose proof (natDigits_upper n) as Hu.
  destruct (String.length (natDigits n)) as [|[|k]]; [| | lia].
  - rewrite N.pow_0_r in Hu. lia.
  - change (10 ^ N.of_nat 1)%N with 10%N in Hu. lia.
Qed.

Lemma natDigits_short n :
  (n < 2 ^ 53)%N -> (String.length (natDigits n) <= 16)%nat.
Proof.
  intros Hn. destruct (N.eq_dec n 0%N) as [-> | Hz]; [cbn; lia |].
  pose proof (natDigits_lower n ltac:(lia)) as Hl.
  assert (Hlt : (10 ^ N.of_nat (String.length (natDigits n) - 1) < 10 ^ 16)%N)
    by (eapply N.le_lt_trans; [exact Hl |]; eapply N.lt_trans; [exact Hn |]; reflexivity).
  apply N.pow_lt_mono_r_iff in Hlt; lia.
Qed.

(** Reversal of a string. *)
Lemma string_rev_app_append s : forall t u, String.rev_app s t +:+ u = String.rev_app s (t +:+ u).
Proof.
  induction s as [|c s IH]; intros t u; cbn [String.rev_app]; [reflexivity |].
  rewrite IH. reflexivity.
Qed.

Lemma string_rev_cons c s : String.rev (String c s) = String.rev s +:+ String c "".
Proof.
  unfold String.rev. cbn [String.rev_app]. rewrite string_rev_app_append. reflexivity.
Qed.

Lemma string_append_assoc (a b c : string) : (a +:+ b) +:+ c = a +:+ (b +:+ c).
Proof.
  induction a as [|x a IH]; [reflexivity |].
  rewrite !append_cons, IH. reflexivity.
Qed.

Lemma string_rev_append a b : String.rev (a +:+ b) = String.rev b +:+ String.rev a.
Proof.
  induction a as [|c a IH].
  - rewrite append_nil. symmetry. apply append_empty.
  - rewrite append_cons, !string_rev_cons, IH. apply string_append_assoc.
Qed.

Lemma string_rev_involutive s : String.rev (String.rev s) = s.
Proof.
  induction s as [|c s IH]; [reflexivity |].
  rewrite string_rev_cons, string_rev_append, IH. reflexivity.
Qed.

Lemma repeatChar_snoc c j : repeatChar c j +:+ String c "" = String c (repeatChar c j).
Proof.
  induction j as [|j IH]; [reflexivity |].
  cbn [repeatChar]. rewrite append_cons, IH. reflexivity.
Qed.

Lemma string_rev_repeatChar c j : String.rev (repeatChar c j) = repeatChar c j.
Proof.
  induction j as [|j IH]; [reflexivity |].
  cbn [repeatChar]. rewrite string_rev_cons, IH. apply repeatChar_snoc.
Qed.

Lemma string_length_append (a b : string) :
  String.length (a +:+ b) = (String.length a + String.length b)%nat.
Proof.
  induction a as [|c a IH]; [reflexivity |].
  rewrite append_cons. cbn [String.length]. rewrite IH. reflexivity.
Qed.

Lemma string_length_repeatChar c j : String.length (repeatChar c j) = j.
Proof. induction j as [|j IH]; [reflexivity |]. cbn [repeatChar String.length]. rewrite IH. reflexivity. Qed.

(** What [dropTrailingZeros] drops is zeros. *)
Lemma dropTrailingZeros_zeros ds :
  exists j, ds = dropTrailingZeros ds +:+ repeatChar "0" j.
Proof.
  unfold dropTrailingZeros.
  set (go := fix go (r : string) : string :=
               match r with
               | String "0" t => go t
               | _ => r
               end).
  assert (Hgo : forall r, exists j, r = repeatChar "0" j +:+ go r).
  { induction r as [|c r [j IH]]; [exists 0%nat; reflexivity |].
    destruct c as [[] [] [] [] [] [] [] []];
      try (exists 0%nat; reflexivity).
    exists (S j). cbn [repeatChar]. rewrite append_cons.
    change (go (String "0" r)) with (go r). rewrite <- IH. reflexivity. }
  destruct (Hgo (String.rev ds)) as [j Hj].
  exists j. rewrite <- (string_rev_involutive ds) at 1. rewrite Hj at 1.
  rewrite string_rev_append, string_rev_repeatChar. reflexivity.
Qed.

(** An integer below [2^53] is printed as its decimal digits. *)
Lemma Number_toString_digits (n : N) :
  (n < 2 ^ 53)%N -> Number_toString (Dec false n 0) = natDigits n.
Proof.
  intros Hn. unfold Number_toString. cbn [normalize mkDec stripZeros].
  destruct (n =? 0)%N eqn:E0.
  { apply N.eqb_eq in E0. subst n. reflexivity. }
  pose proof (natDigits_short n Hn) as Hlen.
  destruct (dropTrailingZeros_zeros (natDigits n)) as [j Hj].
  assert (Hl : String.length (natDigits n)
               = (String.length (dropTrailingZeros (natDigits n)) + j)%nat).
  { rewrite Hj at 1. rewrite string_length_append, string_length_repeatChar. reflexivity. }
  cbv zeta. rewrite append_nil.
  assert (Hc : ((Z.of_nat (String.length (dropTrailingZeros (natDigits n)))
                 <=? Z.of_nat (String.length (natDigits n)) - Z.of_nat 0)
                && (Z.of_nat (String.length (natDigits n)) - Z.of_nat 0 <=? 21))%Z = true).
  { apply andb_true_iff. split; apply Z.leb_le; lia. }
  rewrite Hc.
  replace (Z.to_nat (Z.of_nat (String.length (natDigits n)) - Z.of_nat 0)
           - String.length (dropTrailingZeros (natDigits n)))%nat with j by lia.
  symmetry. exact Hj.
Qed.

(** Left-padding to two characters prepends a zero to one digit and
    leaves two digits or more alone. *)
Lemma padStart_digits (n : N) :
  padStart 2 "0" (natDigits n)
  = if (n <? 10)%N then "0" +:+ natDigits n else natDigits n.
Proof.
  unfold padStart. destruct (n <? 10)%N eqn:E.
  - apply N.ltb_lt in E. rewrite (natDigits_one n E). reflexivity.
  - apply N.ltb_ge in E. pose proof (natDigits_two n E) as Hl.
    replace (2 - String.length (natDigits n))%nat with 0%nat by lia. reflexivity.
Qed.

(** [parseFloat] on a string no number starts with: NaN. *)
Lemma parseFloatString_nonNumeric s :
  nonNumericLead s = true -> parseFloatString s = NaN.
Proof.
  destruct s as [|c r]; [discriminate |].
  unfold nonNumericLead, parseFloatString, readDecimalLiteral.
  each_char c.
Qed.

(** Integers below one hundred, the hours among them, are printed as
    their decimal digits. *)
Lemma Number_toString_small (v : N) :
  (v < 100)%N -> Number_toString (Dec false v 0) = natDigits v.
Proof.
  intros Hv. rewrite <- (N2Nat.id v).
  assert (Hn : (N.to_nat v < 100)%nat) by lia.
  revert Hn. generalize (N.to_nat v). intros n Hn.
  do 100 (destruct n as [|n]; [vm_compute; reflexivity |]).
  lia.
Qed.

(** From [2^53] on, and for every fraction, the nearest double is
    computed, and named as it is printed. *)
Example parseInt_rounds :
  parseIntString "9007199254740993" = Dec false 9007199254740992 0.
Proof. vm_compute. reflexivity. Qed.

Example parseFloat_overflow : parseFloatString "1e400" = Infinity false.
Proof. vm_compute. reflexivity. Qed.

Example parseFloat_underflow : parseFloatString "1e-400" = zero.
Proof. vm_compute. reflexivity. Qed.

Example parseFloat_subnormal : parseFloatString "3e-324" = Dec false 5 324.
Proof. vm_compute. reflexivity. Qed.

Example parseFloat_seventeen :
  parseFloatString "0.3000000000000000444" = Dec false 30000000000000004 17.
Proof. vm_compute. reflexivity. Qed.

Example toString_shortest :
  Number_toString (parseIntString "1152921504606846976") = "1152921504606847000".
Proof. vm_compute. reflexivity. Qed.

Example toString_exponent : Number_toString (parseFloatString "1e21") = "1e+21".
Proof. vm_compute. reflexivity. Qed.

(** On integers below [2^53] the rounding gives the integer itself, as
    [NumberValue] takes it to. *)
Example roundedName_integer :
  roundedName false 7 0 = Dec false 7 0
  /\ roundedName false 450 0 = Dec false 450 0
  /\ roundedName false 45 1 = Dec false 450 0
  /\ roundedName true 999999999999999 0 = Dec true 999999999999999 0
  /\ roundedName false 9007199254740991 0 = Dec false 9007199254740991 0
  /\ roundedName false 9007199254740992 0 = Dec false 9007199254740992 0.
Proof. vm_compute. repeat split; reflexivity. Qed.

Example parseFloat_fraction :
  parseFloatString "28.6139" = Dec false 286139 4
  /\ parseFloatString "450.50" = Dec false 4505 1
  /\ parseFloatString "0.1" = Dec false 1 1
  /\ parseFloatString "-77.2090" = Dec true 77209 3.
Proof. vm_compute. repeat split; reflexivity. Qed.

(** *** Amount *)

(** C8 (amended): the canonical totalAmount is [parseFloat] of the raw
    price: zero when the price is missing or empty (the default ['0']), and
    for a non-empty price string the number [parseFloat] reads from it,
    which is [n] for the decimal notation of an integer [n] below [2^53],
    with or without zeros before it, and NaN, not zero, for a string no
    number starts with, such as ["abc"]. *)
Theorem amount_is_parseFloat `{Engine} (booking price : jsval) :
  get booking "price" = Ok price ->
  textOrMissing price = true ->
  BookingApi.totalPrice booking =
    Ok (match price with
        | VStr s => if s =? "" then zero else parseFloatString s
        | _ => zero
        end)
  /\ (forall w b w',
        BookingApi.processBooking booking w = (Ok b, w') ->
        BookingApi.totalAmount b =
          match price with
          | VStr s => if s =? "" then zero else parseFloatString s
          | _ => zero
          end)
  /\ (forall s, price = VStr s -> nonNumericLead s = true ->
        BookingApi.totalPrice booking = Ok NaN)
  /\ (forall z n, (n < 2 ^ 53)%N -> price = VStr (repeatChar "0" z +:+ natDigits n) ->
        BookingApi.totalPrice booking = Ok (Dec false n 0)).
Proof.
  intros Hget Htext.
  assert (Hp : BookingApi.totalPrice booking =
               Ok (match price with
                   | VStr s => if s =? "" then zero else parseFloatString s
                   | _ => zero
                   end)).
  { unfold BookingApi.totalPrice. rewrite (field_get _ _ _ _ Hget).
    unfold textOrMissing in Htext.
    destruct price as [| |b|n|s|l|fs]; simpl in *; try reflexivity; try discriminate.
    - destruct b; simpl in *; [discriminate | reflexivity].
    - destruct n as [|neg|neg m k]; simpl in *; try discriminate; try reflexivity.
      unfold or. simpl. destruct (m =? 0)%N; simpl in *; [reflexivity | discriminate].
    - unfold or. simpl. destruct (s =? ""); reflexivity. }
  split; [exact Hp |]. split; [| split].
  - intros w b w' Hrun.
    apply processBooking_parts in Hrun. destruct Hrun as (_ & Hb & _).
    rewrite Hp in Hb. injection Hb as <-. reflexivity.
  - intros s -> Hs. rewrite Hp.
    destruct s as [|c r]; [discriminate |].
    rewrite (parseFloatString_nonNumeric _ Hs). reflexivity.
  - intros z n Hn ->. rewrite Hp.
    pose proof (padded_nonempty z n) as Hne.
    destruct (repeatChar "0" z +:+ natDigits n =? "") eqn:E;
      [apply String.eqb_eq in E; congruence |].
    rewrite (parseFloatString_digits _ (padded_allDigits z n) Hne).
    rewrite digitsValue_padded, (NumberValue_small _ _ Hn). reflexivity.
Qed.

(** The theorem at the raw price ["450"]. *)
Lemma amount_is_parseFloat_witness :
  BookingApi.totalPrice (VObj [("price", VStr "450")]) = Ok (Dec false 450 0).
Proof.
  destruct (@amount_is_parseFloat sampleEngine
              (VObj [("price", VStr "450")]) (VStr "450") eq_refl eq_refl)
    as (_ & _ & _ & Hd).
  apply (Hd 0%nat 450%N); reflexivity.
Defined.

(** C8, as stated, fails: the price ["abc"] gives the totalAmount NaN, not
    zero. *)
Lemma amount_nonNumeric_is_NaN :
  exists b,
    fst (@BookingApi.processBooking sampleEngine
           (VObj [("price", VStr "abc")]) (answering NoReply ∅)) = Ok b
    /\ BookingApi.totalAmount b = NaN
    /\ BookingApi.totalAmount b <> zero.
Proof.
  eexists. split; [vm_compute; reflexivity |].
  simpl. split; [reflexivity | discriminate].
Qed.

Example amount_fraction :
  BookingApi.totalPrice (VObj [("price", VStr "450.50")]) = Ok (Dec false 4505 1).
Proof. reflexivity. Qed.

Example amount_missing :
  BookingApi.totalPrice (VObj []) = Ok zero.
Proof. reflexivity. Qed.

(** A price of more digits than a double holds is rounded to the nearest
    double, and a price beyond the largest double is [Infinity]. *)
Example amount_rounded :
  BookingApi.totalPrice (VObj [("price", VStr "9007199254740993")])
  = Ok (Dec false 9007199254740992 0).
Proof. vm_compute. reflexivity. Qed.

Example amount_overflow :
  BookingApi.totalPrice (VObj [("price", VStr "1e400")]) = Ok (Infinity false).
Proof. vm_compute. reflexivity. Qed.

(** [getBookingById] reads the amount the same way, from [total_price]
    first. *)
Lemma bookingDetails_amount id booking b :
  BookingApi.bookingDetails id booking = Ok b ->
  exists total_price price,
    get booking "total_price" = Ok total_price
    /\ get booking "price" = Ok price
    /\ parseFloat (or (or total_price price) (VStr "0")) = Ok (BookingApi.totalAmount b).
Proof.
  unfold BookingApi.bookingDetails. intros E.
  repeat match goal with
    | E : bind _ _ = Ok _ |- _ => apply bind_Ok in E; destruct E as (? & ? & E)
    end.
  injection E as <-. simpl. eauto.
Qed.

Example bookingDetails_amount_NaN :
  exists b,
    BookingApi.bookingDetails "7" (VObj [("price", VStr "abc")]) = Ok b
    /\ BookingApi.totalAmount b = NaN.
Proof. eexists. split; [vm_compute; reflexivity | reflexivity]. Qed.

(** *** Time formatting *)

Lemma isHHMMSS_not_isHHMM s : isHHMMSS s = true -> isHHMM s = false.
Proof.
  destruct s as [|a [|b [|c [|d [|e [|f s]]]]]]; try discriminate.
  reflexivity.
Qed.

Lemma isHHMM_truthy s : isHHMM s = true -> truthy (VStr s) = true.
Proof. destruct s; [discriminate | reflexivity]. Qed.

Lemma isHHMMSS_truthy s : isHHMMSS s = true -> truthy (VStr s) = true.
Proof. destruct s; [discriminate | reflexivity]. Qed.

(** The formatter of the booking client on the three kinds of strings of
    the specification: [HH:MM] is kept, [HH:MM:SS] is cut to its first five
    characters, and a string that is neither and that [parseInt] cannot
    read is returned unchanged. *)
Lemma api_formatTime_HHMM s :
  isHHMM s = true -> BookingApi.formatTime (VStr s) = Ok (VStr s).
Proof.
  intros Hs. unfold BookingApi.formatTime.
  rewrite (isHHMM_truthy _ Hs). simpl. rewrite Hs. reflexivity.
Qed.

Lemma api_formatTime_HHMMSS s :
  isHHMMSS s = true ->
  BookingApi.formatTime (VStr s) = Ok (VStr (String.substring 0 5 s)).
Proof.
  intros Hs. unfold BookingApi.formatTime.
  rewrite (isHHMMSS_truthy _ Hs). simpl.
  rewrite (isHHMMSS_not_isHHMM _ Hs), Hs. reflexivity.
Qed.

Lemma api_formatTime_unparsable s :
  isHHMM s = false -> isHHMMSS s = false -> parseIntString s = NaN ->
  BookingApi.formatTime (VStr s) = Ok (VStr s).
Proof.
  intros H1 H2 Hn. unfold BookingApi.formatTime.
  destruct s as [|c r]; [reflexivity |].
  cbn [truthy String.eqb negb toString bind]. rewrite H1, H2, Hn. reflexivity.
Qed.

Example api_formatTime_seconds :
  BookingApi.formatTime (VStr "14:05:30") = Ok (VStr "14:05").
Proof. reflexivity. Qed.

Example api_formatTime_minutes :
  BookingApi.formatTime (VStr "14:05") = Ok (VStr "14:05").
Proof. reflexivity. Qed.

Example api_formatTime_text :
  BookingApi.formatTime (VStr "not a time") = Ok (VStr "not a time").
Proof. reflexivity. Qed.

(** C10 (amended): for every string that matches neither pattern and from
    which [parseInt] reads a number, the formatter of the booking client
    returns that number, printed and left-padded with zeros to two
    characters, followed by [":00"].  For a string that starts with the
    decimal notation of an integer [n] below [2^53], with or without zeros
    before it, not followed by a further digit, and not with the prefix
    [0x] of a hexadecimal number, this is [n] itself: ["0"], its digit and
    [":00"] when [n] is below ten, its digits and [":00"] otherwise. *)
Theorem formatTime_bare_hour (s : string) :
  isHHMM s = false -> isHHMMSS s = false ->
  (isNaN (parseIntString s) = false ->
   BookingApi.formatTime (VStr s) =
     Ok (VStr (padStart 2 "0" (Number_toString (parseIntString s)) +:+ ":00")))
  /\ (forall z n rest,
        s = repeatChar "0" z +:+ natDigits n +:+ rest ->
        (n < 2 ^ 53)%N -> noDigitAhead rest = true ->
        hexPrefixed s = false ->
        BookingApi.formatTime (VStr s) =
          Ok (VStr ((if (n <? 10)%N then "0" +:+ natDigits n else natDigits n)
                    +:+ ":00"))).
Proof.
  intros H1 H2.
  assert (E : isNaN (parseIntString s) = false ->
              BookingApi.formatTime (VStr s) =
              Ok (VStr (padStart 2 "0" (Number_toString (parseIntString s)) +:+ ":00"))).
  { intros Hn. unfold BookingApi.formatTime.
    destruct s as [|c r]; [discriminate |].
    cbn [truthy String.eqb negb toString bind]. rewrite H1, H2, Hn. reflexivity. }
  split; [exact E |].
  intros z n rest Hs Hn Hr Hx.
  pose proof (parseIntString_digits _ _ (padded_allDigits z n) (padded_nonempty z n) Hr)
    as Hp.
  rewrite string_append_assoc, <- Hs in Hp. specialize (Hp Hx).
  rewrite digitsValue_padded, (NumberValue_small _ _ Hn) in Hp.
  rewrite E by (rewrite Hp; reflexivity).
  rewrite Hp, (Number_toString_digits _ Hn), padStart_digits. reflexivity.
Qed.

(** The theorem at the strings ["9"], ["14abc"] and ["007"]. *)
Lemma formatTime_bare_hour_witness :
  BookingApi.formatTime (VStr "9") = Ok (VStr "09:00")
  /\ BookingApi.formatTime (VStr "14abc") = Ok (VStr "14:00")
  /\ BookingApi.formatTime (VStr "007") = Ok (VStr "07:00").
Proof.
  split; [| split].
  - destruct (formatTime_bare_hour "9" eq_refl eq_refl) as [_ Hd].
    apply (Hd 0%nat 9%N ""); reflexivity.
  - destruct (formatTime_bare_hour "14abc" eq_refl eq_refl) as [_ Hd].
    apply (Hd 0%nat 14%N "abc"); reflexivity.
  - destruct (formatTime_bare_hour "007" eq_refl eq_refl) as [_ Hd].
    apply (Hd 2%nat 7%N ""); reflexivity.
Defined.

(** C10, as stated, fails.  The string ["0x1A"] matches neither pattern
    and starts with the decimal integer 0, and it is formatted as
    ["26:00"], not ["00:00"]: after [0x], [parseInt] reads hexadecimal
    digits.  And the digits of 9007199254740993 are formatted as
    ["9007199254740992:00"]: the integer is rounded to the nearest
    double. *)
Lemma formatTime_hour_misread :
  (isHHMM "0x1A" = false /\ isHHMMSS "0x1A" = false
   /\ "0x1A" = natDigits 0 +:+ "x1A"
   /\ BookingApi.formatTime (VStr "0x1A") = Ok (VStr "26:00")
   /\ BookingApi.formatTime (VStr "0x1A") <> Ok (VStr "00:00"))
  /\ (isHHMM "9007199254740993" = false /\ isHHMMSS "9007199254740993" = false
      /\ "9007199254740993" = natDigits 9007199254740993
      /\ BookingApi.formatTime (VStr "9007199254740993")
         = Ok (VStr "9007199254740992:00")
      /\ BookingApi.formatTime (VStr "9007199254740993")
         <> Ok (VStr "9007199254740993:00")).
Proof.
  assert (E1 : BookingApi.formatTime (VStr "0x1A") = Ok (VStr "26:00"))
    by (vm_compute; reflexivity).
  assert (E2 : BookingApi.formatTime (VStr "9007199254740993")
               = Ok (VStr "9007199254740992:00"))
    by (vm_compute; reflexivity).
  split.
  - split; [reflexivity |]. split; [reflexivity |]. split; [reflexivity |].
    split; [exact E1 | rewrite E1; discriminate].
  - split; [reflexivity |]. split; [reflexivity |]. split; [reflexivity |].
    split; [exact E2 | rewrite E2; discriminate].
Qed.

Example formatTime_hour_9 :
  BookingApi.formatTime (VStr "9") = Ok (VStr "09:00").
Proof. reflexivity. Qed.

Example formatTime_hour_14 :
  BookingApi.formatTime (VStr "14") = Ok (VStr "14:00").
Proof. reflexivity. Qed.

Example formatTime_hour_14abc :
  BookingApi.formatTime (VStr "14abc") = Ok (VStr "14:00").
Proof. reflexivity. Qed.

(** After the prefix [0x], [parseInt] reads hexadecimal digits. *)
Example formatTime_hexadecimal :
  BookingApi.formatTime (VStr "0x1A") = Ok (VStr "26:00").
Proof. reflexivity. Qed.

(** The formatter of the bookings screen keeps [HH:MM] and cuts
    [HH:MM:SS]. *)
Lemma screen_formatTime_HHMM `{Engine} s :
  isHHMM s = true -> BookingsScreen.formatTime s = s.
Proof.
  intros Hs. unfold BookingsScreen.formatTime.
  destruct s as [|c r]; [discriminate |].
  cbn [String.eqb]. rewrite Hs. reflexivity.
Qed.

Lemma screen_formatTime_HHMMSS `{Engine} s :
  isHHMMSS s = true -> BookingsScreen.formatTime s = String.substring 0 5 s.
Proof.
  intros Hs. unfold BookingsScreen.formatTime.
  destruct s as [|c r]; [discriminate |].
  cbn [String.eqb].
  rewrite (isHHMMSS_not_isHHMM _ Hs), Hs. reflexivity.
Qed.

(** Its [try] block never throws, so its [catch], which would return the
    string unchanged, never runs. *)
Lemma screen_localeTime_returns `{Engine} s :
  exists text, BookingsScreen.localeTime s = Ok text.
Proof. unfold BookingsScreen.localeTime. destruct (Date_parse s); eauto. Qed.

(** C9 on the bookings screen: a string that matches neither pattern and
    that the engine cannot read as a date is formatted as
    ["Invalid Date"]; it is not returned unchanged. *)
Theorem screen_formatTime_unparsable `{Engine} (s : string) :
  s <> "" -> isHHMM s = false -> isHHMMSS s = false ->
  Date_parse s = None ->
  BookingsScreen.formatTime s = "Invalid Date".
Proof.
  intros Hne H1 H2 Hd. unfold BookingsScreen.formatTime, BookingsScreen.localeTime.
  apply String.eqb_neq in Hne. rewrite Hne, H1, H2, Hd. reflexivity.
Qed.

(** The theorem at the string ["abc"]. *)
Lemma screen_formatTime_unparsable_witness :
  @BookingsScreen.formatTime sampleEngine "abc" = "Invalid Date"
  /\ "Invalid Date" <> "abc".
Proof.
  split.
  - apply (@screen_formatTime_unparsable sampleEngine "abc");
      [discriminate | reflexivity | reflexivity | reflexivity].
  - discriminate.
Defined.

Lemma fieldIs_get p v k :
  fieldIs p v k = true -> exists x, get v k = Ok x /\ p x = true.
Proof. unfold fieldIs. destruct (get v k) as [x|e]; [eauto | discriminate]. Qed.

Lemma toString_scalar v : scalar v = true -> exists s, toString v = Ok s.
Proof. destruct v; simpl; try discriminate; eauto. Qed.

Lemma or_scalar a s : scalar a = true -> scalar (or a (VStr s)) = true.
Proof. unfold or. destruct (truthy a); auto. Qed.

(** *** Images *)

Lemma facilityImages_shape `{Engine} booking imgs :
  BookingApi.facilityImages booking = Ok imgs ->
  exists facility_image,
    get booking "facility_image" = Ok facility_image
    /\ ((truthy facility_image = false
         /\ imgs = match BookingApi.parsedFacilityImages booking with
                   | [] => [BookingApi.FALLBACK_IMAGE]
                   | l => l
                   end)
        \/ (truthy facility_image = true
            /\ exists text, toString facility_image = Ok text
               /\ imgs = (BookingApi.ASSET_HOST +:+ text)
                           :: BookingApi.parsedFacilityImages booking)).
Proof.
  unfold BookingApi.facilityImages. intros E.
  apply bind_Ok in E. destruct E as (f & Hf & E).
  exists f. split; [exact Hf |].
  destruct (truthy f).
  - right. split; [reflexivity |].
    apply bind_Ok in E. destruct E as (l & Hl & E).
    apply bind_Ok in Hl. destruct Hl as (text & Ht & Hl).
    injection Hl as <-. injection E as <-. eauto.
  - left. split; [reflexivity |].
    apply bind_Ok in E. destruct E as (l & Hl & E).
    injection Hl as <-. injection E as <-.
    destruct (BookingApi.parsedFacilityImages booking); reflexivity.
Qed.

Lemma parsedFacilityImages_none `{Engine} booking images :
  get booking "images" = Ok images ->
  truthy images = false \/ (exists e, parseJSON images = Throw e) ->
  BookingApi.parsedFacilityImages booking = [].
Proof.
  intros Hget Hno. unfold BookingApi.parsedFacilityImages. rewrite Hget. simpl.
  destruct Hno as [-> | [e He]]; [reflexivity |].
  destruct (truthy images); [| reflexivity].
  rewrite He. reflexivity.
Qed.

(** C3: the image list of every canonical booking that [getBookings]
    builds is non-empty, and a list is built whenever the featured image is
    a scalar; for a raw booking whose images are missing (or [null], or
    fail to decode) and that has no featured image, the list is the stock
    fallback image alone. *)
Theorem images_never_empty `{Engine} (booking : jsval) :
  (forall imgs, BookingApi.facilityImages booking = Ok imgs -> imgs <> [])
  /\ (fieldIs scalar booking "facility_image" = true ->
      exists imgs, BookingApi.facilityImages booking = Ok imgs /\ imgs <> [])
  /\ (forall w b w',
        BookingApi.processBooking booking w = (Ok b, w') ->
        BookingApi.images (BookingApi.venue b) <> [])
  /\ (forall images facility_image,
        get booking "images" = Ok images ->
        get booking "facility_image" = Ok facility_image ->
        truthy facility_image = false ->
        truthy images = false \/ (exists e, parseJSON images = Throw e) ->
        BookingApi.facilityImages booking = Ok [BookingApi.FALLBACK_IMAGE]
        /\ (forall w b w',
              BookingApi.processBooking booking w = (Ok b, w') ->
              BookingApi.images (BookingApi.venue b) = [VStr BookingApi.FALLBACK_IMAGE])).
Proof.
  assert (Hne : forall imgs, BookingApi.facilityImages booking = Ok imgs -> imgs <> []).
  { intros imgs E. apply facilityImages_shape in E.
    destruct E as (f & _ & [[_ ->] | [_ (text & _ & ->)]]); [| discriminate].
    destruct (BookingApi.parsedFacilityImages booking); discriminate. }
  split; [exact Hne |]. split; [| split].
  - intros Hf. destruct (fieldIs_get _ _ _ Hf) as (fi & Efi & Hfi).
    assert (E : exists imgs, BookingApi.facilityImages booking = Ok imgs).
    { unfold BookingApi.facilityImages. rewrite Efi. cbn [bind].
      destruct (truthy fi); [| cbn [bind]; eauto].
      destruct (toString_scalar _ Hfi) as [t ->]. cbn [bind]. eauto. }
    destruct E as [imgs E]. exists imgs. split; [exact E | apply Hne, E].
  - intros w b w' Hrun. apply processBooking_parts in Hrun.
    destruct Hrun as ((imgs & Hi & ->) & _).
    specialize (Hne _ Hi). destruct imgs; [congruence | discriminate].
  - intros images f Hi Hf Hfalsy Hno.
    assert (E : BookingApi.facilityImages booking = Ok [BookingApi.FALLBACK_IMAGE]).
    { unfold BookingApi.facilityImages.
      rewrite (parsedFacilityImages_none _ _ Hi Hno), Hf. simpl.
      rewrite Hfalsy. reflexivity. }
    split; [exact E |].
    intros w b w' Hrun. apply processBooking_parts in Hrun.
    destruct Hrun as ((imgs & Hi' & ->) & _).
    rewrite E in Hi'. injection Hi' as <-. reflexivity.
Qed.

(** The theorem at a raw booking with [images: null] and no featured
    image. *)
Lemma images_never_empty_witness :
  @BookingApi.facilityImages sampleEngine (VObj [("images", VNull)])
  = Ok [BookingApi.FALLBACK_IMAGE].
Proof.
  apply (proj1 (proj2 (proj2 (proj2
           (@images_never_empty sampleEngine (VObj [("images", VNull)]))))
           VNull VUndefined eq_refl eq_refl eq_refl (or_introl eq_refl))).
Defined.

(** The scenario of the specification: [images: "[\"a.jpg\"]"]. *)
Example images_decoded :
  @BookingApi.facilityImages sampleEngine (VObj [("images", VStr imagesText)])
  = Ok ["https://admin.bookvenue.app/a.jpg"].
Proof. reflexivity. Qed.

(** Images that fail to decode. *)
Example images_undecodable :
  @BookingApi.facilityImages sampleEngine (VObj [("images", VStr "not json")])
  = Ok [BookingApi.FALLBACK_IMAGE].
Proof. reflexivity. Qed.

(** The older client has no fallback: its bookings are raw records with a
    decoded [images] field, which can be empty. *)
Example v1_images_can_be_empty :
  @BookingApiV1.processBooking sampleEngine (VObj [("images", VNull)])
  = Ok (VObj [("images", VArr [])]).
Proof. reflexivity. Qed.

(** C7 at three raw bookings: an image that is already an absolute URL,
    as featured image and inside [images], is prefixed with the asset host
    all the same, and the backslash of a featured image is kept. *)
Theorem absolute_image_prefixed :
  @BookingApi.facilityImages sampleEngine
     (VObj [("facility_image", VStr "https://cdn.example.com/a.jpg")])
  = Ok ["https://admin.bookvenue.app/https://cdn.example.com/a.jpg"]
  /\ @BookingApi.facilityImages sampleEngine
       (VObj [("images", VStr absoluteImagesText)])
     = Ok ["https://admin.bookvenue.app/https://cdn.example.com/a.jpg"]
  /\ @BookingApi.facilityImages sampleEngine
       (VObj [("facility_image", VStr "uploads\a.jpg")])
     = Ok ["https://admin.bookvenue.app/uploads\a.jpg"].
Proof. repeat split; reflexivity. Qed.

(** What the two clients do with an image path: the booking client
    replaces the backslashes of the decoded images and always prefixes the
    host; the older client keeps a path that starts with [http] and prefixes
    the others, backslashes untouched. *)
Lemma hostImages_each imgs :
  BookingApi.hostImages (map VStr imgs) =
    Ok (map (fun i => BookingApi.ASSET_HOST +:+ replaceBackslashes i) imgs).
Proof.
  induction imgs as [|x imgs IH]; [reflexivity |].
  cbn [BookingApi.hostImages map]. rewrite IH. reflexivity.
Qed.

Lemma v1_resolveImages_each imgs :
  BookingApiV1.resolveImages (map VStr imgs) =
    Ok (map (fun i => VStr (if startsWith "http" i then i
                            else "https://admin.bookvenue.app/" +:+ i)) imgs).
Proof.
  induction imgs as [|x imgs IH]; [reflexivity |].
  cbn [BookingApiV1.resolveImages map]. rewrite IH. reflexivity.
Qed.

Example v1_backslash_kept :
  BookingApiV1.resolveImages [VStr "uploads\a.jpg"; VStr "https://cdn.example.com/a.jpg"]
  = Ok [VStr "https://admin.bookvenue.app/uploads\a.jpg";
        VStr "https://cdn.example.com/a.jpg"].
Proof. reflexivity. Qed.

(** *** Determinism and totality of the normalisation *)

Lemma cbind_lift {A B} (r : result A) (k : A -> comp B) (w : world) :
  cbind (lift r) k w = match r with Ok a => k a w | Throw e => (Throw e, w) end.
Proof. unfold cbind, lift. destruct r; reflexivity. Qed.

(** The identifier is a function of the booking and of the next draw. *)
Lemma bookingIdentifier_draw booking w1 w2 :
  random w1 (drawn w1) = random w2 (drawn w2) ->
  fst (BookingApi.bookingIdentifier booking w1)
  = fst (BookingApi.bookingIdentifier booking w2).
Proof.
  intros Hd. unfold BookingApi.bookingIdentifier. rewrite !cbind_lift.
  destruct (get booking "bookingId") as [v|e]; [| reflexivity].
  rewrite !cbind_lift.
  destruct (BookingApi.toStringOpt v) as [[s|]|e]; [| | reflexivity].
  - destruct (negb (s =? "")); [reflexivity |].
    unfold cbind, Math_random, ret. simpl. rewrite Hd. reflexivity.
  - unfold cbind, Math_random, ret. simpl. rewrite Hd. reflexivity.
Qed.

(** When the booking has an identifier, no number is drawn. *)
Lemma bookingIdentifier_present booking v s w :
  get booking "bookingId" = Ok v ->
  BookingApi.toStringOpt v = Ok (Some s) -> s <> "" ->
  BookingApi.bookingIdentifier booking w = (Ok s, w).
Proof.
  intros Hv Hs Hne. unfold BookingApi.bookingIdentifier.
  rewrite cbind_lift, Hv, cbind_lift, Hs.
  apply String.eqb_neq in Hne. rewrite Hne. reflexivity.
Qed.

Lemma cbind_run {A B} (m : comp A) (k : A -> comp B) (w : world) :
  cbind m k w = match m w with
                | (Ok a, w') => k a w'
                | (Throw e, w') => (Throw e, w')
                end.
Proof. reflexivity. Qed.

Ltac pure_steps closing :=
  repeat (rewrite !cbind_lift; cbv beta iota;
          try match goal with
              | |- context [match ?r with Ok _ => _ | Throw _ => _ end] =>
                  destruct r; [| closing]
              end).

Lemma processBooking_draw `{Engine} booking w1 w2 :
  fst (BookingApi.bookingIdentifier booking w1)
  = fst (BookingApi.bookingIdentifier booking w2) ->
  fst (BookingApi.processBooking booking w1)
  = fst (BookingApi.processBooking booking w2).
Proof.
  intros Hid. unfold BookingApi.processBooking.
  pure_steps ltac:(reflexivity).
  rewrite !cbind_run.
  destruct (BookingApi.bookingIdentifier booking w1) as [[i1|e1] w1'];
    destruct (BookingApi.bookingIdentifier booking w2) as [[i2|e2] w2'];
    simpl in Hid; try discriminate.
  - injection Hid as ->. pure_steps ltac:(reflexivity). reflexivity.
  - injection Hid as ->. reflexivity.
Qed.

Lemma processBooking_world `{Engine} booking w r w' :
  BookingApi.processBooking booking w = (r, w') ->
  storage w' = storage w /\ server w' = server w /\ random w' = random w.
Proof.
  unfold BookingApi.processBooking.
  pure_steps ltac:(intros E; injection E as <- <-; auto).
  rewrite cbind_run.
  destruct (BookingApi.bookingIdentifier booking w) as [[i|e] w1] eqn:Hid;
    apply bookingIdentifier_world in Hid.
  - pure_steps ltac:(intros E; injection E as <- <-; auto).
    unfold ret. intros E; injection E as <- <-; auto.
  - intros E; injection E as <- <-; auto.
Qed.


Lemma parseFloat_scalar v : scalar v = true -> exists n, parseFloat v = Ok n.
Proof.
  intros Hs. destruct (toString_scalar _ Hs) as [s Es].
  unfold parseFloat. rewrite Es. simpl. eauto.
Qed.

Lemma text_when_truthy t :
  textOrMissing t = true -> truthy t = true -> exists s, t = VStr s.
Proof.
  unfold textOrMissing. intros Ht Hy. rewrite Hy in Ht.
  destruct t; simpl in Ht; try discriminate. eauto.
Qed.

Lemma or_text a b :
  textOrMissing a = true -> textOrMissing b = true -> textOrMissing (or a b) = true.
Proof. unfold or. destruct (truthy a); auto. Qed.

(** On a string the formatter of the booking client returns a string. *)
Lemma api_formatTime_string s :
  exists t, BookingApi.formatTime (VStr s) = Ok (VStr t).
Proof.
  unfold BookingApi.formatTime.
  destruct (negb (truthy (VStr s))); [eauto |].
  cbn [toString bind].
  destruct (isHHMM s); [eauto |].
  destruct (isHHMMSS s); [eauto |].
  destruct (negb (isNaN (parseIntString s))); eauto.
Qed.

Lemma join_strings sep ts :
  Forall (fun t => isString t = true) ts -> exists s, join sep ts = Ok s.
Proof.
  induction 1 as [|x r Hx Hr IH]; [simpl; eauto |].
  destruct x; try discriminate. destruct IH as [sr Esr].
  cbn [join toString bind]. destruct r; [eauto |].
  rewrite Esr. cbn [bind]. eauto.
Qed.

Lemma slotTimeList_strings k1 k2 l :
  Forall (fun slot => fieldIs textOrMissing slot k1 = true
                      /\ fieldIs textOrMissing slot k2 = true) l ->
  exists ts, BookingApi.slotTimeList k1 k2 l = Ok ts
             /\ Forall (fun t => isString t = true) ts.
Proof.
  induction 1 as [|slot r [H1 H2] Hr IH]; [simpl; eauto |].
  destruct (fieldIs_get _ _ _ H1) as (t1 & E1 & T1).
  destruct (fieldIs_get _ _ _ H2) as (t2 & E2 & T2).
  destruct IH as (ts & Ets & Fts).
  cbn [BookingApi.slotTimeList]. rewrite E1, E2. cbn [bind].
  pose proof (or_text _ _ T1 T2) as Tt.
  destruct (truthy (or t1 t2)) eqn:Hy.
  - destruct (text_when_truthy _ Tt Hy) as [s ->].
    destruct (api_formatTime_string s) as [t ->]. cbn [bind].
    rewrite Ets. cbn [bind].
    destruct (truthy (VStr t)); eauto.
  - cbn [bind]. rewrite Ets. cbn [bind truthy]. eauto.
Qed.

Lemma slotRecords_times l :
  forallb slotRecord l = true ->
  Forall (fun slot => fieldIs textOrMissing slot "start_time" = true
                      /\ fieldIs textOrMissing slot "startTime" = true) l
  /\ Forall (fun slot => fieldIs textOrMissing slot "end_time" = true
                         /\ fieldIs textOrMissing slot "endTime" = true) l.
Proof.
  induction l as [|slot r IH]; [split; constructor |].
  cbn [forallb]. intros Hl. apply andb_true_iff in Hl. destruct Hl as [Hs Hr].
  unfold slotRecord in Hs.
  repeat (apply andb_true_iff in Hs; destruct Hs as [Hs ?]).
  destruct (IH Hr). split; constructor; auto.
Qed.

Lemma joinTimes_strings ts :
  Forall (fun t => isString t = true) ts -> exists s, BookingApi.joinTimes ts = Ok s.
Proof.
  intros F. unfold BookingApi.joinTimes. destruct ts; [eauto |].
  apply join_strings, F.
Qed.

Lemma slots_total booking :
  fieldIs slotSequence booking "slots" = true ->
  (exists c, BookingApi.slotsCount booking = Ok c)
  /\ (exists t, BookingApi.slotTimes booking = Ok t).
Proof.
  intros Hf. destruct (fieldIs_get _ _ _ Hf) as (slots & Es & Hs).
  unfold BookingApi.slotsCount, BookingApi.slotTimes, BookingApi.hasSlots.
  rewrite Es. cbn [bind].
  destruct slots as [| |b|n|s|l|fs];
    try (unfold slotSequence in Hs; apply negb_true_iff in Hs; rewrite Hs;
         simpl; split; eauto; fail).
  simpl in Hs.
  cbn [truthy get bind]. rewrite String.eqb_refl.
  unfold gtZero, toNumber. cbn [bind fst snd].
  split; [eauto |].
  destruct (positive (Dec false (N.of_nat (List.length l)) 0)); [| eauto].
  destruct (slotRecords_times _ Hs) as [Fs Fe].
  destruct (slotTimeList_strings _ _ _ Fs) as (ss & -> & Fss).
  destruct (slotTimeList_strings _ _ _ Fe) as (es & -> & Fes).
  cbn [bind].
  destruct (joinTimes_strings _ Fss) as [s1 ->].
  destruct (joinTimes_strings _ Fes) as [s2 ->].
  cbn [bind]. eauto.
Qed.

Lemma bookingIdentifier_total booking w :
  fieldIs scalar booking "bookingId" = true ->
  exists i w', BookingApi.bookingIdentifier booking w = (Ok i, w').
Proof.
  intros Hf. destruct (fieldIs_get _ _ _ Hf) as (v & Ev & Hv).
  unfold BookingApi.bookingIdentifier. rewrite cbind_lift, Ev, cbind_lift.
  assert (Ht : exists o, BookingApi.toStringOpt v = Ok o).
  { unfold BookingApi.toStringOpt.
    destruct (toString_scalar _ Hv) as [s Es].
    destruct v; try (rewrite Es); simpl; eauto. }
  destruct Ht as [o ->].
  destruct o as [s|]; [destruct (negb (s =? "")) |];
    unfold ret, cbind, Math_random; eauto.
Qed.

(** On a raw booking of the wire shape the normalisation returns a
    canonical booking. *)
Lemma processBooking_total `{Engine} booking w :
  wireShaped booking = true ->
  exists b w', BookingApi.processBooking booking w = (Ok b, w').
Proof.
  unfold wireShaped. intros Hw.
  repeat (apply andb_true_iff in Hw; destruct Hw as [Hw ?]).
  destruct (fieldIs_get _ _ _ Hw) as (fi & Efi & Hfi).
  match goal with
  | Hp : fieldIs scalar booking "price" = true |- _ =>
      destruct (fieldIs_get _ _ _ Hp) as (price & Eprice & Hprice)
  end.
  match goal with
  | Hp : fieldIs textOrMissing booking "status" = true |- _ =>
      destruct (fieldIs_get _ _ _ Hp) as (st & Est & Hst)
  end.
  match goal with
  | Hp : fieldIs scalar booking "lat" = true |- _ =>
      destruct (fieldIs_get _ _ _ Hp) as (lat & Elat & Hlat)
  end.
  match goal with
  | Hp : fieldIs scalar booking "lng" = true |- _ =>
      destruct (fieldIs_get _ _ _ Hp) as (lng & Elng & Hlng)
  end.
  match goal with
  | Hp : fieldIs slotSequence booking "slots" = true |- _ =>
      destruct (slots_total _ Hp) as ([c Ec] & [t Et])
  end.
  match goal with
  | Hp : fieldIs scalar booking "bookingId" = true |- _ =>
      destruct (bookingIdentifier_total booking w Hp) as (i & w' & Ei)
  end.
  assert (Eimg : exists imgs, BookingApi.facilityImages booking = Ok imgs).
  { unfold BookingApi.facilityImages. rewrite Efi. cbn [bind].
    destruct (truthy fi); [| cbn [bind]; eauto].
    destruct (toString_scalar _ Hfi) as [s ->]. cbn [bind]. eauto. }
  destruct Eimg as [imgs Eimg].
  destruct (get_total _ _ "facility" _ Efi) as [x1 E1].
  destruct (get_total _ _ "court" _ Efi) as [x2 E2].
  destruct (get_total _ _ "date" _ Efi) as [x3 E3].
  destruct (get_total _ _ "facility_slug" _ Efi) as [x4 E4].
  destruct (get_total _ _ "address" _ Efi) as [x5 E5].
  destruct (parseFloat_scalar _ (or_scalar _ "0" Hprice)) as [amount Eamount].
  destruct (parseFloat_scalar _ (or_scalar _ "28.6139" Hlat)) as [la Ela].
  destruct (parseFloat_scalar _ (or_scalar _ "77.2090" Hlng)) as [lo Elo].
  unfold BookingApi.processBooking.
  rewrite cbind_lift, Eimg.
  rewrite cbind_lift, (field_get _ _ _ _ E1).
  rewrite cbind_lift, (field_get _ _ _ _ E2).
  rewrite cbind_lift, E3.
  unfold BookingApi.totalPrice at 1.
  rewrite cbind_lift, (field_get _ _ _ _ Eprice). cbn [bind]. rewrite Eamount.
  rewrite cbind_lift, (bookingStatus_text _ _ Est Hst).
  rewrite cbind_lift, Ec.
  rewrite cbind_lift, Et.
  rewrite cbind_run, Ei.
  rewrite cbind_lift, (field_get _ _ _ _ E4).
  rewrite cbind_lift, (field_get _ _ _ _ E5).
  rewrite cbind_lift.
  rewrite cbind_lift, (field_get _ _ _ _ Elat). cbn [bind]. rewrite Ela.
  rewrite cbind_lift, (field_get _ _ _ _ Elng). cbn [bind]. rewrite Elo.
  unfold ret. eauto.
Qed.


(** C4 (amended): the normalisation of a raw booking is a function of the
    raw booking and of the next number of the random source, and of nothing
    else; it writes neither storage nor the backend; when the raw booking
    carries an identifier it does not depend on the random source either;
    and on a raw booking of the wire shape it raises no error. *)
Theorem normalization_function_of_booking_and_draw `{Engine} (booking : jsval) :
  (forall w1 w2,
     random w1 (drawn w1) = random w2 (drawn w2) ->
     fst (BookingApi.processBooking booking w1)
     = fst (BookingApi.processBooking booking w2))
  /\ (forall w r w',
        BookingApi.processBooking booking w = (r, w') ->
        storage w' = storage w /\ server w' = server w /\ random w' = random w)
  /\ (forall v s,
        get booking "bookingId" = Ok v ->
        BookingApi.toStringOpt v = Ok (Some s) -> s <> "" ->
        forall w1 w2,
          fst (BookingApi.processBooking booking w1)
          = fst (BookingApi.processBooking booking w2))
  /\ (wireShaped booking = true ->
      forall w, exists b w', BookingApi.processBooking booking w = (Ok b, w')).
Proof.
  split; [| split; [| split]].
  - intros w1 w2 Hd. apply processBooking_draw, bookingIdentifier_draw, Hd.
  - intros w r w'. apply processBooking_world.
  - intros v s Hv Hs Hne w1 w2. apply processBooking_draw.
    rewrite !(bookingIdentifier_present _ _ _ _ Hv Hs Hne). reflexivity.
  - intros Hw w. apply processBooking_total, Hw.
Qed.

(** The theorem at the sample booking. *)
Lemma normalization_function_of_booking_and_draw_witness :
  exists b w',
    @BookingApi.processBooking sampleEngine sampleBooking (answering NoReply ∅)
    = (Ok b, w').
Proof.
  apply (proj2 (proj2 (proj2
           (@normalization_function_of_booking_and_draw sampleEngine sampleBooking)))
           eq_refl).
Defined.

(** C4, as stated, fails: a raw booking without identifier is given a
    random one, so two runs on it differ; and a raw booking whose status is
    a number makes the normalisation throw. *)
Lemma normalization_draws_and_throws :
  fst (@BookingApi.processBooking sampleEngine (VObj []) (answering NoReply ∅))
  <> fst (@BookingApi.processBooking sampleEngine (VObj []) (redrawn (answering NoReply ∅)))
  /\ fst (@BookingApi.processBooking sampleEngine
            (VObj [("status", VNum (Dec false 1 0))]) (answering NoReply ∅))
     = Throw TypeError.
Proof.
  split; [| vm_compute; reflexivity].
  vm_compute. intros E. discriminate E.
Qed.

Example sampleBooking_normalized :
  exists b,
    fst (@BookingApi.processBooking sampleEngine sampleBooking (answering NoReply ∅)) = Ok b
    /\ BookingApi.id b = "7"
    /\ BookingApi.images (BookingApi.venue b) = [VStr "https://admin.bookvenue.app/a.jpg"]
    /\ BookingApi.startTime b = VStr "14:05, 16:00"
    /\ BookingApi.endTime b = VStr "15:00"
    /\ BookingApi.totalAmount b = Dec false 4505 1
    /\ BookingApi.status b = "confirmed"
    /\ BookingApi.slots b = VNum (Dec false 2 0).
Proof. eexists. split; [vm_compute; reflexivity |]. repeat split. Qed.

(** Other ways for the normalisation to throw: a raw booking that is
    [null], slots that are a non-empty string, a slot that is [null], a
    slot time that is an array holding one [HH:MM:SS] string. *)
Example normalization_throws_on_null :
  fst (@BookingApi.processBooking sampleEngine VNull (answering NoReply ∅))
  = Throw TypeError.
Proof. vm_compute. reflexivity. Qed.

Example normalization_throws_on_text_slots :
  fst (@BookingApi.processBooking sampleEngine
         (VObj [("slots", VStr "none")]) (answering NoReply ∅))
  = Throw TypeError.
Proof. vm_compute. reflexivity. Qed.

Example normalization_throws_on_null_slot :
  fst (@BookingApi.processBooking sampleEngine
         (VObj [("slots", VArr [VNull])]) (answering NoReply ∅))
  = Throw TypeError.
Proof. vm_compute. reflexivity. Qed.

Example normalization_throws_on_array_time :
  fst (@BookingApi.processBooking sampleEngine
         (VObj [("slots", VArr [VObj [("start_time", VArr [VStr "12:34:56"])]])])
         (answering NoReply ∅))
  = Throw TypeError.
Proof. vm_compute. reflexivity. Qed.


(** *** Restoring the session *)

Lemma getItem_run k w :
  getItem k w = (Ok (match storage w !! k with Some s => VStr s | None => VNull end), w).
Proof. reflexivity. Qed.

Lemma blank_falsy item :
  blank item -> truthy (match item with Some s => VStr s | None => VNull end) = false.
Proof. intros [-> | ->]; reflexivity. Qed.

Lemma restore_skipped `{Engine} (s : AuthContext.session) (w : world) :
  blank (storage w !! "user") \/ blank (storage w !! "token") ->
  AuthContext.loadStoredUser s w = (Ok (AuthContext.setLoading false s), w).
Proof.
  intros Hnone. unfold AuthContext.loadStoredUser, cbind, tryCatch, getItem, ret.
  destruct Hnone as [Hb | Hb]; rewrite (blank_falsy _ Hb).
  - reflexivity.
  - rewrite andb_false_r. reflexivity.
Qed.

(** C2 (amended): when exactly one of the keys ['user'] and ['token'] is
    present, Restore leaves the in-memory session as it was (absent at
    start-up) and leaves persisted storage as it was: the keys are not
    cleared.  When both keys are present and non-empty and the stored
    session parses, Restore ends with exactly the parsed session, storage
    unchanged.  Both keys are removed when both are present and non-empty
    and the stored session does not parse; a key that holds the empty
    string counts as missing.  In each case loading ends off. *)
Theorem restore_outcomes `{Engine} (s : AuthContext.session) (w : world) :
  ((storage w !! "user" = None /\ is_Some (storage w !! "token"))
   \/ (is_Some (storage w !! "user") /\ storage w !! "token" = None) ->
   AuthContext.loadStoredUser s w = (Ok (AuthContext.setLoading false s), w))
  /\ (forall u t v,
        storage w !! "user" = Some u -> storage w !! "token" = Some t ->
        u <> "" -> t <> "" -> JSON_parse u = Some v ->
        AuthContext.loadStoredUser s w
        = (Ok {| AuthContext.user := v; AuthContext.loading := false |}, w))
  /\ (forall u t,
        storage w !! "user" = Some u -> storage w !! "token" = Some t ->
        u <> "" -> t <> "" -> JSON_parse u = None ->
        AuthContext.loadStoredUser s w
        = (Ok (AuthContext.setLoading false s),
           setStorage (delete "token" (delete "user" (storage w))) w))
  /\ (storage w !! "user" = Some "" \/ storage w !! "token" = Some "" ->
      AuthContext.loadStoredUser s w = (Ok (AuthContext.setLoading false s), w)).
Proof.
  split; [| split; [| split]].
  - intros [[Hu _] | [_ Ht]]; apply restore_skipped; unfold blank; auto.
  - intros u t v Hu Ht Hune Htne Hparse.
    unfold AuthContext.loadStoredUser, cbind, tryCatch, getItem, ret, lift.
    rewrite Hu, Ht. cbn [truthy].
    apply String.eqb_neq in Hune, Htne. rewrite Hune, Htne. cbn [negb andb].
    unfold parseJSON. cbn [toString bind]. rewrite Hparse. reflexivity.
  - intros u t Hu Ht Hune Htne Hparse.
    unfold AuthContext.loadStoredUser, cbind, tryCatch, getItem, ret, lift.
    rewrite Hu, Ht. cbn [truthy].
    apply String.eqb_neq in Hune, Htne. rewrite Hune, Htne. cbn [negb andb].
    unfold parseJSON. cbn [toString bind]. rewrite Hparse. reflexivity.
  - intros [Hu | Ht]; apply restore_skipped; unfold blank; auto.
Qed.

(** The theorem at a storage that holds the session and the token. *)
Lemma restore_outcomes_witness :
  @AuthContext.loadStoredUser sampleEngine AuthContext.initial (answering NoReply signedIn)
  = (Ok {| AuthContext.user := sampleUser; AuthContext.loading := false |},
     answering NoReply signedIn).
Proof.
  apply (proj1 (proj2 (@restore_outcomes sampleEngine AuthContext.initial
                         (answering NoReply signedIn)))
           userText "secret" sampleUser);
    [reflexivity | reflexivity | discriminate | discriminate | reflexivity].
Defined.

(** C2, as stated, fails: with the session persisted and no token, Restore
    ends without a session in memory and the ['user'] key is still there. *)
Lemma restore_keeps_lone_key :
  storage (answering NoReply (<["user" := userText]> ∅)) !! "token" = None
  /\ exists s w',
       @AuthContext.loadStoredUser sampleEngine AuthContext.initial
          (answering NoReply (<["user" := userText]> ∅)) = (Ok s, w')
       /\ AuthContext.user s = VNull
       /\ storage w' !! "user" = Some userText.
Proof.
  split; [reflexivity |].
  eexists _, _. split; [reflexivity |]. split; reflexivity.
Qed.

(** A token that is present and empty counts as missing. *)
Example restore_empty_token :
  exists w',
    @AuthContext.loadStoredUser sampleEngine AuthContext.initial
       (answering NoReply (<["user" := userText]> (<["token" := ""]> ∅)))
    = (Ok {| AuthContext.user := VNull; AuthContext.loading := false |}, w')
    /\ storage w' !! "user" = Some userText.
Proof. eexists. split; reflexivity. Qed.

(** A session that does not parse: both keys are removed. *)
Example restore_corrupted :
  exists s w',
    @AuthContext.loadStoredUser sampleEngine AuthContext.initial
       (answering NoReply (<["user" := "{"]> (<["token" := "secret"]> ∅)))
    = (Ok s, w')
    /\ AuthContext.user s = VNull
    /\ storage w' !! "user" = None /\ storage w' !! "token" = None.
Proof. eexists _, _. split; [reflexivity |]. repeat split; reflexivity. Qed.

(** The older auth context does not look at the token: with the session
    persisted and no token it restores the session, and it never removes a
    key. *)
Lemma v1_restore_outcomes `{Engine} (s : AuthContext.session) (w : world) :
  (forall u v,
     storage w !! "user" = Some u -> u <> "" -> JSON_parse u = Some v ->
     AuthContextV1.loadStoredUser s w
     = (Ok {| AuthContext.user := v; AuthContext.loading := false |}, w))
  /\ (forall r w', AuthContextV1.loadStoredUser s w = (r, w') -> w' = w).
Proof.
  split.
  - intros u v Hu Hune Hparse.
    unfold AuthContextV1.loadStoredUser, cbind, tryCatch, getItem, ret, lift.
    rewrite Hu. cbn [truthy]. apply String.eqb_neq in Hune. rewrite Hune. cbn [negb].
    unfold parseJSON. cbn [toString bind]. rewrite Hparse. reflexivity.
  - intros r w'.
    unfold AuthContextV1.loadStoredUser, cbind, tryCatch, getItem, ret, lift.
    destruct (truthy _); [destruct (parseJSON _) |];
      intros E; injection E as <- <-; reflexivity.
Qed.


(** *** The two HTTP clients on a 401 *)

Lemma withToken_world m path query payload w :
  exists r, withToken m path query payload w = (Ok r, w) /\ url r = API_URL +:+ path.
Proof. unfold withToken, cbind, getItem, ret. eexists. split; reflexivity. Qed.

Lemma dispatch_rejected w r status data :
  server w r = Reply status data -> success status = false ->
  dispatch r w = (Throw (AxiosError (Some (status, data))), w).
Proof. unfold dispatch, success. intros -> ->. reflexivity. Qed.

Lemma dispatch_resolved w r status data :
  server w r = Reply status data -> success status = true ->
  dispatch r w = (Ok data, w).
Proof. unfold dispatch, success. intros -> ->. reflexivity. Qed.

(** The client of [bookingApi.ts] on a rejected request: the error goes to
    the caller and the world is as before. *)
Lemma api_request_rejected m path payload w status data :
  (forall r, server w r = Reply status data) -> success status = false ->
  (let* r := withToken m path [] payload in dispatch r) w
  = (Throw (AxiosError (Some (status, data))), w).
Proof.
  intros Hs Hf. rewrite cbind_run.
  destruct (withToken_world m path [] payload w) as (r & -> & _).
  apply dispatch_rejected; auto.
Qed.

Lemma rethrow_world {A} fallback error w :
  exists e, @rethrow A fallback error w = (Throw e, w).
Proof.
  unfold rethrow. rewrite cbind_lift.
  destruct (backendMessage error fallback); unfold throw; eauto.
Qed.

Lemma tryCatch_rejected {A} (m : comp A) fallback w e :
  m w = (Throw e, w) ->
  exists e', tryCatch m (rethrow fallback) w = (Throw e', w).
Proof. unfold tryCatch. intros ->. apply rethrow_world. Qed.

Lemma cbind_rejected {A B} (m : comp A) (k : A -> comp B) w e :
  m w = (Throw e, w) -> cbind m k w = (Throw e, w).
Proof. unfold cbind. intros ->. reflexivity. Qed.

(** C5 on the client of [bookingApi.ts]: when the backend answers 401,
    each of its seven operations fails and leaves the world, the persisted
    token and session with it, as it was. *)
Theorem unauthorized_keeps_session `{Engine} (w : world) (data : jsval) :
  (forall r, server w r = Reply 401 data) ->
  (exists e, BookingApi.getBookings w = (Throw e, w))
  /\ (forall id, exists e, BookingApi.getBookingById id w = (Throw e, w))
  /\ (forall f c d, exists e, BookingApi.getCourtAvailability f c d w = (Throw e, w))
  /\ (forall b, exists e, BookingApi.createBooking b w = (Throw e, w))
  /\ (forall id, exists e, BookingApi.cancelBooking id w = (Throw e, w))
  /\ (forall p, exists e, BookingApi.paymentSuccess p w = (Throw e, w))
  /\ (forall p, exists e, BookingApi.paymentFailure p w = (Throw e, w)).
Proof.
  intros Hs.
  assert (Hget : forall path,
             BookingApi.api_get path w = (Throw (AxiosError (Some (401%Z, data))), w)).
  { intros path. apply api_request_rejected; auto. }
  assert (Hpost : forall path p,
             BookingApi.api_post path p w = (Throw (AxiosError (Some (401%Z, data))), w)).
  { intros path p. apply api_request_rejected; auto. }
  repeat split; intros;
    (eapply tryCatch_rejected; first [apply Hget | apply Hpost
                                     | apply cbind_rejected; first [apply Hget | apply Hpost]]).
Qed.

(** The theorem at a signed-in storage: after the 401 the token and the
    session are still persisted. *)
Lemma unauthorized_keeps_session_witness :
  exists e,
    @BookingApi.getBookings sampleEngine (answering (Reply 401 VNull) signedIn)
    = (Throw e, answering (Reply 401 VNull) signedIn)
    /\ storage (answering (Reply 401 VNull) signedIn) !! "token" = Some "secret"
    /\ storage (answering (Reply 401 VNull) signedIn) !! "user" = Some userText.
Proof.
  destruct (proj1 (@unauthorized_keeps_session sampleEngine
                     (answering (Reply 401 VNull) signedIn) VNull
                     (fun _ => eq_refl))) as [e He].
  exists e. split; [exact He |]. split; reflexivity.
Defined.

(** The older client on a 401: its response interceptor removes the token
    and the session before the error reaches the caller. *)
Lemma v1_api_request_unauthorized m path query payload w data :
  (forall r, server w r = Reply 401 data) ->
  BookingApiV1.api_request m path query payload w
  = (Throw (AxiosError (Some (401%Z, data))),
     setStorage (delete "user" (delete "token" (storage w))) w).
Proof.
  intros Hs. unfold BookingApiV1.api_request. rewrite cbind_run.
  destruct (withToken_world m path query payload w) as (r & -> & _).
  unfold tryCatch. rewrite (dispatch_rejected _ _ 401%Z data (Hs r) eq_refl).
  reflexivity.
Qed.

Lemma tryCatch_rejected_to {A} (m : comp A) fallback w w' e :
  m w = (Throw e, w') ->
  exists e', tryCatch m (rethrow fallback) w = (Throw e', w').
Proof. unfold tryCatch. intros ->. apply rethrow_world. Qed.

Lemma cbind_rejected_to {A B} (m : comp A) (k : A -> comp B) w w' e :
  m w = (Throw e, w') -> cbind m k w = (Throw e, w').
Proof. unfold cbind. intros ->. reflexivity. Qed.

Lemma v1_unauthorized_clears_session `{Engine} (w : world) (data : jsval) :
  (forall r, server w r = Reply 401 data) ->
  let cleared := setStorage (delete "user" (delete "token" (storage w))) w in
  storage cleared !! "token" = None
  /\ storage cleared !! "user" = None
  /\ (exists e, BookingApiV1.getMyBookings w = (Throw e, cleared))
  /\ (forall b, exists e, BookingApiV1.createBooking b w = (Throw e, cleared))
  /\ (forall id, exists e, BookingApiV1.getBookingById id w = (Throw e, cleared))
  /\ (forall f c d, exists e, BookingApiV1.getCourtAvailability f c d w = (Throw e, cleared))
  /\ (forall id, exists e, BookingApiV1.cancelBooking id w = (Throw e, cleared))
  /\ (forall p, exists e, BookingApiV1.paymentSuccess p w = (Throw e, cleared)).
Proof.
  intros Hs cleared.
  split; [| split].
  - unfold cleared, setStorage. simpl.
    rewrite lookup_delete_ne by discriminate. apply lookup_delete_eq.
  - unfold cleared, setStorage. simpl. apply lookup_delete_eq.
  - pose proof (fun m path query payload =>
                  v1_api_request_unauthorized m path query payload w data Hs) as Hreq.
    repeat split; intros;
      (eapply tryCatch_rejected_to;
       first [apply Hreq | apply cbind_rejected_to; apply Hreq]).
Qed.

(** *** An empty list is not an error *)

Lemma api_get_resolved w path status body :
  (forall r, url r = API_URL +:+ path -> server w r = Reply status body) ->
  success status = true ->
  BookingApi.api_get path w = (Ok body, w).
Proof.
  intros Hs Hok. unfold BookingApi.api_get. rewrite cbind_run.
  destruct (withToken_world "GET" path [] VUndefined w) as (r & -> & Hurl).
  apply (dispatch_resolved _ _ status); auto.
Qed.

Lemma v1_api_get_resolved w path status body :
  (forall r, url r = API_URL +:+ path -> server w r = Reply status body) ->
  success status = true ->
  BookingApiV1.api_get path w = (Ok body, w).
Proof.
  intros Hs Hok. unfold BookingApiV1.api_get, BookingApiV1.api_request.
  rewrite cbind_run.
  destruct (withToken_world "GET" path [] VUndefined w) as (r & -> & Hurl).
  unfold tryCatch. rewrite (dispatch_resolved _ _ status body (Hs r Hurl) Hok).
  reflexivity.
Qed.

Lemma emptyOrMissing_cases b :
  emptyOrMissing b = true -> truthy b = false \/ b = VArr [].
Proof.
  unfold emptyOrMissing. intros Hb. apply orb_true_iff in Hb.
  destruct Hb as [Hb | Hb].
  - left. apply negb_true_iff, Hb.
  - right. destruct b as [| | | | |[|x l]|]; try discriminate. reflexivity.
Qed.

(** C6: when the backend answers the list request with a success whose
    body reports no bookings (the body [{bookings: []}], a body whose
    [bookings] are missing or [null], an empty body), [getBookings] returns
    the empty sequence and throws nothing; so does [getMyBookings] of the
    older client on every such body it can read a [bookings] property
    from. *)
Theorem empty_list_is_no_error `{Engine} (w : world) (status : Z) (body : jsval) :
  (forall r, url r = API_URL +:+ "/my-bookings" -> server w r = Reply status body) ->
  success status = true ->
  (noBookings body = true -> BookingApi.getBookings w = (Ok [], w))
  /\ (listsNone body = true -> BookingApiV1.getMyBookings w = (Ok [], w)).
Proof.
  intros Hs Hok. split.
  - intros Hnone. unfold BookingApi.getBookings, tryCatch.
    rewrite cbind_run, (api_get_resolved _ _ _ _ Hs Hok).
    destruct (truthy body) eqn:Hb; [| reflexivity].
    cbn [negb]. unfold noBookings in Hnone. rewrite Hb in Hnone. simpl in Hnone.
    destruct (fieldIs_get _ _ _ Hnone) as (b & Eb & Hbs).
    rewrite cbind_lift, Eb.
    destruct (emptyOrMissing_cases _ Hbs) as [Hf | ->].
    + rewrite (or_falsy _ _ Hf). reflexivity.
    + reflexivity.
  - intros Hnone. unfold BookingApiV1.getMyBookings, tryCatch.
    rewrite cbind_run, (v1_api_get_resolved _ _ _ _ Hs Hok).
    destruct (fieldIs_get _ _ _ Hnone) as (b & Eb & Hbs).
    rewrite cbind_lift, Eb.
    destruct (emptyOrMissing_cases _ Hbs) as [Hf | ->].
    + rewrite Hf. reflexivity.
    + reflexivity.
Qed.

(** The theorem at the body [{bookings: []}]. *)
Lemma empty_list_is_no_error_witness :
  @BookingApi.getBookings sampleEngine (answering (Reply 200 emptyList) signedIn)
  = (Ok [], answering (Reply 200 emptyList) signedIn).
Proof.
  apply (proj1 (@empty_list_is_no_error sampleEngine
                  (answering (Reply 200 emptyList) signedIn) 200%Z emptyList
                  (fun _ _ => eq_refl) eq_refl)).
  reflexivity.
Defined.

Example empty_list_v1 :
  @BookingApiV1.getMyBookings sampleEngine (answering (Reply 200 emptyList) signedIn)
  = (Ok [], answering (Reply 200 emptyList) signedIn).
Proof. reflexivity. Qed.

(** A body that is [null]: [getBookings] returns the empty sequence, the
    older client fails on reading [bookings] from it. *)
Example null_body :
  @BookingApi.getBookings sampleEngine (answering (Reply 200 VNull) signedIn)
  = (Ok [], answering (Reply 200 VNull) signedIn)
  /\ @BookingApiV1.getMyBookings sampleEngine (answering (Reply 200 VNull) signedIn)
     = (Throw (Error "Failed to fetch bookings"), answering (Reply 200 VNull) signedIn).
Proof. split; reflexivity. Qed.

(** A list of bookings is normalised one by one. *)
Example list_of_one :
  exists b,
    fst (@BookingApi.getBookings sampleEngine
           (answering (Reply 200 (VObj [("bookings", VArr [sampleBooking])])) signedIn))
    = Ok [b]
    /\ BookingApi.status b = "confirmed".
Proof. eexists. split; [vm_compute; reflexivity | reflexivity]. Qed.

End Facts.

(** ** Further properties of the code *)

Module Extra.
Import JS Env Shape Shape2 Samples Samples2 Facts.

(** *** What the normalisation can throw *)

Lemma bind_Throw {A B} (m : result A) (k : A -> result B) (e : exn) :
  bind m k = Throw e -> m = Throw e \/ exists a, m = Ok a /\ k a = Throw e.
Proof.
  destruct m as [a|e']; simpl; intros E; [eauto |].
  left. injection E as ->. reflexivity.
Qed.

(** Induction on values, through the elements of arrays. *)
Lemma jsval_array_ind (P : jsval -> Prop) :
  P VUndefined -> P VNull -> (forall b, P (VBool b)) -> (forall n, P (VNum n)) ->
  (forall s, P (VStr s)) -> (forall l, Forall P l -> P (VArr l)) ->
  (forall fs, P (VObj fs)) ->
  forall v, P v.
Proof.
  intros HU HN HB HNum HS HA HO.
  fix IH 1.
  intros [| |b|n|s|l|fs];
    [exact HU | exact HN | apply HB | apply HNum | apply HS | | apply HO].
  apply HA. induction l as [|x l IHl]; constructor; [apply IH | exact IHl].
Qed.

Lemma typed_Ok {A} (a : A) : typed (Ok a).
Proof. intros e E. discriminate. Qed.

Lemma typed_Throw {A} : typed (@Throw A TypeError).
Proof. intros e E. injection E as <-. reflexivity. Qed.

Lemma typed_bind {A B} (m : result A) (k : A -> result B) :
  typed m -> (forall a, m = Ok a -> typed (k a)) -> typed (bind m k).
Proof.
  intros Hm Hk e E. apply bind_Throw in E.
  destruct E as [E | (a & Ea & E)]; [apply Hm, E | apply (Hk a Ea), E].
Qed.

Lemma toString_typed v : typed (toString v).
Proof.
  induction v as [| |b|n|s|l IHl|fs] using jsval_array_ind;
    try apply typed_Ok.
  - simpl. induction IHl as [|x r Hx Hr IH]; [apply typed_Ok |].
    apply typed_bind.
    + destruct x; try apply typed_Ok; exact Hx.
    + intros sx _. destruct r; [apply typed_Ok |].
      apply typed_bind; [exact IH | intros; apply typed_Ok].
  - simpl. destruct (lookup "toString" fs); [apply typed_Throw | apply typed_Ok].
Qed.

Lemma get_typed v k : typed (get v k).
Proof. destruct v; simpl; try apply typed_Ok; apply typed_Throw. Qed.

Lemma join_typed sep l : typed (join sep l).
Proof.
  induction l as [|x r IH]; [apply typed_Ok |].
  cbn [join]. apply typed_bind.
  - destruct x; try apply typed_Ok; apply toString_typed.
  - intros sx _. destruct r; [apply typed_Ok |].
    apply typed_bind; [exact IH | intros; apply typed_Ok].
Qed.

Lemma parseFloat_typed v : typed (parseFloat v).
Proof. apply typed_bind; [apply toString_typed | intros; apply typed_Ok]. Qed.

Lemma gtZero_typed v : typed (gtZero v).
Proof.
  apply typed_bind; [| intros; apply typed_Ok].
  destruct v; try apply typed_Ok;
    (apply typed_bind; [apply toString_typed | intros; apply typed_Ok]).
Qed.

Lemma field_typed booking k fb : typed (BookingApi.field booking k fb).
Proof. apply typed_bind; [apply get_typed | intros; apply typed_Ok]. Qed.

Lemma formatTime_typed t : typed (BookingApi.formatTime t).
Proof.
  unfold BookingApi.formatTime. destruct (negb (truthy t)); [apply typed_Ok |].
  apply typed_bind; [apply toString_typed |].
  intros s _. destruct (isHHMM s); [apply typed_Ok |].
  destruct (isHHMMSS s).
  - destruct t; try apply typed_Throw; apply typed_Ok.
  - destruct (negb (isNaN (parseIntString s))); apply typed_Ok.
Qed.

Lemma slotTimeList_typed k1 k2 l : typed (BookingApi.slotTimeList k1 k2 l).
Proof.
  induction l as [|slot r IH]; [apply typed_Ok |].
  cbn [BookingApi.slotTimeList].
  apply typed_bind; [apply get_typed | intros t1 _].
  apply typed_bind; [apply get_typed | intros t2 _].
  apply typed_bind.
  - destruct (truthy (or t1 t2)); [apply formatTime_typed | apply typed_Ok].
  - intros f _. apply typed_bind; [exact IH | intros; apply typed_Ok].
Qed.

Lemma hasSlots_typed booking : typed (BookingApi.hasSlots booking).
Proof.
  apply typed_bind; [apply get_typed | intros slots _].
  destruct (truthy slots); [| apply typed_Ok].
  apply typed_bind; [apply get_typed | intros len _].
  apply typed_bind; [apply gtZero_typed | intros; apply typed_Ok].
Qed.

Lemma facilityImages_typed `{Engine} booking : typed (BookingApi.facilityImages booking).
Proof.
  apply typed_bind; [apply get_typed | intros f _].
  apply typed_bind; [| intros; apply typed_Ok].
  destruct (truthy f); [| apply typed_Ok].
  apply typed_bind; [apply toString_typed | intros; apply typed_Ok].
Qed.

Lemma bookingStatus_typed booking : typed (BookingApi.bookingStatus booking).
Proof.
  apply typed_bind; [apply field_typed | intros st _].
  destruct st; try apply typed_Throw; apply typed_Ok.
Qed.

Lemma slotTimes_typed booking : typed (BookingApi.slotTimes booking).
Proof.
  apply typed_bind; [apply hasSlots_typed | intros some _].
  destruct (fst some); [| apply typed_Ok].
  apply typed_bind; [apply get_typed | intros slots _].
  destruct slots; try apply typed_Throw.
  apply typed_bind; [apply slotTimeList_typed | intros ? _].
  apply typed_bind; [apply slotTimeList_typed | intros ? _].
  assert (Hj : forall ts, typed (BookingApi.joinTimes ts)).
  { intros ts. unfold BookingApi.joinTimes. destruct ts; [apply typed_Ok | apply join_typed]. }
  apply typed_bind; [apply Hj | intros ? _].
  apply typed_bind; [apply Hj | intros; apply typed_Ok].
Qed.

Lemma typedRun_lift {A} (r : result A) : typed r -> typedRun (lift r).
Proof. intros Hr w e w' E. unfold lift in E. injection E as E _. apply Hr, E. Qed.

Lemma typedRun_ret {A} (a : A) : typedRun (ret a).
Proof. intros w e w' E. discriminate. Qed.

Lemma typedRun_cbind {A B} (m : comp A) (k : A -> comp B) :
  typedRun m -> (forall a, typedRun (k a)) -> typedRun (cbind m k).
Proof.
  intros Hm Hk w e w'. rewrite cbind_run.
  destruct (m w) as [[a|e1] w1] eqn:Em.
  - apply Hk.
  - intros E. injection E as <- <-. apply (Hm _ _ _ Em).
Qed.

Lemma bookingIdentifier_typed booking : typedRun (BookingApi.bookingIdentifier booking).
Proof.
  apply typedRun_cbind; [apply typedRun_lift, get_typed | intros v].
  apply typedRun_cbind.
  - apply typedRun_lift. unfold BookingApi.toStringOpt.
    destruct v; try apply typed_Ok;
      (apply typed_bind; [apply toString_typed | intros; apply typed_Ok]).
  - intros [s|]; [destruct (negb (s =? "")) |]; try apply typedRun_ret;
      (apply typedRun_cbind; [| intros; apply typedRun_ret]);
      intros w e w' E; discriminate.
Qed.

Lemma totalPrice_typed booking : typed (BookingApi.totalPrice booking).
Proof. apply typed_bind; [apply field_typed | intros; apply parseFloat_typed]. Qed.

Lemma slotsCount_typed booking : typed (BookingApi.slotsCount booking).
Proof. apply typed_bind; [apply hasSlots_typed | intros; apply typed_Ok]. Qed.

(** Whatever the normalisation of a record throws is a TypeError. *)
Lemma processBooking_typed `{Engine} booking : typedRun (BookingApi.processBooking booking).
Proof.
  unfold BookingApi.processBooking.
  repeat (apply typedRun_cbind;
          [ first [ apply bookingIdentifier_typed
                  | apply typedRun_lift;
                    first [ apply facilityImages_typed | apply field_typed
                          | apply get_typed | apply totalPrice_typed
                          | apply bookingStatus_typed | apply slotsCount_typed
                          | apply slotTimes_typed
                          | apply typed_bind;
                            [apply field_typed | intros; apply parseFloat_typed] ] ]
          | intros ? ]).
  apply typedRun_ret.
Qed.

Lemma mapM_typed {A B} (f : A -> comp B) l :
  (forall x, typedRun (f x)) -> typedRun (mapM f l).
Proof.
  intros Hf. induction l as [|x r IH]; [apply typedRun_ret |].
  cbn [mapM]. apply typedRun_cbind; [apply Hf | intros y].
  apply typedRun_cbind; [exact IH | intros; apply typedRun_ret].
Qed.

(** One element that always throws makes the whole [map] throw. *)
Lemma mapM_throws {A B} (f : A -> comp B) l x :
  (forall y, typedRun (f y)) ->
  In x l -> (forall w, exists w', f x w = (Throw TypeError, w')) ->
  forall w, exists w', mapM f l w = (Throw TypeError, w').
Proof.
  intros Hf Hin Hx. induction l as [|a r IH]; [destruct Hin |].
  intros w. cbn [mapM]. rewrite cbind_run.
  destruct (f a w) as [[b|e] w1] eqn:Ea.
  - destruct Hin as [-> | Hin].
    + destruct (Hx w) as [w2 E2]. rewrite E2 in Ea. discriminate.
    + rewrite cbind_run. destruct (IH Hin w1) as [w2 ->]. eauto.
  - rewrite (Hf _ _ _ _ Ea). eauto.
Qed.

(** Every element returns: the [map] returns one result per element, in
    order. *)
Lemma mapM_returns {A B} (f : A -> comp B) l :
  Forall (fun x => forall w, exists b w', f x w = (Ok b, w')) l ->
  forall w, exists bs w',
    mapM f l w = (Ok bs, w')
    /\ Forall2 (fun x b => exists w1 w2, f x w1 = (Ok b, w2)) l bs.
Proof.
  induction 1 as [|x r Hx Hr IH]; intros w.
  - exists [], w. split; [reflexivity | constructor].
  - destruct (Hx w) as (b & w1 & Eb). destruct (IH w1) as (bs & w2 & Ebs & F).
    exists (b :: bs), w2. cbn [mapM]. rewrite cbind_run, Eb, cbind_run, Ebs.
    split; [reflexivity |]. constructor; eauto.
Qed.

(** *** Persisted storage is not written *)

Lemma keeps_lift {A} (r : result A) : keepsStorage (lift r).
Proof. intros w r' w' E. unfold lift in E. injection E as _ <-. reflexivity. Qed.

Lemma keeps_ret {A} (a : A) : keepsStorage (ret a).
Proof. intros w r' w' E. unfold ret in E. injection E as _ <-. reflexivity. Qed.

Lemma keeps_throw {A} e : keepsStorage (@throw A e).
Proof. intros w r' w' E. unfold throw in E. injection E as _ <-. reflexivity. Qed.

Lemma keeps_cbind {A B} (m : comp A) (k : A -> comp B) :
  keepsStorage m -> (forall a, keepsStorage (k a)) -> keepsStorage (cbind m k).
Proof.
  intros Hm Hk w r w'. rewrite cbind_run.
  destruct (m w) as [[a|e] w1] eqn:Em; pose proof (Hm _ _ _ Em) as E1.
  - intros E. rewrite (Hk _ _ _ _ E). exact E1.
  - intros E. injection E as _ <-. exact E1.
Qed.

Lemma keeps_tryCatch {A} (m : comp A) (h : exn -> comp A) :
  keepsStorage m -> (forall e, keepsStorage (h e)) -> keepsStorage (tryCatch m h).
Proof.
  intros Hm Hh w r w'. unfold tryCatch.
  destruct (m w) as [[a|e] w1] eqn:Em; pose proof (Hm _ _ _ Em) as E1.
  - intros E. injection E as _ <-. exact E1.
  - intros E. rewrite (Hh _ _ _ _ E). exact E1.
Qed.

Lemma keeps_rethrow {A} fallback e : keepsStorage (@rethrow A fallback e).
Proof.
  intros w r w' E. destruct (@rethrow_world A fallback e w) as [e' E'].
  rewrite E' in E. injection E as _ <-. reflexivity.
Qed.

Lemma keeps_mapM {A B} (f : A -> comp B) l :
  (forall x, keepsStorage (f x)) -> keepsStorage (mapM f l).
Proof.
  intros Hf. induction l as [|x r IH]; [apply keeps_ret |].
  cbn [mapM]. apply keeps_cbind; [apply Hf | intros y].
  apply keeps_cbind; [exact IH | intros; apply keeps_ret].
Qed.

Lemma keeps_processBooking `{Engine} booking :
  keepsStorage (BookingApi.processBooking booking).
Proof. intros w r w' E. apply (processBooking_world _ _ _ _ E). Qed.

Lemma keeps_withToken m path query payload : keepsStorage (withToken m path query payload).
Proof.
  intros w r w' E. destruct (withToken_world m path query payload w) as (q & Eq & _).
  rewrite Eq in E. injection E as _ <-. reflexivity.
Qed.

Lemma keeps_dispatch r : keepsStorage (dispatch r).
Proof.
  intros w res w'. unfold dispatch.
  destruct (server w r) as [status data|];
    [destruct ((200 <=? status)%Z && (status <? 300)%Z) |];
    intros E; injection E as _ <-; reflexivity.
Qed.

Lemma keeps_api_get path : keepsStorage (BookingApi.api_get path).
Proof. apply keeps_cbind; [apply keeps_withToken | intros; apply keeps_dispatch]. Qed.

Lemma keeps_api_post path payload : keepsStorage (BookingApi.api_post path payload).
Proof. apply keeps_cbind; [apply keeps_withToken | intros; apply keeps_dispatch]. Qed.

(** X1: none of the seven operations of the booking client writes
    persisted storage, whatever the backend answers. *)
Theorem booking_client_keeps_storage `{Engine} :
  keepsStorage BookingApi.getBookings
  /\ (forall id, keepsStorage (BookingApi.getBookingById id))
  /\ (forall f c d, keepsStorage (BookingApi.getCourtAvailability f c d))
  /\ (forall b, keepsStorage (BookingApi.createBooking b))
  /\ (forall id, keepsStorage (BookingApi.cancelBooking id))
  /\ (forall p, keepsStorage (BookingApi.paymentSuccess p))
  /\ (forall p, keepsStorage (BookingApi.paymentFailure p)).
Proof.
  repeat split; intros;
    (apply keeps_tryCatch; [| intros; apply keeps_rethrow]);
    try apply keeps_api_get; try apply keeps_api_post.
  - apply keeps_cbind; [apply keeps_api_get | intros data].
    destruct (negb (truthy data)); [apply keeps_ret |].
    apply keeps_cbind; [apply keeps_lift | intros bookings].
    destruct (or bookings (VArr [])); try apply keeps_throw.
    apply keeps_mapM. intros x. apply keeps_processBooking.
  - apply keeps_cbind; [apply keeps_api_get | intros data].
    apply keeps_cbind; [apply keeps_lift | intros nested]. cbv zeta.
    destruct (negb (truthy (or nested data))); [apply keeps_throw | apply keeps_lift].
  - apply keeps_cbind; [apply keeps_api_post | intros data].
    apply keeps_cbind; [apply keeps_lift | intros order].
    apply keeps_cbind; [apply keeps_lift | intros message]. apply keeps_ret.
Qed.


(** *** The list of bookings *)

Lemma getBookings_list `{Engine} w status body l :
  (forall r, url r = API_URL +:+ "/my-bookings" -> server w r = Reply status body) ->
  success status = true ->
  truthy body = true -> get body "bookings" = Ok (VArr l) ->
  BookingApi.getBookings w
  = tryCatch (mapM BookingApi.processBooking l) (rethrow "Failed to fetch bookings") w.
Proof.
  intros Hs Hok Hb Hl. unfold BookingApi.getBookings, tryCatch.
  rewrite cbind_run, (api_get_resolved _ _ _ _ Hs Hok), Hb. cbn [negb].
  rewrite cbind_lift, Hl. reflexivity.
Qed.

(** X2: when the backend lists raw bookings that all have the wire shape,
    [getBookings] returns one canonical booking per record, in the order of
    the list, each with the status and the amount computed from its record;
    persisted storage is as before. *)
Theorem getBookings_one_per_record `{Engine} (w : world) (status : Z) (body : jsval)
    (l : list jsval) :
  (forall r, url r = API_URL +:+ "/my-bookings" -> server w r = Reply status body) ->
  success status = true ->
  truthy body = true -> get body "bookings" = Ok (VArr l) ->
  forallb wireShaped l = true ->
  exists bs w',
    BookingApi.getBookings w = (Ok bs, w')
    /\ List.length bs = List.length l
    /\ Forall2 (fun raw b =>
                  BookingApi.bookingStatus raw = Ok (BookingApi.status b)
                  /\ BookingApi.totalPrice raw = Ok (BookingApi.totalAmount b)) l bs
    /\ storage w' = storage w.
Proof.
  intros Hs Hok Hb Hl Hw.
  rewrite (getBookings_list _ _ _ _ Hs Hok Hb Hl). unfold tryCatch.
  assert (Hall : Forall (fun x => forall w0, exists b w1,
                           BookingApi.processBooking x w0 = (Ok b, w1)) l).
  { apply List.Forall_forall. intros x Hx w0. apply processBooking_total.
    rewrite forallb_forall in Hw. apply Hw, Hx. }
  destruct (mapM_returns _ _ Hall w) as (bs & w' & E & F).
  exists bs, w'. rewrite E. split; [reflexivity |].
  split; [symmetry; eapply List.Forall2_length; exact F |]. split.
  - clear - F. induction F as [|x b r bs' (w1 & w2 & Eb) F IH]; constructor.
    + apply processBooking_parts in Eb. destruct Eb as (_ & Hp & Hst & _). auto.
    + exact IH.
  - apply (keeps_mapM _ l (fun x => keeps_processBooking x) _ _ _ E).
Qed.

(** The theorem at a list of one sample booking. *)
Lemma getBookings_one_per_record_witness :
  exists bs w',
    @BookingApi.getBookings sampleEngine
       (answering (Reply 200 (VObj [("bookings", VArr [sampleBooking])])) signedIn)
    = (Ok bs, w')
    /\ List.length bs = 1%nat.
Proof.
  destruct (@getBookings_one_per_record sampleEngine
              (answering (Reply 200 (VObj [("bookings", VArr [sampleBooking])])) signedIn)
              200%Z (VObj [("bookings", VArr [sampleBooking])]) [sampleBooking]
              (fun _ _ => eq_refl) eq_refl eq_refl eq_refl eq_refl)
    as (bs & w' & E & Hlen & _).
  exists bs, w'. split; [exact E | exact Hlen].
Defined.

Lemma badStatus_throws booking : badStatus booking = true ->
  BookingApi.bookingStatus booking = Throw TypeError.
Proof.
  intros Hb. destruct (fieldIs_get _ _ _ Hb) as (st & Est & Hst).
  apply andb_true_iff in Hst. destruct Hst as [Hy Hn].
  unfold BookingApi.bookingStatus. rewrite (field_get _ _ _ _ Est), (or_truthy _ _ Hy).
  destruct st; try reflexivity. discriminate.
Qed.

Lemma processBooking_badStatus `{Engine} booking :
  badStatus booking = true ->
  forall w, exists w', BookingApi.processBooking booking w = (Throw TypeError, w').
Proof.
  intros Hb w.
  destruct (BookingApi.processBooking booking w) as [[b|e] w'] eqn:E.
  - apply processBooking_parts in E. destruct E as (_ & _ & Hst & _).
    rewrite (badStatus_throws _ Hb) in Hst. discriminate.
  - rewrite (processBooking_typed _ _ _ _ E). eauto.
Qed.

(** X3: one record whose status is neither a string nor falsy (a number,
    say) makes the whole listing fail: [getBookings] throws
    [Error('Failed to fetch bookings')] and returns none of the other
    bookings. *)
Theorem getBookings_all_or_nothing `{Engine} (w : world) (status : Z) (body : jsval)
    (l : list jsval) (x : jsval) :
  (forall r, url r = API_URL +:+ "/my-bookings" -> server w r = Reply status body) ->
  success status = true ->
  truthy body = true -> get body "bookings" = Ok (VArr l) ->
  In x l -> badStatus x = true ->
  exists w',
    BookingApi.getBookings w = (Throw (Error "Failed to fetch bookings"), w')
    /\ storage w' = storage w.
Proof.
  intros Hs Hok Hb Hl Hin Hx.
  rewrite (getBookings_list _ _ _ _ Hs Hok Hb Hl). unfold tryCatch.
  destruct (mapM_throws BookingApi.processBooking l x
              (fun y => processBooking_typed y) Hin (processBooking_badStatus x Hx) w)
    as [w' E].
  rewrite E. exists w'. split; [reflexivity |].
  apply (keeps_mapM _ l (fun y => keeps_processBooking y) _ _ _ E).
Qed.

(** The theorem at the sample booking followed by a record whose status
    is the number 1. *)
Lemma getBookings_all_or_nothing_witness :
  exists w',
    @BookingApi.getBookings sampleEngine
       (answering (Reply 200 (VObj [("bookings",
           VArr [sampleBooking; VObj [("status", VNum (Dec false 1 0))]])])) signedIn)
    = (Throw (Error "Failed to fetch bookings"), w').
Proof.
  destruct (@getBookings_all_or_nothing sampleEngine
              (answering (Reply 200 (VObj [("bookings",
                 VArr [sampleBooking; VObj [("status", VNum (Dec false 1 0))]])])) signedIn)
              200%Z _ [sampleBooking; VObj [("status", VNum (Dec false 1 0))]]
              (VObj [("status", VNum (Dec false 1 0))])
              (fun _ _ => eq_refl) eq_refl eq_refl eq_refl
              (or_intror (or_introl eq_refl)) eq_refl)
    as (w' & E & _).
  exists w'. exact E.
Defined.


(** *** Error messages *)

Lemma api_request_unreachable m path payload w :
  unreachable w ->
  (let* r := withToken m path [] payload in dispatch r) w = (Throw (AxiosError None), w).
Proof.
  intros Hs. rewrite cbind_run.
  destruct (withToken_world m path [] payload w) as (r & -> & _).
  unfold dispatch. rewrite (Hs r). reflexivity.
Qed.

Lemma rethrow_message {A} fallback status data msg w :
  suppliesMessage data msg ->
  @rethrow A fallback (AxiosError (Some (status, data))) w = (Throw (Error msg), w).
Proof.
  intros [Hm Hne]. unfold rethrow, backendMessage. rewrite cbind_lift, Hm.
  unfold or. cbn [truthy]. apply String.eqb_neq in Hne. rewrite Hne. reflexivity.
Qed.

Lemma rethrow_fallback {A} fallback error w :
  match error with
  | AxiosError (Some (_, data)) => noMessage data
  | _ => True
  end ->
  @rethrow A fallback error w = (Throw (Error fallback), w).
Proof.
  intros Hn. unfold rethrow, backendMessage. rewrite cbind_lift.
  destruct error as [| |[[status data]|]|m]; try reflexivity.
  unfold noMessage in Hn. rewrite (or_falsy _ _ Hn). reflexivity.
Qed.

Ltac run_rejected Hreq :=
  unfold BookingApi.getBookings, BookingApi.getBookingById,
    BookingApi.getCourtAvailability, BookingApi.createBooking,
    BookingApi.cancelBooking, BookingApi.paymentSuccess, BookingApi.paymentFailure,
    BookingApi.api_get, BookingApi.api_post, tryCatch;
  first [rewrite Hreq | rewrite cbind_run; rewrite Hreq].

(** X4: when the backend rejects a request with a body that carries a
    non-empty [message] string, each of the seven operations of the booking
    client throws an [Error] whose message is that string, verbatim. *)
Theorem backend_message_verbatim `{Engine} (w : world) (status : Z) (data : jsval)
    (msg : string) :
  failsWith w status data -> suppliesMessage data msg ->
  BookingApi.getBookings w = (Throw (Error msg), w)
  /\ (forall id, BookingApi.getBookingById id w = (Throw (Error msg), w))
  /\ (forall f c d, BookingApi.getCourtAvailability f c d w = (Throw (Error msg), w))
  /\ (forall b, BookingApi.createBooking b w = (Throw (Error msg), w))
  /\ (forall id, BookingApi.cancelBooking id w = (Throw (Error msg), w))
  /\ (forall p, BookingApi.paymentSuccess p w = (Throw (Error msg), w))
  /\ (forall p, BookingApi.paymentFailure p w = (Throw (Error msg), w)).
Proof.
  intros [Hs Hf] Hm.
  pose proof (fun m path payload => api_request_rejected m path payload w status data Hs Hf)
    as Hreq.
  repeat split; intros; run_rejected Hreq; apply rethrow_message, Hm.
Qed.

(** The theorem at a 422 with the message ["Slot already booked"]. *)
Lemma backend_message_verbatim_witness :
  BookingApi.createBooking VNull
     (answering (Reply 422 (VObj [("message", VStr "Slot already booked")])) signedIn)
  = (Throw (Error "Slot already booked"),
     answering (Reply 422 (VObj [("message", VStr "Slot already booked")])) signedIn).
Proof.
  assert (H1 : failsWith
                 (answering (Reply 422 (VObj [("message", VStr "Slot already booked")]))
                    signedIn)
                 422%Z (VObj [("message", VStr "Slot already booked")]))
    by (split; [intros r; reflexivity | reflexivity]).
  assert (H2 : suppliesMessage (VObj [("message", VStr "Slot already booked")])
                 "Slot already booked")
    by (split; [reflexivity | discriminate]).
  destruct (@backend_message_verbatim sampleEngine _ _ _ _ H1 H2)
    as (_ & _ & _ & Hc & _).
  apply Hc.
Defined.

(** X5: when no reply arrives, or the rejection carries no message, each
    operation throws an [Error] with its own fixed message. *)
Theorem fallback_messages `{Engine} (w : world) :
  unreachable w \/ (exists status data, failsWith w status data /\ noMessage data) ->
  BookingApi.getBookings w = (Throw (Error "Failed to fetch bookings"), w)
  /\ (forall id,
        BookingApi.getBookingById id w = (Throw (Error "Failed to fetch booking"), w))
  /\ (forall f c d,
        BookingApi.getCourtAvailability f c d w
        = (Throw (Error "Failed to fetch availability"), w))
  /\ (forall b,
        BookingApi.createBooking b w = (Throw (Error "Failed to create booking"), w))
  /\ (forall id,
        BookingApi.cancelBooking id w = (Throw (Error "Failed to cancel booking"), w))
  /\ (forall p,
        BookingApi.paymentSuccess p w
        = (Throw (Error "Failed to update payment status"), w))
  /\ (forall p,
        BookingApi.paymentFailure p w
        = (Throw (Error "Failed to update payment status"), w)).
Proof.
  intros [Hu | (status & data & [Hs Hf] & Hn)].
  - pose proof (fun m path payload => api_request_unreachable m path payload w Hu) as Hreq.
    repeat split; intros; run_rejected Hreq; apply rethrow_fallback; exact I.
  - pose proof (fun m path payload =>
                  api_request_rejected m path payload w status data Hs Hf) as Hreq.
    repeat split; intros; run_rejected Hreq; apply rethrow_fallback; exact Hn.
Qed.

(** The theorem at a backend that answers nothing. *)
Lemma fallback_messages_witness :
  BookingApi.cancelBooking "7" (answering NoReply signedIn)
  = (Throw (Error "Failed to cancel booking"), answering NoReply signedIn).
Proof.
  assert (H1 : unreachable (answering NoReply signedIn)) by (intros r; reflexivity).
  destruct (@fallback_messages sampleEngine _ (or_introl H1))
    as (_ & _ & _ & _ & Hc & _).
  apply Hc.
Defined.

(** X6: on a success whose body is falsy and not [null] (an empty body,
    which arrives as the empty string; [0]; [false]) the [try] block of
    [getBookingById] throws [Error('Booking not found')], and the [catch] of
    the same function replaces it: the caller gets
    [Error('Failed to fetch booking')].  On a body that is [null] the read
    of [booking] throws a TypeError before that, with the same result for
    the caller. *)
Theorem not_found_is_masked `{Engine} (w : world) (status : Z) (body : jsval) (id : string) :
  (forall r, url r = API_URL +:+ ("/booking/" +:+ id) -> server w r = Reply status body) ->
  success status = true ->
  truthy body = false ->
  BookingApi.getBookingById id
    = tryCatch (BookingLookup.lookupBooking id) (rethrow "Failed to fetch booking")
  /\ (nullish body = false ->
      BookingLookup.lookupBooking id w = (Throw (Error "Booking not found"), w))
  /\ (nullish body = true ->
      BookingLookup.lookupBooking id w = (Throw TypeError, w))
  /\ BookingApi.getBookingById id w = (Throw (Error "Failed to fetch booking"), w).
Proof.
  intros Hs Hok Hb.
  assert (Hrun : BookingLookup.lookupBooking id w
                 = ((if nullish body then Throw TypeError
                     else Throw (Error "Booking not found")), w)).
  { unfold BookingLookup.lookupBooking.
    rewrite cbind_run, (api_get_resolved _ _ _ _ Hs Hok), cbind_lift.
    destruct (get body "booking") as [nested|e] eqn:Eg.
    - assert (nested = VUndefined) as ->.
      { destruct body as [| |b|n|s|l|fs]; simpl in *; try discriminate; congruence. }
      cbv zeta. rewrite (or_falsy VUndefined body eq_refl), Hb.
      destruct body; simpl in Eg; try discriminate; reflexivity.
    - destruct body; simpl in Eg; try discriminate; injection Eg as <-; reflexivity. }
  split; [reflexivity |]. split; [| split].
  - intros Hn. rewrite Hrun, Hn. reflexivity.
  - intros Hn. rewrite Hrun, Hn. reflexivity.
  - change (BookingApi.getBookingById id)
      with (tryCatch (BookingLookup.lookupBooking id) (rethrow "Failed to fetch booking")).
    unfold tryCatch. rewrite Hrun. destruct (nullish body); reflexivity.
Qed.

(** The theorem at an empty body. *)
Lemma not_found_is_masked_witness :
  BookingLookup.lookupBooking "7" (answering (Reply 200 (VStr "")) signedIn)
  = (Throw (Error "Booking not found"), answering (Reply 200 (VStr "")) signedIn)
  /\ BookingApi.getBookingById "7" (answering (Reply 200 (VStr "")) signedIn)
     = (Throw (Error "Failed to fetch booking"),
        answering (Reply 200 (VStr "")) signedIn).
Proof.
  assert (Hs : forall r, url r = API_URL +:+ ("/booking/" +:+ "7") ->
                         server (answering (Reply 200 (VStr "")) signedIn) r
                         = Reply 200 (VStr ""))
    by (intros r _; reflexivity).
  destruct (@not_found_is_masked sampleEngine _ _ _ "7" Hs eq_refl eq_refl)
    as (_ & Hin & _ & Hout).
  split; [apply Hin; reflexivity | exact Hout].
Defined.


(** *** The fields of a canonical booking *)

Lemma processBooking_venue `{Engine} booking w b w' :
  BookingApi.processBooking booking w = (Ok b, w') ->
  BookingApi.field booking "facility" "Unknown Venue"
    = Ok (BookingApi.name (BookingApi.venue b))
  /\ BookingApi.field booking "court" "Court"
     = Ok (BookingApi.type (BookingApi.venue b))
  /\ BookingApi.field booking "address" "Location not available"
     = Ok (BookingApi.location (BookingApi.venue b))
  /\ BookingApi.field booking "facility_slug" "venue-1"
     = Ok (BookingApi.slug (BookingApi.venue b))
  /\ BookingApi.venue_id (BookingApi.venue b) = BookingApi.slug (BookingApi.venue b)
  /\ (let! v := BookingApi.field booking "lat" "28.6139" in parseFloat v)
     = Ok (BookingApi.latitude (BookingApi.venue b))
  /\ (let! v := BookingApi.field booking "lng" "77.2090" in parseFloat v)
     = Ok (BookingApi.longitude (BookingApi.venue b))
  /\ get booking "date" = Ok (BookingApi.date b)
  /\ (exists times, BookingApi.slotTimes booking = Ok times
                    /\ BookingApi.startTime b = VStr (fst times)
                    /\ BookingApi.endTime b = VStr (snd times)).
Proof.
  unfold BookingApi.processBooking. intros E. invert_run.
  simpl. repeat split; eauto. congruence.
Qed.

(** X7: the venue of a canonical booking takes the facility name, the
    court, the address and the slug of the raw booking when they are
    truthy, and ['Unknown Venue'], ['Court'], ['Location not available'] and
    ['venue-1'] when they are missing or falsy; its id is always its
    slug. *)
Theorem venue_defaults `{Engine} (booking facility court address facility_slug : jsval)
    (w w' : world) (b : BookingApi.Booking) :
  get booking "facility" = Ok facility -> get booking "court" = Ok court ->
  get booking "address" = Ok address -> get booking "facility_slug" = Ok facility_slug ->
  BookingApi.processBooking booking w = (Ok b, w') ->
  BookingApi.name (BookingApi.venue b)
    = (if truthy facility then facility else VStr "Unknown Venue")
  /\ BookingApi.type (BookingApi.venue b)
     = (if truthy court then court else VStr "Court")
  /\ BookingApi.location (BookingApi.venue b)
     = (if truthy address then address else VStr "Location not available")
  /\ BookingApi.slug (BookingApi.venue b)
     = (if truthy facility_slug then facility_slug else VStr "venue-1")
  /\ BookingApi.venue_id (BookingApi.venue b) = BookingApi.slug (BookingApi.venue b).
Proof.
  intros Hf Hc Ha Hs Hrun. apply processBooking_venue in Hrun.
  destruct Hrun as (En & Et & El & Es & Eid & _).
  rewrite (field_get _ _ _ _ Hf) in En. rewrite (field_get _ _ _ _ Hc) in Et.
  rewrite (field_get _ _ _ _ Ha) in El. rewrite (field_get _ _ _ _ Hs) in Es.
  rewrite Eid.
  injection En as <-. injection Et as <-. injection El as <-. injection Es as <-.
  repeat split.
Qed.

(** The theorem at the sample booking, which names its facility and
    nothing else. *)
Lemma venue_defaults_witness :
  exists b w',
    @BookingApi.processBooking sampleEngine sampleBooking (answering NoReply ∅) = (Ok b, w')
    /\ BookingApi.name (BookingApi.venue b) = VStr "Arena"
    /\ BookingApi.slug (BookingApi.venue b) = VStr "venue-1".
Proof.
  destruct (@processBooking_total sampleEngine sampleBooking (answering NoReply ∅) eq_refl)
    as (b & w' & E).
  exists b, w'. split; [exact E |].
  destruct (@venue_defaults sampleEngine sampleBooking (VStr "Arena") VUndefined VUndefined
              VUndefined _ _ _ eq_refl eq_refl eq_refl eq_refl E)
    as (Hn & _ & _ & Hs & _).
  split; [exact Hn | exact Hs].
Defined.

(** X8: the coordinates of a canonical booking are [parseFloat] of the raw
    [lat] and [lng]; missing or empty ones give the default 28.6139 and
    77.2090, and a non-empty string no number starts with gives NaN, not
    the default. *)
Theorem coordinates_parsed `{Engine} (booking lat lng : jsval)
    (w w' : world) (b : BookingApi.Booking) :
  get booking "lat" = Ok lat -> get booking "lng" = Ok lng ->
  textOrMissing lat = true -> textOrMissing lng = true ->
  BookingApi.processBooking booking w = (Ok b, w') ->
  BookingApi.latitude (BookingApi.venue b)
    = match lat with
      | VStr s => if s =? "" then Dec false 286139 4 else parseFloatString s
      | _ => Dec false 286139 4
      end
  /\ BookingApi.longitude (BookingApi.venue b)
     = match lng with
       | VStr s => if s =? "" then Dec false 77209 3 else parseFloatString s
       | _ => Dec false 77209 3
       end
  /\ (forall s, lat = VStr s -> nonNumericLead s = true ->
        BookingApi.latitude (BookingApi.venue b) = NaN)
  /\ (forall s, lng = VStr s -> nonNumericLead s = true ->
        BookingApi.longitude (BookingApi.venue b) = NaN).
Proof.
  intros Hlat Hlng Tlat Tlng Hrun. apply processBooking_venue in Hrun.
  destruct Hrun as (_ & _ & _ & _ & _ & Ela & Elo & _).
  rewrite (field_get _ _ _ _ Hlat) in Ela. rewrite (field_get _ _ _ _ Hlng) in Elo.
  assert (Hgen : forall v fb d,
             textOrMissing v = true -> parseFloatString fb = d ->
             forall x, (let! a := Ok (or v (VStr fb)) in parseFloat a) = Ok x ->
             x = match v with
                 | VStr s => if s =? "" then d else parseFloatString s
                 | _ => d
                 end).
  { intros v fb d Tv Hd x. unfold textOrMissing in Tv.
    destruct v as [| |bb|n|s|l|fs]; simpl in *; try discriminate;
      try (intros E; injection E as <-; exact Hd).
    - destruct bb; simpl in *; [discriminate |]. intros E; injection E as <-; exact Hd.
    - destruct n as [|neg|neg m k]; simpl in *; try discriminate;
        try (intros E; injection E as <-; exact Hd).
      unfold or. simpl. destruct (m =? 0)%N; simpl in *; [| discriminate].
      intros E; injection E as <-; exact Hd.
    - unfold or. simpl. destruct (s =? ""); simpl; intros E; injection E as <-;
        [exact Hd | reflexivity]. }
  pose proof (Hgen lat "28.6139" (Dec false 286139 4) Tlat eq_refl _ Ela) as Hla.
  pose proof (Hgen lng "77.2090" (Dec false 77209 3) Tlng eq_refl _ Elo) as Hlo.
  split; [exact Hla |]. split; [exact Hlo |]. split.
  - intros s -> Hs. rewrite Hla. destruct s as [|c r]; [discriminate |].
    apply parseFloatString_nonNumeric, Hs.
  - intros s -> Hs. rewrite Hlo. destruct s as [|c r]; [discriminate |].
    apply parseFloatString_nonNumeric, Hs.
Qed.

(** The theorem at a raw booking whose latitude is ["north"]. *)
Lemma coordinates_parsed_witness :
  exists b w',
    @BookingApi.processBooking sampleEngine (VObj [("lat", VStr "north")])
       (answering NoReply ∅) = (Ok b, w')
    /\ BookingApi.latitude (BookingApi.venue b) = NaN
    /\ BookingApi.longitude (BookingApi.venue b) = Dec false 77209 3.
Proof.
  destruct (@processBooking_total sampleEngine (VObj [("lat", VStr "north")])
              (answering NoReply ∅) eq_refl) as (b & w' & E).
  exists b, w'. split; [exact E |].
  destruct (@coordinates_parsed sampleEngine (VObj [("lat", VStr "north")])
              (VStr "north") VUndefined _ _ _ eq_refl eq_refl eq_refl eq_refl E)
    as (_ & Hlo & Hna & _).
  split; [apply (Hna "north" eq_refl eq_refl) | exact Hlo].
Defined.

(** X9: the slot count of a canonical booking is the number of elements
    of the raw [slots] array, and zero when there are no slots. *)
Theorem slot_count_is_length `{Engine} (booking slots : jsval)
    (w w' : world) (b : BookingApi.Booking) :
  get booking "slots" = Ok slots ->
  BookingApi.processBooking booking w = (Ok b, w') ->
  (forall l, slots = VArr l ->
     BookingApi.slots b = VNum (Dec false (N.of_nat (List.length l)) 0))
  /\ (truthy slots = false -> BookingApi.slots b = VNum zero).
Proof.
  intros Hs Hrun. apply processBooking_parts in Hrun.
  destruct Hrun as (_ & _ & _ & Ec & _).
  unfold BookingApi.slotsCount, BookingApi.hasSlots in Ec. rewrite Hs in Ec.
  cbn [bind] in Ec. split.
  - intros l ->. cbn [truthy get bind] in Ec. rewrite String.eqb_refl in Ec.
    unfold gtZero, toNumber in Ec. cbn [bind fst snd] in Ec.
    injection Ec as <-. destruct l; reflexivity.
  - intros Hf. rewrite Hf in Ec. cbn [bind fst] in Ec. injection Ec as <-. reflexivity.
Qed.

(** The theorem at the sample booking and its two slots. *)
Lemma slot_count_is_length_witness :
  exists b w',
    @BookingApi.processBooking sampleEngine sampleBooking (answering NoReply ∅) = (Ok b, w')
    /\ BookingApi.slots b = VNum (Dec false 2 0).
Proof.
  destruct (@processBooking_total sampleEngine sampleBooking (answering NoReply ∅) eq_refl)
    as (b & w' & E).
  exists b, w'. split; [exact E |].
  destruct (@slot_count_is_length sampleEngine sampleBooking _ _ _ _ eq_refl E) as [Hl _].
  apply (Hl _ eq_refl).
Defined.


(** *** Decoded images *)

Lemma replaceBackslashes_clean s : hasBackslash (replaceBackslashes s) = false.
Proof.
  induction s as [|c s IH]; [reflexivity |].
  cbn [replaceBackslashes mapString hasBackslash].
  change (mapString _ s) with (replaceBackslashes s). rewrite IH, orb_false_r.
  destruct (code c =? 92)%nat eqn:Ec; [reflexivity | exact Ec].
Qed.

Lemma replaceBackslashes_length s :
  String.length (replaceBackslashes s) = String.length s.
Proof. induction s as [|c s IH]; [reflexivity | simpl; f_equal; exact IH]. Qed.

Lemma replaceBackslashes_id s :
  hasBackslash s = false -> replaceBackslashes s = s.
Proof.
  induction s as [|c s IH]; [reflexivity |].
  cbn [hasBackslash]. intros Hs. apply orb_false_iff in Hs. destruct Hs as [Hc Hs].
  cbn [replaceBackslashes mapString]. rewrite Hc.
  change (mapString _ s) with (replaceBackslashes s). rewrite (IH Hs). reflexivity.
Qed.

Lemma replaceBackslashes_slashed p : replaceBackslashes p = slashed p.
Proof.
  unfold replaceBackslashes. induction p as [|c p IH]; [reflexivity |].
  cbn [mapString slashed]. rewrite IH. f_equal.
  destruct c as [[] [] [] [] [] [] [] []]; reflexivity.
Qed.

(** X10: when the raw [images] text decodes to a list of paths, the image
    list of the booking is the featured image, if there is one, followed
    by one URL per decoded path in the order of the list: the asset host
    and then the path with every backslash replaced by a slash, so that no
    backslash is left in it. *)
Theorem decoded_images_in_order `{Engine} (booking : jsval) (text : string)
    (paths : list string) (facility_image : jsval) :
  get booking "images" = Ok (VStr text) -> text <> "" ->
  JSON_parse text = Some (VArr (map VStr paths)) -> paths <> [] ->
  get booking "facility_image" = Ok facility_image ->
  (truthy facility_image = false ->
   BookingApi.facilityImages booking
   = Ok (map (fun p => "https://admin.bookvenue.app/" +:+ slashed p) paths))
  /\ (forall f, facility_image = VStr f -> f <> "" ->
        BookingApi.facilityImages booking
        = Ok (("https://admin.bookvenue.app/" +:+ f)
              :: map (fun p => "https://admin.bookvenue.app/" +:+ slashed p) paths))
  /\ Forall (fun p => hasBackslash (slashed p) = false) paths.
Proof.
  intros Hi Hne Hparse Hp Hf.
  assert (Hparsed : BookingApi.parsedFacilityImages booking
                    = map (fun p => BookingApi.ASSET_HOST +:+ replaceBackslashes p) paths).
  { unfold BookingApi.parsedFacilityImages. rewrite Hi. cbn [bind truthy].
    apply String.eqb_neq in Hne. rewrite Hne. cbn [negb].
    unfold parseJSON. cbn [toString bind]. rewrite Hparse. cbn [bind].
    rewrite hostImages_each. reflexivity. }
  assert (Hmap : map (fun p => BookingApi.ASSET_HOST +:+ replaceBackslashes p) paths
                 = map (fun p => "https://admin.bookvenue.app/" +:+ slashed p) paths).
  { apply map_ext. intros p. rewrite replaceBackslashes_slashed. reflexivity. }
  rewrite Hmap in Hparsed.
  split; [| split].
  - intros Hfalsy. unfold BookingApi.facilityImages. rewrite Hparsed, Hf. cbn [bind].
    rewrite Hfalsy. cbn [bind]. destruct paths; [congruence | reflexivity].
  - intros f -> Hfne. unfold BookingApi.facilityImages. rewrite Hparsed, Hf.
    cbn [bind truthy]. apply String.eqb_neq in Hfne. rewrite Hfne. reflexivity.
  - apply List.Forall_forall. intros p _.
    rewrite <- replaceBackslashes_slashed. apply replaceBackslashes_clean.
Qed.

(** The theorem at a booking with a featured image and two decoded paths,
    the first with a backslash. *)
Lemma decoded_images_in_order_witness :
  @BookingApi.facilityImages galleryEngine
     (VObj [("facility_image", VStr "cover.jpg"); ("images", VStr galleryText)])
  = Ok ["https://admin.bookvenue.app/cover.jpg";
        "https://admin.bookvenue.app/uploads/a.jpg";
        "https://admin.bookvenue.app/b.jpg"].
Proof.
  assert (Hne : galleryText <> "") by discriminate.
  assert (Hp : ["uploads\a.jpg"; "b.jpg"] <> @nil string) by discriminate.
  destruct (@decoded_images_in_order galleryEngine
              (VObj [("facility_image", VStr "cover.jpg"); ("images", VStr galleryText)])
              galleryText ["uploads\a.jpg"; "b.jpg"] (VStr "cover.jpg")
              eq_refl Hne eq_refl Hp eq_refl) as (_ & Hf & _).
  apply (Hf "cover.jpg"); [reflexivity | discriminate].
Defined.

(** *** The range of the formatter *)

Lemma substring_HHMMSS s : isHHMMSS s = true -> isHHMM (String.substring 0 5 s) = true.
Proof.
  destruct s as [|a [|b [|p [|c [|d [|q [|e [|f [|g s]]]]]]]]]; try discriminate.
  cbn [isHHMMSS isHHMM String.substring].
  destruct (isDigit a), (isDigit b), (isColon p), (isDigit c), (isDigit d);
    try discriminate; reflexivity.
Qed.

Lemma bare_hour_formatted c :
  isDigit c = true ->
  exists t, BookingApi.formatTime (VStr (String c "")) = Ok (VStr t) /\ isHHMM t = true.
Proof. each_char c; intros _; eexists; split; reflexivity. Qed.

Lemma two_digit_hour_formatted c d :
  isDigit c = true -> isDigit d = true ->
  exists t, BookingApi.formatTime (VStr (String c (String d ""))) = Ok (VStr t)
            /\ isHHMM t = true.
Proof.
  each_char c; intros _; each_char d; intros _; eexists; split; reflexivity.
Qed.

(** X11: on a string that is [HH:MM], [HH:MM:SS] or an hour of one or two
    digits, the formatter of the booking client returns a well-formed
    [HH:MM] string, and formatting that string again changes nothing. *)
Theorem formatTime_range (s : string) :
  isHHMM s = true \/ isHHMMSS s = true
  \/ (allDigits s = true /\ (String.length s = 1 \/ String.length s = 2)%nat) ->
  exists t,
    BookingApi.formatTime (VStr s) = Ok (VStr t)
    /\ isHHMM t = true
    /\ BookingApi.formatTime (VStr t) = Ok (VStr t).
Proof.
  intros Hs.
  assert (Hr : exists t, BookingApi.formatTime (VStr s) = Ok (VStr t) /\ isHHMM t = true).
  { destruct Hs as [Hs | [Hs | [Hd Hlen]]].
    - exists s. split; [apply api_formatTime_HHMM, Hs | exact Hs].
    - exists (String.substring 0 5 s).
      split; [apply api_formatTime_HHMMSS, Hs | apply substring_HHMMSS, Hs].
    - destruct s as [|c [|d [|e s]]]; simpl in Hlen; try lia.
      + simpl in Hd. rewrite andb_true_r in Hd. apply bare_hour_formatted, Hd.
      + simpl in Hd. rewrite andb_true_r in Hd. apply andb_true_iff in Hd.
        apply two_digit_hour_formatted; apply Hd. }
  destruct Hr as (t & Et & Ht). exists t.
  split; [exact Et |]. split; [exact Ht | apply api_formatTime_HHMM, Ht].
Qed.

(** The theorem at the string ["7"]. *)
Lemma formatTime_range_witness :
  exists t, BookingApi.formatTime (VStr "7") = Ok (VStr t) /\ isHHMM t = true.
Proof.
  destruct (formatTime_range "7" (or_intror (or_intror (conj eq_refl (or_introl eq_refl)))))
    as (t & Et & Ht & _).
  exists t. split; [exact Et | exact Ht].
Defined.


(** *** The older booking client *)

Lemma endsIn_rethrow {A} fallback e w : endsIn w (@rethrow A fallback e).
Proof.
  intros r w' E. destruct (@rethrow_world A fallback e w) as [e' E'].
  rewrite E' in E. injection E as _ <-. reflexivity.
Qed.

Lemma endsIn_tryCatch {A} (m : comp A) fallback w :
  endsIn w m -> endsIn w (tryCatch m (rethrow fallback)).
Proof.
  intros Hm r w'. unfold tryCatch. destruct (m w) as [[a|e] w1] eqn:Em;
    rewrite (Hm _ _ Em).
  - intros E. injection E as _ <-. reflexivity.
  - apply endsIn_rethrow.
Qed.

Lemma v1_api_request_endsIn m path query payload w :
  neverUnauthorized w -> endsIn w (BookingApiV1.api_request m path query payload).
Proof.
  intros Hn r w'. unfold BookingApiV1.api_request. rewrite cbind_run.
  destruct (withToken_world m path query payload w) as (q & -> & _).
  unfold tryCatch, dispatch.
  destruct (server w q) as [status data|] eqn:Es.
  - destruct ((200 <=? status)%Z && (status <? 300)%Z).
    + intros E. injection E as _ <-. reflexivity.
    + unfold BookingApiV1.onRejected, BookingApiV1.isUnauthorized.
      apply (Hn q) in Es. apply Z.eqb_neq in Es. rewrite Es.
      intros E. injection E as _ <-. reflexivity.
  - intros E. injection E as _ <-. reflexivity.
Qed.

(** X12: the older client removes the persisted token and session on a 401
    only: against a backend that never answers 401 (it answers 403, 500,
    a success, or nothing at all), each of its six operations leaves the
    world as it was. *)
Theorem v1_clears_on_401_only `{Engine} (w : world) :
  neverUnauthorized w ->
  endsIn w BookingApiV1.getMyBookings
  /\ (forall b, endsIn w (BookingApiV1.createBooking b))
  /\ (forall id, endsIn w (BookingApiV1.getBookingById id))
  /\ (forall f c d, endsIn w (BookingApiV1.getCourtAvailability f c d))
  /\ (forall id, endsIn w (BookingApiV1.cancelBooking id))
  /\ (forall p, endsIn w (BookingApiV1.paymentSuccess p)).
Proof.
  intros Hn.
  pose proof (fun m path query payload =>
                v1_api_request_endsIn m path query payload w Hn) as Hreq.
  repeat split; intros; apply endsIn_tryCatch; try apply Hreq.
  intros r w'. rewrite cbind_run.
  destruct (BookingApiV1.api_get "/my-bookings" w) as [[data|e] w1] eqn:Eg;
    rewrite (Hreq _ _ _ _ _ _ Eg).
  - rewrite cbind_lift. destruct (get data "bookings") as [bookings|e].
    + destruct (negb (truthy bookings));
        [| destruct bookings]; intros E; injection E as _ <-; reflexivity.
    + intros E; injection E as _ <-; reflexivity.
  - intros E; injection E as _ <-; reflexivity.
Qed.

(** The theorem at a backend that answers 500 to a signed-in client. *)
Lemma v1_clears_on_401_only_witness :
  snd (BookingApiV1.cancelBooking "7" (answering (Reply 500 VNull) signedIn))
  = answering (Reply 500 VNull) signedIn.
Proof.
  assert (Hn : neverUnauthorized (answering (Reply 500 VNull) signedIn)).
  { intros r status data E. injection E as <- _. discriminate. }
  destruct (@v1_clears_on_401_only sampleEngine _ Hn) as (_ & _ & _ & _ & Hc & _).
  exact (Hc "7" _ _ (surjective_pairing _)).
Defined.

Lemma lookup_setField_eq k v fs : lookup k (BookingApiV1.setField k v fs) = Some v.
Proof.
  induction fs as [|[k' v'] fs IH]; cbn [BookingApiV1.setField lookup].
  - rewrite String.eqb_refl. reflexivity.
  - destruct (k' =? k) eqn:Ek; cbn [lookup].
    + rewrite String.eqb_refl. reflexivity.
    + rewrite Ek. exact IH.
Qed.

Lemma lookup_setField_ne k k0 v fs :
  k0 <> k -> lookup k0 (BookingApiV1.setField k v fs) = lookup k0 fs.
Proof.
  intros Hne. induction fs as [|[k' v'] fs IH]; cbn [BookingApiV1.setField lookup].
  - apply String.eqb_neq in Hne. rewrite String.eqb_sym, Hne. reflexivity.
  - destruct (k' =? k) eqn:Ek; cbn [lookup].
    + apply String.eqb_eq in Ek. subst k'.
      apply String.eqb_neq in Hne. rewrite String.eqb_sym, Hne. reflexivity.
    + destruct (k' =? k0); [reflexivity | exact IH].
Qed.

Lemma resolved_absolute path : startsWith "http" (resolved path) = true.
Proof.
  unfold resolved. destruct (startsWith "http" path) eqn:E; [exact E | reflexivity].
Qed.

(** X13: for a raw record whose [images] are a list of paths, or a text
    that decodes to one, the record [getMyBookings] returns has every other
    property of the raw record unchanged, and under [images] one URL per
    path, in order: the path itself when it starts with [http], the asset
    host followed by the path otherwise; so every URL starts with
    [http]. *)
Theorem v1_record_keeps_fields `{Engine} (fields : list (string * jsval))
    (paths : list string) :
  lookup "images" fields = Some (VArr (map VStr paths))
  \/ (exists text, lookup "images" fields = Some (VStr text) /\ text <> ""
                   /\ JSON_parse text = Some (VArr (map VStr paths))) ->
  exists out,
    BookingApiV1.processBooking (VObj fields) = Ok (VObj out)
    /\ lookup "images" out = Some (VArr (map (fun p => VStr (resolved p)) paths))
    /\ (forall k, k <> "images" -> lookup k out = lookup k fields)
    /\ Forall (fun p => startsWith "http" (resolved p) = true) paths.
Proof.
  intros Himg.
  assert (Hp : BookingApiV1.parsedImages (VObj fields) = VArr (map VStr paths)).
  { unfold BookingApiV1.parsedImages. cbn [get bind].
    destruct Himg as [-> | (text & -> & Hne & Hparse)]; [reflexivity |].
    cbn [truthy]. apply String.eqb_neq in Hne. rewrite Hne. cbn [negb].
    unfold parseJSON. cbn [toString bind]. rewrite Hparse. reflexivity. }
  exists (BookingApiV1.setField "images"
            (VArr (map (fun p => VStr (resolved p)) paths)) fields).
  split; [| split; [| split]].
  - unfold BookingApiV1.processBooking. rewrite Hp, v1_resolveImages_each. reflexivity.
  - apply lookup_setField_eq.
  - intros k Hk. apply lookup_setField_ne, Hk.
  - apply List.Forall_forall. intros p _. apply resolved_absolute.
Qed.

(** The theorem at a record with an identifier and two image paths. *)
Lemma v1_record_keeps_fields_witness :
  exists out,
    @BookingApiV1.processBooking sampleEngine
       (VObj [("bookingId", VNum (Dec false 7 0));
              ("images", VArr [VStr "a.jpg"; VStr "http://cdn/b.jpg"])])
    = Ok (VObj out)
    /\ lookup "images" out
       = Some (VArr [VStr "https://admin.bookvenue.app/a.jpg"; VStr "http://cdn/b.jpg"])
    /\ lookup "bookingId" out = Some (VNum (Dec false 7 0)).
Proof.
  destruct (@v1_record_keeps_fields sampleEngine
              [("bookingId", VNum (Dec false 7 0));
               ("images", VArr [VStr "a.jpg"; VStr "http://cdn/b.jpg"])]
              ["a.jpg"; "http://cdn/b.jpg"] (or_introl eq_refl))
    as (out & E & Hi & Hk & _).
  exists out. split; [exact E |]. split; [exact Hi |].
  rewrite (Hk "bookingId") by discriminate. reflexivity.
Defined.


(** *** The session store *)

Import AuthContext SessionStore.

Lemma setStorage_lookup s w k : storage (setStorage s w) !! k = s !! k.
Proof. reflexivity. Qed.

Lemma restore_parsed `{Engine} (s : session) (w : world) u t v :
  storage w !! "user" = Some u -> storage w !! "token" = Some t ->
  u <> "" -> t <> "" -> JSON_parse u = Some v ->
  loadStoredUser s w = (Ok {| user := v; loading := false |}, w).
Proof.
  intros Hu Ht Hune Htne Hparse.
  unfold loadStoredUser, cbind, tryCatch, getItem, ret, lift.
  rewrite Hu, Ht. cbn [truthy].
  apply String.eqb_neq in Hune, Htne. rewrite Hune, Htne. cbn [negb andb].
  unfold parseJSON. cbn [toString bind]. rewrite Hparse. reflexivity.
Qed.

(** X14: [logout] removes the persisted session and token, whatever was
    there, clears the user in memory and touches no other key; running it
    again changes neither the state nor the storage; and a restart after it
    ends signed out. *)
Theorem logout_clears_and_is_idempotent `{Engine} (p : provider) (w : world) :
  exists p1 w1,
    @logout asyncStorage p w = (Ok tt, p1, w1)
    /\ user (current p1) = VNull
    /\ storage w1 !! "user" = None /\ storage w1 !! "token" = None
    /\ (forall k, k <> "user" -> k <> "token" -> storage w1 !! k = storage w !! k)
    /\ (exists p2 w2,
          @logout asyncStorage p1 w1 = (Ok tt, p2, w2)
          /\ current p2 = current p1 /\ storage w2 = storage w1)
    /\ restart w1 = (Ok {| user := VNull; loading := false |}, w1).
Proof.
  eexists _, _. split; [reflexivity |]. cbn [storage setStorage].
  split; [reflexivity |]. split; [| split; [| split; [| split]]].
  - rewrite lookup_delete_ne by discriminate. apply lookup_delete_eq.
  - apply lookup_delete_eq.
  - intros k Hu Ht. rewrite !lookup_delete_ne by congruence. reflexivity.
  - eexists _, _. split; [reflexivity |]. split; [reflexivity |].
    cbn [storage setStorage].
    rewrite (delete_id (delete "token" (delete "user" (storage w))) "user")
      by (rewrite lookup_delete_ne by discriminate; apply lookup_delete_eq).
    apply delete_id, lookup_delete_eq.
  - unfold restart. apply (restore_skipped initial). left. left.
    cbn [storage setStorage].
    rewrite lookup_delete_ne by discriminate. apply lookup_delete_eq.
Qed.

(** X15: [login] persists the session text under ['user'] and writes
    nothing else: the token is as it was.  The user is in memory at once,
    loading stays on until the timer runs.  On a device that holds no
    token, a restart after [login] does not restore the session. *)
Theorem login_persists_session_only `{Services} `{Engine}
    (userData : jsval) (p : provider) (w : world) :
  exists p1 w1,
    @login _ asyncStorage userData p w = (Ok tt, p1, w1)
    /\ user (current p1) = userData
    /\ loading (current p1) = true /\ loading (current (fire p1)) = false
    /\ user (current (fire p1)) = userData
    /\ storage w1 !! "user" = Some (JSON_stringify userData)
    /\ (forall k, k <> "user" -> storage w1 !! k = storage w !! k)
    /\ (blank (storage w !! "token") ->
        restart w1 = (Ok {| user := VNull; loading := false |}, w1)).
Proof.
  eexists _, _. split; [reflexivity |]. cbn [storage setStorage].
  repeat split.
  - apply lookup_insert_eq.
  - intros k Hk. apply lookup_insert_ne. congruence.
  - intros Hb. unfold restart. apply (restore_skipped initial). right.
    cbn [storage setStorage]. rewrite lookup_insert_ne by discriminate. exact Hb.
Qed.

(** The theorem on a device that holds nothing. *)
Lemma login_persists_session_only_witness :
  exists p1 w1,
    @login sampleServices asyncStorage sampleUser signedOut (answering NoReply ∅)
    = (Ok tt, p1, w1)
    /\ storage w1 !! "user" = Some (stringify sampleUser)
    /\ @restart sampleEngine w1 = (Ok {| user := VNull; loading := false |}, w1).
Proof.
  destruct (@login_persists_session_only sampleServices sampleEngine sampleUser
              signedOut (answering NoReply ∅))
    as (p1 & w1 & E & _ & _ & _ & _ & Hu & _ & Hr).
  exists p1, w1. split; [exact E |]. split; [exact Hu |].
  apply Hr. left. reflexivity.
Defined.

(** X16: a session that [login] persisted is restored by a restart when a
    non-empty token is persisted and [JSON.parse] gives back what
    [JSON.stringify] was given. *)
Theorem login_then_restart `{Services} `{Engine}
    (userData : jsval) (p : provider) (w : world) (t : string) :
  storage w !! "token" = Some t -> t <> "" ->
  JSON_stringify userData <> "" ->
  JSON_parse (JSON_stringify userData) = Some userData ->
  exists p1 w1,
    @login _ asyncStorage userData p w = (Ok tt, p1, w1)
    /\ restart w1 = (Ok {| user := userData; loading := false |}, w1).
Proof.
  intros Ht Hne Hs Hparse. eexists _, _. split; [reflexivity |].
  unfold restart. apply (restore_parsed initial _ (JSON_stringify userData) t).
  - cbn [storage setStorage]. apply lookup_insert_eq.
  - cbn [storage setStorage]. rewrite lookup_insert_ne by discriminate. exact Ht.
  - exact Hs.
  - exact Hne.
  - exact Hparse.
Qed.

(** The theorem at the sample user, on a device that holds a token. *)
Lemma login_then_restart_witness :
  exists p1 w1,
    @login sampleServices asyncStorage sampleUser signedOut
       (answering NoReply (<["token" := "secret"]> ∅)) = (Ok tt, p1, w1)
    /\ @restart sampleEngine w1 = (Ok {| user := sampleUser; loading := false |}, w1).
Proof.
  apply (@login_then_restart sampleServices sampleEngine sampleUser signedOut
           (answering NoReply (<["token" := "secret"]> ∅)) "secret");
    [reflexivity | discriminate | discriminate | reflexivity].
Defined.

(** X17: an operation of the session store that rejects leaves the user in
    memory as it was, whatever the storage and the backend do: a failed
    [login], [logout], [updateUserProfile], [refreshUser] or [updateUser]
    signs nobody in and nobody out. *)
Theorem rejected_operation_keeps_user `{Services} `{Disk}
    (p p' : provider) (w w' : world) (e : exn) :
  (forall userData, login userData p w = (Throw e, p', w') ->
     user (current p') = user (current p))
  /\ (logout p w = (Throw e, p', w') -> user (current p') = user (current p))
  /\ (logoutV1 p w = (Throw e, p', w') -> user (current p') = user (current p))
  /\ (forall formData, updateUserProfile formData p w = (Throw e, p', w') ->
        user (current p') = user (current p))
  /\ (refreshUser p w = (Throw e, p', w') -> user (current p') = user (current p))
  /\ (forall userData, updateUser userData p w = (Throw e, p', w') ->
        user (current p') = user (current p)).
Proof.
  assert (Hlogout : forall q v, logout q v = (Throw e, p', w') ->
                                user (current p') = user (current q)).
  { intros q v. unfold logout.
    destruct (eraseItem "user" v) as [[[]|e1] v1];
      [destruct (eraseItem "token" v1) as [[[]|e2] v2] |];
      intros E; try discriminate; injection E as _ <- _; reflexivity. }
  repeat split.
  - intros userData. unfold login.
    destruct (writeItem "user" _ w) as [[[]|e1] w1];
      intros E; try discriminate; injection E as _ <- _; reflexivity.
  - apply Hlogout.
  - unfold logoutV1.
    destruct (eraseItem "user" w) as [[[]|e1] w1];
      intros E; try discriminate; injection E as _ <- _; reflexivity.
  - intros formData. unfold updateUserProfile.
    destruct (updateProfile formData w) as [[u|e1] w1];
      [destruct (writeItem "user" _ w1) as [[[]|e2] w2] |];
      intros E; try discriminate; injection E as _ <- _; reflexivity.
  - unfold refreshUser.
    destruct (readItem "token" w) as [[token|e1] w1]; [| apply Hlogout].
    destruct (negb (truthy token)); [intros E; discriminate |].
    destruct (getProfile w1) as [[u|e2] w2]; [| apply Hlogout].
    destruct (writeItem "user" _ w2) as [[[]|e3] w3]; [intros E; discriminate |].
    apply Hlogout.
  - intros userData. unfold updateUser.
    destruct (negb (truthy (user (current p)))); [intros E; discriminate |].
    destruct (writeItem "user" _ w) as [[[]|e1] w1];
      intros E; try discriminate; injection E as _ <- _; reflexivity.
Qed.

(** The theorem at a login on a storage that rejects writes. *)
Lemma rejected_operation_keeps_user_witness :
  exists p' w',
    @login sampleServices readOnlyDisk sampleUser signedOut (answering NoReply ∅)
    = (Throw (Error "disk full"), p', w')
    /\ user (current p') = VNull.
Proof.
  eexists _, _. split; [reflexivity |].
  eapply (proj1 (@rejected_operation_keeps_user sampleServices readOnlyDisk signedOut _
                   (answering NoReply ∅) _ (Error "disk full")) sampleUser).
  reflexivity.
Defined.

(** X18: [refreshUser] on the storage of the device.  Without a token
    (missing or empty) it does nothing and does not call the backend.  With
    a token, a profile that arrives replaces the user in memory and the
    persisted session, the token being left as it is; a profile call that
    is rejected logs the user out: the user is cleared, both keys are
    removed, and [refreshUser] itself resolves. *)
Theorem refresh_outcomes `{Services} (p : provider) (w : world) :
  (blank (storage w !! "token") -> @refreshUser _ asyncStorage p w = (Ok tt, p, w))
  /\ (forall t, storage w !! "token" = Some t -> t <> "" ->
        (forall userData w1,
           getProfile w = (Ok userData, w1) ->
           exists p2 w2,
             @refreshUser _ asyncStorage p w = (Ok tt, p2, w2)
             /\ user (current p2) = userData
             /\ storage w2 !! "user" = Some (JSON_stringify userData)
             /\ storage w2 !! "token" = storage w1 !! "token")
        /\ (forall e w1,
              getProfile w = (Throw e, w1) ->
              exists p2 w2,
                @refreshUser _ asyncStorage p w = (Ok tt, p2, w2)
                /\ user (current p2) = VNull
                /\ storage w2 !! "user" = None /\ storage w2 !! "token" = None)).
Proof.
  split.
  - intros Hb. unfold refreshUser. cbn [readItem asyncStorage]. unfold getItem.
    rewrite (blank_falsy _ Hb). reflexivity.
  - intros t Ht Hne. apply String.eqb_neq in Hne.
    assert (Hy : forall k : unit, @refreshUser _ asyncStorage p w
                 = match getProfile w with
                   | (Ok userData, w2) =>
                       match setItem "user" (JSON_stringify userData) w2 with
                       | (Ok _, w3) => (Ok tt, withUser userData p, w3)
                       | (Throw _, w3) => @logout asyncStorage p w3
                       end
                   | (Throw _, w2) => @logout asyncStorage p w2
                   end).
    { intros _. unfold refreshUser. cbn [readItem writeItem asyncStorage].
      unfold getItem. rewrite Ht. cbn [truthy]. rewrite Hne. reflexivity. }
    split.
    + intros userData w1 Eg. rewrite (Hy tt), Eg.
      eexists _, _. split; [reflexivity |]. cbn [storage setStorage].
      split; [reflexivity |]. split; [apply lookup_insert_eq |].
      apply lookup_insert_ne. discriminate.
    + intros e w1 Eg. rewrite (Hy tt), Eg.
      eexists _, _. split; [reflexivity |]. cbn [storage setStorage].
      split; [reflexivity |]. split; [| apply lookup_delete_eq].
      rewrite lookup_delete_ne by discriminate. apply lookup_delete_eq.
Qed.

(** The theorem at a signed-in device whose profile call is rejected. *)
Lemma refresh_outcomes_witness :
  exists p2 w2,
    @refreshUser expiredServices asyncStorage signedInProvider (answering NoReply signedIn)
    = (Ok tt, p2, w2)
    /\ user (current p2) = VNull
    /\ storage w2 !! "user" = None /\ storage w2 !! "token" = None.
Proof.
  apply (proj2 (proj2 (@refresh_outcomes expiredServices signedInProvider
                         (answering NoReply signedIn))
                  "secret" eq_refl ltac:(discriminate))
           (AxiosError (Some (401%Z, VNull))) (answering NoReply signedIn) eq_refl).
Defined.

Lemma lookup_mergeFields_absent a b k :
  lookup k b = None -> lookup k (mergeFields a b) = lookup k a.
Proof.
  unfold mergeFields. revert a. induction b as [|[k' v'] b IH]; intros a Hb; [reflexivity |].
  cbn [lookup] in Hb. destruct (k' =? k) eqn:Ek; [discriminate |].
  cbn [fold_left fst snd]. rewrite (IH _ Hb).
  apply lookup_setField_ne. apply String.eqb_neq. rewrite String.eqb_sym. exact Ek.
Qed.

Lemma lookup_mergeFields_present a b k v :
  NoDup (map fst b) -> lookup k b = Some v -> lookup k (mergeFields a b) = Some v.
Proof.
  unfold mergeFields. revert a. induction b as [|[k' v'] b IH]; intros a Hnd Hb;
    [discriminate |].
  cbn [lookup] in Hb. cbn [map fst] in Hnd. inversion Hnd as [|? ? Hnotin Hnd']; subst.
  cbn [fold_left fst snd]. destruct (k' =? k) eqn:Ek.
  - injection Hb as ->. apply String.eqb_eq in Ek. subst k'.
    assert (Habs : lookup k b = None).
    { clear - Hnotin. induction b as [|[k1 v1] b IH]; [reflexivity |].
      cbn [lookup]. destruct (k1 =? k) eqn:E1.
      - apply String.eqb_eq in E1. subst. exfalso. apply Hnotin. left.
      - apply IH. intros Hin. apply Hnotin. right. exact Hin. }
    change (fold_left _ b (BookingApiV1.setField k v a))
      with (mergeFields (BookingApiV1.setField k v a) b).
    rewrite (lookup_mergeFields_absent _ _ _ Habs). apply lookup_setField_eq.
  - apply (IH _ Hnd' Hb).
Qed.

(** X19: [updateUser] of the older context does nothing when nobody is
    signed in.  When a user is signed in and the storage accepts the write,
    the user in memory becomes the merge of the old user and the partial
    data, and that merge is what is persisted: a property the data names
    takes the value of the data, every other property keeps its value. *)
Theorem updateUser_merges `{Services} (p : provider) (w : world)
    (old data : list (string * jsval)) :
  (user (current p) = VNull ->
   forall userData, @updateUser _ asyncStorage userData p w = (Ok tt, p, w))
  /\ (user (current p) = VObj old ->
      exists merged w1,
        @updateUser _ asyncStorage (VObj data) p w
        = (Ok tt, withUser (VObj merged) p, w1)
        /\ storage w1 !! "user" = Some (JSON_stringify (VObj merged))
        /\ (forall k, k <> "user" -> storage w1 !! k = storage w !! k)
        /\ (forall k, lookup k data = None -> lookup k merged = lookup k old)
        /\ (NoDup (map fst data) ->
            forall k v, lookup k data = Some v -> lookup k merged = Some v)).
Proof.
  split.
  - intros Hu userData. unfold updateUser. rewrite Hu. reflexivity.
  - intros Hu. exists (mergeFields old data). eexists.
    split; [unfold updateUser; rewrite Hu; reflexivity |].
    cbn [storage setStorage]. split; [apply lookup_insert_eq |].
    split; [intros k Hk; apply lookup_insert_ne; congruence |].
    split.
    + intros k. apply lookup_mergeFields_absent.
    + intros Hnd k v. apply lookup_mergeFields_present, Hnd.
Qed.

(** The theorem at the sample user, whose email is set. *)
Lemma updateUser_merges_witness :
  exists merged w1,
    @updateUser sampleServices asyncStorage (VObj [("email", VStr "a@b.c")])
       signedInProvider (answering NoReply signedIn)
    = (Ok tt, withUser (VObj merged) signedInProvider, w1)
    /\ lookup "id" merged = Some (VStr "7")
    /\ lookup "email" merged = Some (VStr "a@b.c").
Proof.
  destruct (proj2 (@updateUser_merges sampleServices signedInProvider
                     (answering NoReply signedIn) [("id", VStr "7")]
                     [("email", VStr "a@b.c")]) eq_refl)
    as (merged & w1 & E & _ & _ & Hold & Hnew).
  exists merged, w1. split; [exact E |]. split.
  - rewrite (Hold "id" eq_refl). reflexivity.
  - apply Hnew; [| reflexivity].
    constructor; [intros Hin; inversion Hin | constructor].
Defined.


(** *** The booking card *)

Import BookingCard.

Lemma lowerChar_idem c : lowerChar (lowerChar c) = lowerChar c.
Proof. each_char c. Qed.

Lemma toLowerCase_idem s : toLowerCase (toLowerCase s) = toLowerCase s.
Proof.
  unfold toLowerCase. induction s as [|c s IH]; cbn [mapString]; [reflexivity |].
  rewrite lowerChar_idem, IH. reflexivity.
Qed.

(** X20: the colour of a status depends on its lower-cased form only: a
    status and its lower-cased form are shown in the same colour; and the
    colour is the grey of the default exactly when the lower-cased status
    is none of [confirmed], [pending], [cancelled]. *)
Theorem status_colour_by_lowercase (status : string) :
  getStatusColor (toLowerCase status) = getStatusColor status
  /\ (In (toLowerCase status) ["confirmed"; "pending"; "cancelled"]
      <-> getStatusColor status <> "#6B7280").
Proof.
  split.
  - unfold getStatusColor. cbv zeta. rewrite toLowerCase_idem. reflexivity.
  - unfold getStatusColor. cbv zeta.
    destruct (toLowerCase status =? "confirmed") eqn:E1.
    { apply String.eqb_eq in E1. split; [discriminate | intros _; left; auto]. }
    destruct (toLowerCase status =? "pending") eqn:E2.
    { apply String.eqb_eq in E2. split; [discriminate | intros _; right; left; auto]. }
    destruct (toLowerCase status =? "cancelled") eqn:E3.
    { apply String.eqb_eq in E3.
      split; [discriminate | intros _; right; right; left; auto]. }
    apply String.eqb_neq in E1, E2, E3. split.
    + intros [E | [E | [E | []]]]; congruence.
    + intros Hc. exfalso. apply Hc. reflexivity.
Qed.

(** X21: the image of a card.  For a record whose [facility_image] is a
    string the address starts with [http]: the string itself when it does,
    the asset host followed by it otherwise.  A record whose
    [facility_image] is not a string has no [startsWith]: rendering the
    card throws a TypeError. *)
Theorem card_image_uri (booking : jsval) :
  (forall f, getOpt booking "facility_image" = VStr f ->
     venueImageUri booking = Ok (resolved f)
     /\ startsWith "http" (resolved f) = true
     /\ (startsWith "http" f = true -> resolved f = f))
  /\ (isString (getOpt booking "facility_image") = false ->
      venueImageUri booking = Throw TypeError).
Proof.
  split.
  - intros f Hf. split; [| split].
    + unfold venueImageUri, getOpt in *.
      destruct (get booking "facility_image") as [x | e]; [| discriminate].
      subst x. reflexivity.
    + apply resolved_absolute.
    + intros E. unfold resolved. rewrite E. reflexivity.
  - intros Hs. unfold venueImageUri, getOpt in *.
    destruct (get booking "facility_image") as [x | e] eqn:Eg.
    + cbn [bind]. destruct x; try reflexivity. discriminate.
    + cbn [bind]. rewrite (get_typed booking "facility_image" e Eg). reflexivity.
Qed.

(** The theorem at a relative path, and at a record without a featured
    image. *)
Lemma card_image_uri_witness :
  venueImageUri (VObj [("facility_image", VStr "uploads/a.jpg")])
  = Ok "https://admin.bookvenue.app/uploads/a.jpg"
  /\ venueImageUri (VObj [("facility", VStr "Arena")]) = Throw TypeError.
Proof.
  split.
  - destruct (card_image_uri (VObj [("facility_image", VStr "uploads/a.jpg")]))
      as (Hs & _).
    destruct (Hs "uploads/a.jpg" eq_refl) as (E & _). exact E.
  - destruct (card_image_uri (VObj [("facility", VStr "Arena")])) as (_ & Ho).
    apply Ho. reflexivity.
Defined.

(** *** The client over [fetch] *)


Lemma v2_fetch_reply (w : world) (m path : string) (payload : jsval)
    (status : Z) (data : jsval) :
  (forall r, server w r = Reply status data) ->
  BookingApiV2.fetch m path payload w = (Ok (status, data), w).
Proof. intros Hs. unfold BookingApiV2.fetch. rewrite Hs. reflexivity. Qed.

Lemma v2_fetch_unreachable (w : world) (m path : string) (payload : jsval) :
  unreachable w -> BookingApiV2.fetch m path payload w = (Throw TypeError, w).
Proof. intros Hs. unfold BookingApiV2.fetch. rewrite Hs. reflexivity. Qed.

(** X22: on a reply outside 200 to 299 each function of the client over
    [fetch] throws [HTTP error! status: ] followed by the status, whatever
    the body says, so a message of the backend is never shown; persisted
    storage is not touched. *)
Theorem v2_http_error `{Engine} `{Services} (w : world) (status : Z) (data : jsval)
    (bookingData : jsval) (bookingId : string) :
  failsWith w status data ->
  let e := Error ("HTTP error! status: "
                  +:+ Number_toString (BookingApiV2.statusNumber status)) in
  BookingApiV2.createBooking bookingData w = (Throw e, w)
  /\ BookingApiV2.getMyBookings w = (Throw e, w)
  /\ BookingApiV2.getBookingById bookingId w = (Throw e, w).
Proof.
  intros [Hs Hf] e. unfold success in Hf.
  unfold BookingApiV2.createBooking, BookingApiV2.getMyBookings,
    BookingApiV2.getBookingById.
  repeat split; rewrite cbind_run, (v2_fetch_reply _ _ _ _ _ _ Hs);
    try rewrite cbind_run; unfold BookingApiV2.json; rewrite Hf; reflexivity.
Qed.

(** The theorem at a 404 whose body carries a message. *)
Lemma v2_http_error_witness :
  @BookingApiV2.getBookingById sampleEngine "7"
     (answering (Reply 404 (VObj [("message", VStr "No such booking")])) signedIn)
  = (Throw (Error "HTTP error! status: 404"),
     answering (Reply 404 (VObj [("message", VStr "No such booking")])) signedIn).
Proof.
  assert (Hf : failsWith
                 (answering (Reply 404 (VObj [("message", VStr "No such booking")])) signedIn)
                 404 (VObj [("message", VStr "No such booking")])).
  { split; [intros r; reflexivity | reflexivity]. }
  destruct (@v2_http_error sampleEngine sampleServices _ _ _ VNull "7" Hf)
    as (_ & _ & E).
  exact E.
Defined.

(** X23: when no reply arrives, each function of the client over [fetch]
    throws the TypeError of [fetch] itself. *)
Theorem v2_unreachable `{Engine} `{Services} (w : world)
    (bookingData : jsval) (bookingId : string) :
  unreachable w ->
  BookingApiV2.createBooking bookingData w = (Throw TypeError, w)
  /\ BookingApiV2.getMyBookings w = (Throw TypeError, w)
  /\ BookingApiV2.getBookingById bookingId w = (Throw TypeError, w).
Proof.
  intros Hs.
  unfold BookingApiV2.createBooking, BookingApiV2.getMyBookings,
    BookingApiV2.getBookingById.
  repeat split; rewrite cbind_run, (v2_fetch_unreachable _ _ _ _ Hs); reflexivity.
Qed.

Lemma v2_unreachable_witness :
  @BookingApiV2.getMyBookings sampleEngine (answering NoReply signedIn)
  = (Throw TypeError, answering NoReply signedIn).
Proof.
  assert (Hu : unreachable (answering NoReply signedIn)) by (intros r; reflexivity).
  destruct (@v2_unreachable sampleEngine sampleServices _ VNull "7" Hu) as (_ & E & _).
  exact E.
Defined.

Lemma v2_json_success `{Engine} (w : world) (status : Z) (data : jsval) :
  success status = true ->
  BookingApiV2.json (status, data) w = (BookingApiV2.responseJson data, w).
Proof. intros Hok. unfold success in Hok. unfold BookingApiV2.json. rewrite Hok. reflexivity. Qed.

Lemma v2_listing_run `{Engine} (w : world) (status : Z) (data : jsval) :
  (forall r, server w r = Reply status data) -> success status = true ->
  BookingApiV2.getMyBookings w
  = (let! decoded := BookingApiV2.responseJson data in
     match getOpt decoded "bookings" with
     | VArr l => BookingApiV1.mapResult BookingApiV2.processBooking l
     | _ => Throw TypeError
     end, w).
Proof.
  intros Hs Hok. unfold BookingApiV2.getMyBookings.
  rewrite cbind_run, (v2_fetch_reply _ _ _ _ _ _ Hs), cbind_run.
  rewrite (v2_json_success _ _ _ Hok).
  destruct (BookingApiV2.responseJson data) as [decoded | e]; [| reflexivity].
  cbn [bind]. rewrite cbind_lift. unfold getOpt.
  destruct (get decoded "bookings") as [x | e] eqn:Eg.
  - destruct x; reflexivity.
  - rewrite (get_typed decoded "bookings" e Eg). reflexivity.
Qed.

(** A body that is no string is what [response.json()] resolves with. *)
Lemma v2_responseJson_decoded `{Engine} (data : jsval) :
  (forall text, data = VStr text -> JSON_parse text <> None) ->
  BookingApiV2.responseJson data = Ok data.
Proof.
  intros Hd. destruct data as [| | | |text| |]; try reflexivity.
  unfold BookingApiV2.responseJson.
  destruct (JSON_parse text) eqn:E; [reflexivity |].
  exfalso. apply (Hd text eq_refl). exact E.
Qed.

Lemma v2_processBooking_object `{Engine} (fields : list (string * jsval)) :
  BookingApiV2.processBooking (VObj fields)
  = match getOpt (VObj fields) "images" with
    | VStr text =>
        match JSON_parse text with
        | Some parsed => Ok (VObj (BookingApiV1.setField "images" parsed fields))
        | None => Throw SyntaxError
        end
    | images =>
        Ok (VObj (BookingApiV1.setField "images" (or images (VArr [])) fields))
    end.
Proof.
  unfold BookingApiV2.processBooking, getOpt. cbn [get bind BookingApiV1.spread].
  destruct (match lookup "images" fields with Some x => x | None => VUndefined end);
    try reflexivity.
  unfold parseJSON. cbn [toString bind]. destruct (JSON_parse s); reflexivity.
Qed.




Lemma getOpt_setField (k k0 : string) (v : jsval) (fields : list (string * jsval)) :
  getOpt (VObj (BookingApiV1.setField k v fields)) k0
  = if k0 =? k then v else getOpt (VObj fields) k0.
Proof.
  unfold getOpt. cbn [get]. destruct (k0 =? k) eqn:E.
  - apply String.eqb_eq in E. subst k0. rewrite lookup_setField_eq. reflexivity.
  - apply String.eqb_neq in E. rewrite (lookup_setField_ne k k0 v fields E). reflexivity.
Qed.

(** X25: when the records are objects whose [images] are no text, the
    listing of the client over [fetch] returns one record per raw record,
    in order, each with every property of the raw record but [images],
    which is the raw [images] when they are truthy and the empty list
    otherwise. *)
Theorem v2_listing_keeps_records `{Engine} (w : world) (status : Z) (data : jsval)
    (l : list jsval) :
  (forall r, server w r = Reply status data) -> success status = true ->
  getOpt data "bookings" = VArr l -> allObjects l = true ->
  Forall (fun x => isString (getOpt x "images") = false) l ->
  exists out,
    BookingApiV2.getMyBookings w = (Ok out, w)
    /\ Forall2 (fun x y => forall k,
                  getOpt y k = if k =? "images" then or (getOpt x "images") (VArr [])
                               else getOpt x k) l out.
Proof.
  intros Hs Hok Hb Ho Hi. rewrite (v2_listing_run w status data Hs Hok).
  rewrite v2_responseJson_decoded by (intros text ->; discriminate).
  cbn [bind]. rewrite Hb. clear Hs Hok Hb.
  assert (E : exists out,
             BookingApiV1.mapResult BookingApiV2.processBooking l = Ok out
             /\ Forall2 (fun x y => forall k,
                  getOpt y k = if k =? "images" then or (getOpt x "images") (VArr [])
                               else getOpt x k) l out).
  { induction l as [|x r IH].
    - exists []. split; [reflexivity | constructor].
    - cbn [allObjects forallb] in Ho. apply andb_true_iff in Ho as [Hx Hr].
      apply List.Forall_cons_iff in Hi as [Hix Hir].
      destruct (IH Hr Hir) as (out & Er & F).
      destruct x as [| | | | | |fields]; try discriminate.
      exists (VObj (BookingApiV1.setField "images"
                      (or (getOpt (VObj fields) "images") (VArr [])) fields) :: out).
      split.
      + cbn [BookingApiV1.mapResult]. rewrite v2_processBooking_object, Er.
        destruct (getOpt (VObj fields) "images"); try reflexivity. discriminate.
      + constructor; [| exact F]. intros k. apply getOpt_setField. }
  destruct E as (out & -> & F). exists out. split; [reflexivity | exact F].
Qed.

(** The theorem at a record without images and a record with two. *)
Lemma v2_listing_keeps_records_witness :
  exists out,
    @BookingApiV2.getMyBookings sampleEngine
       (answering (Reply 200 (VObj [("bookings",
          VArr [VObj [("bookingId", VNum (Dec false 7 0))];
                VObj [("images", VArr [VStr "a.jpg"; VStr "b.jpg"])]])])) signedIn)
    = (Ok out,
       answering (Reply 200 (VObj [("bookings",
          VArr [VObj [("bookingId", VNum (Dec false 7 0))];
                VObj [("images", VArr [VStr "a.jpg"; VStr "b.jpg"])]])])) signedIn)
    /\ List.length out = 2%nat.
Proof.
  assert (Hs : forall r,
             server (answering (Reply 200 (VObj [("bookings",
                VArr [VObj [("bookingId", VNum (Dec false 7 0))];
                      VObj [("images", VArr [VStr "a.jpg"; VStr "b.jpg"])]])])) signedIn) r
             = Reply 200 (VObj [("bookings",
                VArr [VObj [("bookingId", VNum (Dec false 7 0))];
                      VObj [("images", VArr [VStr "a.jpg"; VStr "b.jpg"])]])]))
    by (intros r; reflexivity).
  assert (Hi : Forall (fun x => isString (getOpt x "images") = false)
                 [VObj [("bookingId", VNum (Dec false 7 0))];
                  VObj [("images", VArr [VStr "a.jpg"; VStr "b.jpg"])]])
    by (repeat constructor).
  destruct (@v2_listing_keeps_records sampleEngine _ _ _ _ Hs eq_refl eq_refl eq_refl Hi)
    as (out & E & F).
  exists out. split; [exact E |].
  symmetry. exact (List.Forall2_length F).
Defined.
(** X26: [logout] of the older context removes ['user'] and nothing else:
    a persisted token outlives the logout.  The user is signed out in
    memory at once, and a restart of the older context restores no
    session. *)
Theorem v1_logout_leaves_token `{Engine} (p : provider) (w : world) :
  exists p1 w1,
    @logoutV1 asyncStorage p w = (Ok tt, p1, w1)
    /\ user (current p1) = VNull
    /\ loading (current (fire p1)) = false
    /\ storage w1 !! "user" = None
    /\ (forall k, k <> "user" -> storage w1 !! k = storage w !! k)
    /\ AuthContextV1.loadStoredUser initial w1
       = (Ok {| user := VNull; loading := false |}, w1).
Proof.
  eexists _, _. split; [reflexivity |]. cbn [storage setStorage].
  assert (Hu : storage (setStorage (delete "user" (storage w)) w) !! "user" = None).
  { cbn [storage setStorage]. apply lookup_delete_eq. }
  repeat split.
  - apply lookup_delete_eq.
  - intros k Hk. apply lookup_delete_ne. congruence.
  - unfold AuthContextV1.loadStoredUser, tryCatch, cbind, getItem.
    rewrite Hu. reflexivity.
Qed.

End Extra.
